(** * create-bare-project: package selection, change sets, prebuild cleanup
      and manifest rewriting

    Shallow embedding of [tools/src/commands/CreateBareProject.ts].

    - JavaScript strings are [string], in their UTF-8 encoding; the separators
      the command looks for ([,], [/], [.]) are in the ASCII range, and white
      space is what [String.prototype.trim] takes for it.
    - Arrays are lists; [push] appends at the end.
    - Objects used as dictionaries ([allPackageMap], [dependencies],
      [resolutions]) are [gmap string _]; the keys a plain object inherits
      from [Object.prototype] are listed in [objectPrototypeKeys].
    - Asynchronous functions run one after the other (every call is awaited),
      so they are computations of the state-and-exception monad [M] over a
      [World] made of the file system, the process working directory and the
      trace of the interactions with the outside.
    - The collaborators that are imported from other modules ([ExpoCLI],
      [Git], [Packages], [Directories], [JsonFile], [npm], [yarn]) are the
      fields of an [Env] record. *)

From Stdlib Require Import String Ascii List Bool Arith Lia.
From stdpp Require Import base option list strings gmap.
Import ListNotations.

Local Open Scope string_scope.
Local Open Scope list_scope.

(** ** JavaScript string primitives *)

Module Js.

(** [s.split(sep)] for a one-character separator: never empty, and the
    empty string splits into one empty piece. *)
Fixpoint split (sep : ascii) (s : string) : list string :=
  match s with
  | EmptyString => [EmptyString]
  | String c rest =>
      if Ascii.eqb c sep then EmptyString :: split sep rest
      else match split sep rest with
           | piece :: pieces => String c piece :: pieces
           | [] => [String c EmptyString]
           end
  end.

(** [pieces.join(sep)] *)
Definition join (sep : string) (pieces : list string) : string :=
  String.concat sep pieces.

(** [s.startsWith(p)] *)
Definition startsWith (s p : string) : bool := String.prefix p s.

(** [s.endsWith("/")] and the like, for one character. *)
Fixpoint endsWithChar (s : string) (c : ascii) : bool :=
  match s with
  | EmptyString => false
  | String d EmptyString => Ascii.eqb d c
  | String _ rest => endsWithChar rest c
  end.

(** White space and line terminators in the ASCII range: TAB, LF, VT, FF, CR
    and SPACE. *)
Definition isWhiteSpace (c : ascii) : bool :=
  let n := nat_of_ascii c in
  (Nat.leb 9 n && Nat.leb n 13) || Nat.eqb n 32.

(** The number of bytes of the white space character or line terminator a
    string starts with, or 0 when it starts with none.  Strings hold the
    UTF-8 encoding of the JavaScript string: one byte for the ASCII ones, two
    for U+00A0, three for U+1680, U+2000 to U+200A, U+2028, U+2029, U+202F,
    U+205F, U+3000 and U+FEFF. *)
Definition whiteSpaceWidth (s : string) : nat :=
  match s with
  | EmptyString => 0
  | String a rest =>
      if isWhiteSpace a then 1
      else
        match rest with
        | String b rest' =>
            let a := nat_of_ascii a in
            let b := nat_of_ascii b in
            if Nat.eqb a 194 && Nat.eqb b 160 then 2
            else
              match rest' with
              | String c _ =>
                  let c := nat_of_ascii c in
                  if Nat.eqb a 225 && Nat.eqb b 154 && Nat.eqb c 128 then 3
                  else if Nat.eqb a 226 && Nat.eqb b 128
                          && ((Nat.leb 128 c && Nat.leb c 138)
                              || Nat.eqb c 168 || Nat.eqb c 169 || Nat.eqb c 175)
                  then 3
                  else if Nat.eqb a 226 && Nat.eqb b 129 && Nat.eqb c 159 then 3
                  else if Nat.eqb a 227 && Nat.eqb b 128 && Nat.eqb c 128 then 3
                  else if Nat.eqb a 239 && Nat.eqb b 187 && Nat.eqb c 191 then 3
                  else 0
              | EmptyString => 0
              end
        | EmptyString => 0
        end
  end.

(** [s.trimStart()] *)
Fixpoint trimStart (s : string) : string :=
  match s with
  | EmptyString => EmptyString
  | String _ rest1 =>
      match whiteSpaceWidth s with
      | 0 => s
      | 1 => trimStart rest1
      | 2 =>
          match rest1 with
          | String _ rest2 => trimStart rest2
          | EmptyString => s
          end
      | _ =>
          match rest1 with
          | String _ (String _ rest3) => trimStart rest3
          | _ => s
          end
      end
  end.

(** [s.trimEnd()]: a character is kept unless all that is left of the string
    from it on is white space. *)
Fixpoint trimEnd (s : string) : string :=
  match s with
  | EmptyString => EmptyString
  | String c rest =>
      if String.eqb (trimStart s) "" then EmptyString
      else String c (trimEnd rest)
  end.

(** [s.trim()] *)
Definition trim (s : string) : string := trimEnd (trimStart s).

(** Truthiness of a string value: [!!s]. *)
Definition truthy (s : string) : bool := negb (String.eqb s "").

End Js.

(** ** Node's [path] module, POSIX flavour

    Paths are handled through their segments.  [cwd] is [process.cwd()],
    which is always absolute. *)

Module Path.

Definition sep : ascii := "/"%char.

Definition segments (p : string) : list string := Js.split sep p.

Definition isAbsolute (p : string) : bool := Js.startsWith p "/".

(** One step of [normalizeString]: empty and [.] segments vanish, [..]
    removes the segment before it, or stays when there is none to remove
    and [allowAboveRoot] is set. *)
Definition pushSegment (allowAboveRoot : bool) (stack : list string)
    (seg : string) : list string :=
  if String.eqb seg "" || String.eqb seg "." then stack
  else if String.eqb seg ".." then
    match last stack with
    | Some top =>
        if String.eqb top ".." then
          (if allowAboveRoot then stack ++ [seg] else stack)
        else removelast stack
    | None => if allowAboveRoot then [seg] else []
    end
  else stack ++ [seg].

Definition normalizeSegments (allowAboveRoot : bool) (segs : list string)
    : list string :=
  fold_left (pushSegment allowAboveRoot) segs [].

(** [path.normalize(p)] *)
Definition normalize (p : string) : string :=
  if String.eqb p "" then "."
  else
    let isAbs := isAbsolute p in
    let trailing := Js.endsWithChar p sep in
    let body := Js.join "/" (normalizeSegments (negb isAbs) (segments p)) in
    if String.eqb body "" then
      (if isAbs then "/" else if trailing then "./" else ".")
    else (if isAbs then "/" else "") ++ body ++ (if trailing then "/" else "").

(** [path.join(...parts)]: the non-empty parts glued with [/], normalized. *)
Definition join (parts : list string) : string :=
  match List.filter Js.truthy parts with
  | [] => "."
  | kept => normalize (Js.join "/" kept)
  end.

(** The segments of [path.resolve(p)]: an absolute path stands for
    itself, any other one is taken from the working directory. *)
Definition resolveSegments (cwd p : string) : list string :=
  if isAbsolute p then normalizeSegments false (segments p)
  else normalizeSegments false (segments cwd ++ segments p).

(** [path.resolve(p)] *)
Definition resolve (cwd p : string) : string :=
  "/" ++ Js.join "/" (resolveSegments cwd p).

(** What is left of two segment lists after their common prefix. *)
Fixpoint dropCommon (from to : list string) : list string * list string :=
  match from, to with
  | f :: from', t :: to' =>
      if String.eqb f t then dropCommon from' to' else (from, to)
  | _, _ => (from, to)
  end.

(** [path.relative(from, to)]: one [..] for every segment of [from] below
    the common ancestor, then the segments of [to] below it. *)
Definition relative (cwd from to : string) : string :=
  let '(up, down) := dropCommon (resolveSegments cwd from) (resolveSegments cwd to) in
  Js.join "/" (List.map (fun _ => "..") up ++ down).

End Path.

(** ** Data model *)

(** Modelled from the spec: the [Package] class of [tools/src/Packages.ts],
    which is not part of the sources at hand.  A package record has a name
    (an npm package name, so never [__proto__]: such a name does not start
    with an underscore), an absolute directory and declared dependencies,
    each of which has a name; these are the members the command reads. *)
Module Packages.

Record PackageDependency := { name : string }.

Record Package := {
  packageName : string;
  path : string;
  getDependencies : list PackageDependency;
}.

#[global] Instance PackageDependency_eq_dec : EqDecision PackageDependency.
Proof. solve_decision. Defined.

#[global] Instance Package_eq_dec : EqDecision Package.
Proof. solve_decision. Defined.

End Packages.
Import Packages.

Definition EXCLUDED_PACKAGES : list string :=
  [ "expo-module-template";
    "workspace-template";
    "first-package";
    "second-package";
    "unimodules-test-core" ].

(** [name] is [null] when the command line has no [--name]. *)
Record ActionOptions := {
  name : option string;
  packages : string;
  workingDirectory : string;
  changedBase : string;
  changedRef : string;
}.

(** The part of [package.json] the command reads and writes: for each of
    the two objects, which name has which value.  The order of the keys in
    the file is not represented. *)
Record PackageJson := {
  dependencies : option (gmap string string);
  resolutions : option (gmap string string);
}.

(** The file system: the regular files (absolute paths, in the order [glob]
    reports them), the directories, and the parsed JSON documents. *)
Record FS := {
  files : list string;
  directories : list string;
  packageJsons : gmap string PackageJson;
}.

Inductive Error :=
| ErrorMsg (message : string)      (* [throw new Error(message)] *)
| TypeError                        (* raised by the runtime on [undefined] *)
| ENOENT (file : string)           (* no such file or directory *)
| ModuleNotFound (file : string)   (* [require] of a missing module *)
| Rejected (detail : string).      (* failure of a collaborator *)

Inductive Event :=
| GetPackageByName (pkg : string)
| GetListOfPackages
| GetChangedFiles (base ref : string)
| RunExpoCli (command : string) (args : list string) (cwd : string)
| Spawn (command : string) (args : list string) (cwd : option string)
| MergeJson (file : string) (appId : string)
| Glob (pattern : string) (cwd : string)
| Unlink (file : string)
| Require (file : string)
| WriteJson (file : string)
| Chdir (dir : string)
| ConsoleLog (line : string).

Record World := {
  fs : FS;
  cwd : string;
  trace : list Event;
}.

(** ** The monad of awaited calls *)

Inductive Completion (A : Type) :=
| Return (a : A)
| Throw (e : Error).
Arguments Return {A} a.
Arguments Throw {A} e.

Definition M (A : Type) : Type := World -> World * Completion A.

Definition ret {A} (a : A) : M A := fun w => (w, Return a).

Definition throw {A} (e : Error) : M A := fun w => (w, Throw e).

Definition bind {A B} (m : M A) (k : A -> M B) : M B :=
  fun w =>
    match m w with
    | (w', Return a) => k a w'
    | (w', Throw e) => (w', Throw e)
    end.

Declare Scope js_scope.
Delimit Scope js_scope with js.
Notation "x <- m ;; k" := (bind m (fun x => k))
  (at level 100, m at next level, right associativity) : js_scope.
Notation "m ;; k" := (bind m (fun _ => k))
  (at level 100, right associativity) : js_scope.
Local Open Scope js_scope.

(** [try { body } finally { finalizer }]: the finalizer runs however the body
    completes; when it throws, its exception replaces the body's completion,
    otherwise the body's completion stands. *)
Definition tryFinally {A} (body : M A) (finalizer : M unit) : M A :=
  fun w =>
    let '(w1, completion) := body w in
    match finalizer w1 with
    | (w2, Return _) => (w2, completion)
    | (w2, Throw e) => (w2, Throw e)
    end.

Definition record (ev : Event) (w : World) : World :=
  {| fs := fs w; cwd := cwd w; trace := trace w ++ [ev] |}.

Definition withFs (w : World) (fs' : FS) : World :=
  {| fs := fs'; cwd := cwd w; trace := trace w |}.

(** A call that reads the outside. *)
Definition observe {A} (ev : Event) (read : FS -> Completion A) : M A :=
  fun w => (record ev w, read (fs w)).

(** A call that changes the outside, and succeeds or fails. *)
Definition perform (ev : Event) (run : FS -> FS * option Error) : M unit :=
  fun w =>
    let '(fs', failure) := run (fs w) in
    (withFs (record ev w) fs',
     match failure with Some e => Throw e | None => Return tt end).

Definition getCwd : M string := fun w => (w, Return (cwd w)).

(** ** Collaborators *)

Record Env := {
  (* Directories *)
  getExpoRepositoryRootDir : string;
  (* Packages *)
  listOfPackages : FS -> Completion (list Package);
  packageByName : string -> FS -> option Package;
  (* Git *)
  changedFiles : string -> string -> FS -> Completion (list string);
  (* ExpoCLI *)
  expoCli : string -> list string -> string -> FS -> FS * option Error;
  (* @expo/spawn-async *)
  spawn : string -> list string -> option string -> FS -> FS * option Error;
  (* JsonFile.mergeAsync on app.json *)
  mergeAppJson : string -> string -> FS -> FS * option Error;
}.

Definition getListOfPackagesAsync (env : Env) : M (list Package) :=
  observe GetListOfPackages (listOfPackages env).

Definition getPackageByName (env : Env) (pkg : string) : M (option Package) :=
  observe (GetPackageByName pkg) (fun fs => Return (packageByName env pkg fs)).

Definition getChangedFilesAsync (env : Env) (base ref : string) : M (list string) :=
  observe (GetChangedFiles base ref) (changedFiles env base ref).

Definition runExpoCliAsync (env : Env) (command : string) (args : list string)
    (dir : string) : M unit :=
  perform (RunExpoCli command args dir) (expoCli env command args dir).

Definition spawnAsync (env : Env) (command : string) (args : list string)
    (dir : option string) : M unit :=
  perform (Spawn command args dir) (spawn env command args dir).

Definition mergeAsync (env : Env) (file appId : string) : M unit :=
  perform (MergeJson file appId) (mergeAppJson env file appId).

Definition consoleLog (line : string) : M unit :=
  fun w => (record (ConsoleLog line) w, Return tt).

(** ** Package selection *)

(** Get transitive dependencies names from the [expo] package. *)
Definition getExpoTransitivePackages (env : Env) : M (list string) :=
  expoPackage <- getPackageByName env "expo" ;;
  match expoPackage with
  | None => throw (ErrorMsg "Cannot find the `expo` package.")
  | Some expoPackage =>
      ret (List.map (fun dep => Packages.name dep) (getDependencies expoPackage))
  end.

(** The test of the inner loop: the changed file is located inside the
    package path. *)
Definition isInsidePackage (cwd rootDir : string) (pkg : Package) (file : string)
    : bool :=
  let pkgRelativePath := Path.relative cwd rootDir (path pkg) in
  let relativePath := Path.relative cwd pkgRelativePath file in
  Js.truthy relativePath
  && negb (Js.startsWith relativePath "..")
  && negb (Path.isAbsolute relativePath).

(** The two nested [for] loops of [getChangedPackagesAsync], pushing on
    [result]. *)
Definition changedPackagesLoop (cwd rootDir : string) (allPackages : list Package)
    (changedFiles : list string) : list string :=
  fold_left
    (fun result file =>
       fold_left
         (fun result pkg =>
            if isInsidePackage cwd rootDir pkg file
            then result ++ [packageName pkg]
            else result)
         allPackages result)
    changedFiles [].

(** Get changed packages between two git refs. *)
Definition getChangedPackagesAsync (env : Env) (base ref : string) : M (list string) :=
  let rootDir := getExpoRepositoryRootDir env in
  allPackages <- getListOfPackagesAsync env ;;
  changedFiles <- getChangedFilesAsync env base ref ;;
  cwd <- getCwd ;;
  ret (changedPackagesLoop cwd rootDir allPackages changedFiles).

(** [EXCLUDED_PACKAGES.includes(packageName)] *)
Definition isExcluded (packageName : string) : bool :=
  bool_decide (packageName ∈ EXCLUDED_PACKAGES).

(** The extras of the [all] mode. *)
Definition allSupportedPackages (allPackages : list Package) : list string :=
  List.filter
    (fun packageName => Js.truthy packageName && negb (isExcluded packageName))
    (List.map (fun pkg => packageName pkg) allPackages).

(** The extras of a comma separated list. *)
Definition listedPackages (packages : string) : list string :=
  List.map (fun pkg => Js.trim pkg) (Js.split ","%char packages).

(** The [if] chain of [getExtraPackagesAsync] that sets [extraPackages]. *)
Definition extraPackagesOf (env : Env) (options : ActionOptions) : M (list string) :=
  let packages := packages options in
  if String.eqb packages "default" then ret []
  else if String.eqb packages "all" then
    allPackages <- getListOfPackagesAsync env ;;
    ret (allSupportedPackages allPackages)
  else if String.eqb packages "changed" then
    getChangedPackagesAsync env (changedBase options) (changedRef options)
  else ret (listedPackages packages).

(** Get extra packages for installation. *)
Definition getExtraPackagesAsync (env : Env) (options : ActionOptions) : M (list string) :=
  defaultPackages <- getExpoTransitivePackages env ;;
  extraPackages <- extraPackagesOf env options ;;
  ret (defaultPackages ++ extraPackages).

(** ** Creating and prebuilding the project *)

(** [expo init] with the local [expo-template-blank] template. *)
Definition createManagedProjectAsync (env : Env) (name workDir : string) : M string :=
  let managedTemplateDir :=
    Path.join [getExpoRepositoryRootDir env; "templates"; "expo-template-blank"] in
  runExpoCliAsync env "init" [name; "-t"; managedTemplateDir; "--no-install"] workDir ;;
  ret (Path.join [workDir; name]).

(** [s.endsWith(suffix)] *)
Definition endsWith (s suffix : string) : bool :=
  let n := String.length s in
  let m := String.length suffix in
  Nat.leb m n && String.eqb (substring (n - m) m s) suffix.

(** A file name against the pattern [prefix*suffix]: the star stands for any
    run of characters without a separator. *)
Definition matchesStar (prefix suffix fileName : string) : bool :=
  Js.startsWith fileName prefix
  && endsWith (substring (String.length prefix)
                 (String.length fileName - String.length prefix) fileName) suffix
  && match Path.segments fileName with [_] => true | _ => false end.

(** [file] is an entry of the directory [dir] whose name matches. *)
Definition globMatch (cwd prefix suffix dir file : string) : bool :=
  match Path.resolveSegments cwd file with
  | [] => false
  | segs =>
      bool_decide (removelast segs = Path.resolveSegments cwd dir)
      && matchesStar prefix suffix (List.last segs "")
  end.

(** [glob(prefix + '*' + suffix, { cwd: dir, absolute: true })], over the
    regular files of [dir].  A directory whose name matches the pattern is
    outside the model: the statements below that speak of the matches speak
    of the matching regular files. *)
Definition glob (prefix suffix dir : string) : M (list string) :=
  fun w =>
    (record (Glob (prefix ++ "*" ++ suffix) dir) w,
     Return (List.filter (globMatch (cwd w) prefix suffix dir) (files (fs w)))).

(** [fs.promises.unlink(file)] *)
Definition unlink (file : string) : M unit :=
  perform (Unlink file)
    (fun fs =>
       if bool_decide (file ∈ files fs) then
         ({| files := List.filter (fun f => negb (String.eqb f file)) (files fs);
             directories := directories fs;
             packageJsons := packageJsons fs |}, None)
       else (fs, Some (ENOENT file))).

(** The JSON document [require(file)] loads.  An absolute path names the
    file itself.  Any other path is a module specifier, which Node looks up
    from the directory of the module of the command or in [node_modules], not
    from the working directory: the manifest of the project is not found
    there. *)
Definition moduleAt (fs : FS) (file : string) : option PackageJson :=
  if Path.isAbsolute file then packageJsons fs !! file else None.

(** [require(file)] of a JSON document. *)
Definition require (file : string) : M PackageJson :=
  observe (Require file)
    (fun fs =>
       match moduleAt fs file with
       | Some json => Return json
       | None => Throw (ModuleNotFound file)
       end).

(** [JsonFile.writeAsync(file, json)] *)
Definition writeAsync (file : string) (json : PackageJson) : M unit :=
  perform (WriteJson file)
    (fun fs =>
       ({| files := files fs;
           directories := directories fs;
           packageJsons := <[file := json]> (packageJsons fs) |}, None)).

(** [process.chdir(dir)] *)
Definition chdir (dir : string) : M unit :=
  fun w =>
    let target := Path.resolve (cwd w) dir in
    if bool_decide (target ∈ directories (fs w)) then
      ({| fs := fs w; cwd := target; trace := trace w ++ [Chdir dir] |}, Return tt)
    else (record (Chdir dir) w, Throw (ENOENT dir)).

(** [for (const x of items) body], threading the variables the body
    updates. *)
Fixpoint forOf {A S} (items : list A) (body : S -> A -> M S) (state : S) : M S :=
  match items with
  | [] => ret state
  | x :: rest => state' <- body state x ;; forOf rest body state'
  end.

(** The string U+203A followed by a space, in UTF-8. *)
Definition chevron : string :=
  String (ascii_of_nat 226) (String (ascii_of_nat 128) (String (ascii_of_nat 186) " ")).

(** The keys every object created by [{}] inherits from [Object.prototype];
    the value behind each of them is truthy. *)
Definition objectPrototypeKeys : list string :=
  [ "constructor"; "hasOwnProperty"; "isPrototypeOf"; "propertyIsEnumerable";
    "toLocaleString"; "toString"; "valueOf"; "__proto__";
    "__defineGetter__"; "__defineSetter__"; "__lookupGetter__"; "__lookupSetter__" ].

(** What [allPackageMap[name]] evaluates to. *)
Inductive Value :=
| Undefined
| PackageObject (pkg : Package)
| PrototypeMember (key : string).

#[global] Instance Value_eq_dec : EqDecision Value.
Proof. solve_decision. Defined.

Definition truthyValue (v : Value) : bool :=
  match v with Undefined => false | _ => true end.

(** The reducer [(accu, currValue) => { accu[currValue.packageName] =
    currValue; return accu; }] *)
Definition indexPackage (accu : gmap string Package) (currValue : Package)
    : gmap string Package :=
  <[packageName currValue := currValue]> accu.

(** [allPackages.reduce(indexPackage, {})] *)
Definition makePackageMap (allPackages : list Package) : gmap string Package :=
  fold_left indexPackage allPackages ∅.

(** [allPackageMap[name]]: an own key first, an inherited one next. *)
Definition getProperty (allPackageMap : gmap string Package) (name : string) : Value :=
  match allPackageMap !! name with
  | Some pkg => PackageObject pkg
  | None =>
      if bool_decide (name ∈ objectPrototypeKeys) then PrototypeMember name
      else Undefined
  end.

(** [Object.keys(object)].  A JavaScript object lists its keys in the order
    of their insertion; the map of the model does not keep that order, and
    the list here is in the order of the map.  Statements on the keys are on
    membership, never on position. *)
Definition objectKeys (object : gmap string string) : list string :=
  (map_to_list object).*1.

(** [new Set(values)]: every value once, in the order of first insertion. *)
Definition newSet (values : list Value) : list Value :=
  fold_left
    (fun set v => if bool_decide (v ∈ set) then set else set ++ [v])
    values [].

(** The packages to be installed. *)
Definition installPackagesOf (allPackageMap : gmap string Package)
    (declared : gmap string string) (extraInstallPackages : list string) : list Value :=
  newSet
    (List.map (fun name => getProperty allPackageMap name)
       (List.filter (fun name => truthyValue (getProperty allPackageMap name))
          (objectKeys declared ++ extraInstallPackages))).

(** The body of the loop over [installPackages]; [json] holds the
    [dependencies] and the [resolutions] of [projectPackageJson]. *)
Definition installPackage (projectDir : string)
    (json : gmap string string * gmap string string) (pkg : Value)
    : M (gmap string string * gmap string string) :=
  match pkg with
  | PackageObject pkg =>
      consoleLog ("- " ++ packageName pkg) ;;
      cwd <- getCwd ;;
      let relativePath := Path.relative cwd projectDir (path pkg) in
      ret (<[packageName pkg := relativePath]> json.1,
           <[packageName pkg := relativePath]> json.2)
  | PrototypeMember _ =>
      (* [pkg.packageName] and [pkg.path] are [undefined] *)
      consoleLog "- undefined" ;;
      throw TypeError
  | Undefined => throw TypeError
  end.

(** [prebuildProjectAsync], lines 105 to 128: the app identifiers and the
    packed template, located by its name. *)
Definition packBareTemplate (env : Env) (name projectDir workDir : string) : M string :=
  let appId := ("dev.expo." ++ name)%string in
  mergeAsync env (Path.join [projectDir; "app.json"]) appId ;;
  let bareTemplateDir :=
    Path.join [getExpoRepositoryRootDir env; "templates"; "expo-template-bare-minimum"] in
  spawnAsync env "npm" ["pack"; "--pack-destination"; workDir] (Some bareTemplateDir) ;;
  tarballs <- glob "expo-template-bare-minimum-" ".tgz" workDir ;;
  match tarballs with
  | bareTemplateTarball :: _ =>
      if Js.truthy bareTemplateTarball then ret bareTemplateTarball
      else throw (ErrorMsg "Failed to create expo-template-bare-minimum tarball.")
  | [] => throw (ErrorMsg "Failed to create expo-template-bare-minimum tarball.")
  end.

(** [prebuildProjectAsync], lines 130 to 136: [expo prebuild] against the
    archive, which is removed afterwards. *)
Definition prebuildFromTarball (env : Env) (projectDir bareTemplateTarball : string)
    : M unit :=
  tryFinally
    (runExpoCliAsync env "prebuild"
       ["--template"; bareTemplateTarball; "--no-install"] projectDir)
    (unlink bareTemplateTarball).

(** [prebuildProjectAsync], lines 138 to 164: update package.json for
    packages installation. *)
Definition setupPackageJson (env : Env) (name projectDir workDir : string)
    (extraInstallPackages : list string) : M unit :=
  let projectPackageJsonPath := Path.join [workDir; name; "package.json"] in
  allPackages <- getListOfPackagesAsync env ;;
  let allPackageMap := makePackageMap allPackages in
  projectPackageJson <- require projectPackageJsonPath ;;
  match dependencies projectPackageJson with
  | None => throw TypeError      (* [Object.keys(undefined)] *)
  | Some declared =>
      let installPackages :=
        installPackagesOf allPackageMap declared extraInstallPackages in
      consoleLog (chevron ++ "Packages to be installed" ++ String (ascii_of_nat 10) "") ;;
      let overrides := default ∅ (resolutions projectPackageJson) in
      json <- forOf installPackages (installPackage projectDir) (declared, overrides) ;;
      consoleLog (String (ascii_of_nat 10) "") ;;
      writeAsync projectPackageJsonPath
        {| dependencies := Some json.1; resolutions := Some json.2 |}
  end.

(** [expo prebuild], then package.json set up to have the expo dependencies
    at their local paths. *)
Definition prebuildProjectAsync (env : Env) (name projectDir workDir : string)
    (extraInstallPackages : list string) : M unit :=
  bareTemplateTarball <- packBareTemplate env name projectDir workDir ;;
  prebuildFromTarball env projectDir bareTemplateTarball ;;
  setupPackageJson env name projectDir workDir extraInstallPackages.

Definition action (env : Env) (options : ActionOptions) : M unit :=
  match name options with
  | None => throw (ErrorMsg "Missing project name. Run with `--name <string>`.")
  | Some name =>
      if negb (Js.truthy name) then
        throw (ErrorMsg "Missing project name. Run with `--name <string>`.")
      else
        extraPackages <- getExtraPackagesAsync env options ;;
        consoleLog (chevron ++ "Creating project" ++ String (ascii_of_nat 10) "") ;;
        projectDir <- createManagedProjectAsync env name (workingDirectory options) ;;
        consoleLog (chevron ++ "Prebuilding project" ++ String (ascii_of_nat 10) "") ;;
        prebuildProjectAsync env name projectDir (workingDirectory options) extraPackages ;;
        chdir projectDir ;;
        consoleLog (chevron ++ "Installing packages" ++ String (ascii_of_nat 10) "") ;;
        spawnAsync env "yarn" [] None
  end.

(** ** Names used in the statements *)

Definition expoNotFound : Error := ErrorMsg "Cannot find the `expo` package.".

Definition missingProjectName : Error :=
  ErrorMsg "Missing project name. Run with `--name <string>`.".

Definition prebuildArgs (bareTemplateTarball : string) : list string :=
  ["--template"; bareTemplateTarball; "--no-install"].

Definition withoutFile (file : string) (fs : FS) : FS :=
  {| files := List.filter (fun f => negb (String.eqb f file)) (files fs);
     directories := directories fs;
     packageJsons := packageJsons fs |}.

Definition tarballPattern (cwd workDir file : string) : bool :=
  globMatch cwd "expo-template-bare-minimum-" ".tgz" workDir file.

Definition manifestPath (workDir name : string) : string :=
  Path.join [workDir; name; "package.json"].

(** What one turn of the loop does to [dependencies] and [resolutions]. *)
Definition installed (cwd projectDir : string)
    (json : gmap string string * gmap string string) (v : Value)
    : gmap string string * gmap string string :=
  match v with
  | PackageObject pkg =>
      (<[packageName pkg := Path.relative cwd projectDir (path pkg)]> json.1,
       <[packageName pkg := Path.relative cwd projectDir (path pkg)]> json.2)
  | _ => json
  end.

Definition isPackageObject (v : Value) : Prop := ∃ pkg, v = PackageObject pkg.

(** [s.includes(c)] for one character. *)
Fixpoint containsChar (c : ascii) (s : string) : bool :=
  match s with
  | EmptyString => false
  | String d rest => Ascii.eqb d c || containsChar c rest
  end.

(** The number of times a character occurs. *)
Fixpoint countChar (c : ascii) (s : string) : nat :=
  match s with
  | EmptyString => 0
  | String d rest => (if Ascii.eqb d c then 1 else 0) + countChar c rest
  end.

(** The segments of a resolved path are names: not empty, neither [.] nor
    [..], and without a separator. *)
Definition isPlainSegment (seg : string) : Prop :=
  seg ≠ "" ∧ seg ≠ "." ∧ seg ≠ ".." ∧ containsChar Path.sep seg = false.

(** The line feed. *)
Definition newline : string := String (ascii_of_nat 10) "".

Definition installHeader : string :=
  (chevron ++ "Packages to be installed" ++ String (ascii_of_nat 10) "")%string.

(** What the loop prints for a value. *)
Definition installLine (v : Value) : list Event :=
  match v with
  | PackageObject pkg => [ConsoleLog ("- " ++ packageName pkg)]
  | PrototypeMember _ => [ConsoleLog "- undefined"]
  | Undefined => []
  end.

Definition logCreating : string :=
  (chevron ++ "Creating project" ++ newline)%string.

Definition logPrebuilding : string :=
  (chevron ++ "Prebuilding project" ++ newline)%string.

Definition logInstalling : string :=
  (chevron ++ "Installing packages" ++ newline)%string.

Definition templateArchiveNotFound : Error :=
  ErrorMsg "Failed to create expo-template-bare-minimum tarball.".

(** The interactions that only list the catalog or the changed files. *)
Definition isQuery (ev : Event) : Prop :=
  ev = GetListOfPackages ∨ ∃ base ref, ev = GetChangedFiles base ref.

#[global] Instance isPackageObject_dec v : Decision (isPackageObject v).
Proof.
  destruct v as [|pkg|key].
  - right. by intros [pkg ?].
  - left. by exists pkg.
  - right. by intros [pkg ?].
Defined.

(** ** A small workspace to run the command on *)

Module Demo.

Definition dep (n : string) : PackageDependency := {| Packages.name := n |}.

Definition expo : Package :=
  {| packageName := "expo"; path := "/repo/packages/expo";
     getDependencies := [dep "expo-asset"; dep "expo-constants"] |}.

Definition expoAsset : Package :=
  {| packageName := "expo-asset"; path := "/repo/packages/expo-asset";
     getDependencies := [] |}.

Definition expoConstants : Package :=
  {| packageName := "expo-constants"; path := "/repo/packages/expo-constants";
     getDependencies := [] |}.

Definition expoCamera : Package :=
  {| packageName := "expo-camera"; path := "/repo/packages/expo-camera";
     getDependencies := [] |}.

Definition expoRouter : Package :=
  {| packageName := "expo-router"; path := "/repo/packages/expo-router";
     getDependencies := [] |}.

Definition moduleTemplate : Package :=
  {| packageName := "expo-module-template";
     path := "/repo/packages/expo-module-template";
     getDependencies := [] |}.

Definition workspace : list Package :=
  [expo; expoAsset; expoConstants; expoCamera; expoRouter; moduleTemplate].

(** The manifest the blank template comes with. *)
Definition templateManifest : PackageJson :=
  {| dependencies :=
       Some (<["expo" := "~45.0.0"]> (<["react" := "17.0.2"]> ∅));
     resolutions := None |}.

Definition addFile (file : string) (fs : FS) : FS :=
  {| files := files fs ++ [file];
     directories := directories fs;
     packageJsons := packageJsons fs |}.

(** [expo init] creates the project with its manifest; [expo prebuild]
    leaves the files as they are. *)
Definition runCli (command : string) (args : list string) (dir : string)
    (fs : FS) : FS * option Error :=
  if String.eqb command "init" then
    match args with
    | name :: _ =>
        ({| files := files fs;
            directories := directories fs ++ [Path.join [dir; name]];
            packageJsons :=
              <[Path.join [dir; name; "package.json"] := templateManifest]>
                (packageJsons fs) |}, None)
    | [] => (fs, Some (Rejected "expo init"))
    end
  else (fs, None).

(** [npm pack] drops the archive of the template in the destination. *)
Definition runProcess (command : string) (args : list string) (dir : option string)
    (fs : FS) : FS * option Error :=
  match command, args with
  | "npm", [_; _; destination] =>
      (addFile (Path.join [destination; "expo-template-bare-minimum-45.0.0.tgz"]) fs,
       None)
  | _, _ => (fs, None)
  end.

Definition env : Env :=
  {| getExpoRepositoryRootDir := "/repo";
     listOfPackages := fun _ => Return workspace;
     packageByName := fun n _ =>
       List.find (fun pkg => String.eqb (packageName pkg) n) workspace;
     changedFiles := fun _ _ _ =>
       Return ["packages/expo-camera/ios/Foo.m";
               "packages/expo-camera/src/index.ts";
               "README.md"];
     expoCli := runCli;
     spawn := runProcess;
     mergeAppJson := fun _ _ fs => (fs, None) |}.

Definition emptyFs : FS :=
  {| files := []; directories := ["/work"]; packageJsons := ∅ |}.

Definition world (fs : FS) : World :=
  {| fs := fs; cwd := "/repo"; trace := [] |}.

Definition options (name : option string) (packages : string) : ActionOptions :=
  {| name := name; packages := packages; workingDirectory := "/work";
     changedBase := "master"; changedRef := "HEAD" |}.

End Demo.

(** ** Variations of the workspace *)

Definition expoWithTestCore : Package :=
  {| packageName := "expo"; path := "/repo/packages/expo";
     getDependencies := [Demo.dep "expo-asset"; Demo.dep "unimodules-test-core"] |}.

Definition envWithTestCore : Env :=
  {| getExpoRepositoryRootDir := "/repo";
     listOfPackages := fun _ => Return (expoWithTestCore :: Demo.workspace);
     packageByName := fun n _ =>
       if String.eqb n "expo" then Some expoWithTestCore else None;
     changedFiles := fun _ _ _ => Return [];
     expoCli := Demo.runCli;
     spawn := Demo.runProcess;
     mergeAppJson := fun _ _ fs => (fs, None) |}.

(** A workspace in which [expo prebuild] fails. *)
Definition envFailingPrebuild : Env :=
  {| getExpoRepositoryRootDir := "/repo";
     listOfPackages := fun _ => Return Demo.workspace;
     packageByName := packageByName Demo.env;
     changedFiles := changedFiles Demo.env;
     expoCli := fun command args dir fs =>
       if String.eqb command "prebuild" then (fs, Some (Rejected "expo prebuild"))
       else Demo.runCli command args dir fs;
     spawn := Demo.runProcess;
     mergeAppJson := fun _ _ fs => (fs, None) |}.

(** The file system once [expo init] has created the project [demo]. *)
Definition projectFs (fs : FS) : FS :=
  (Demo.runCli "init" ["demo"] "/work" fs).1.

Definition demoTarball : string := "/work/expo-template-bare-minimum-45.0.0.tgz".

Definition packedWorld (env : Env) (fs : FS) : World :=
  (packBareTemplate env "demo" "/work/demo" "/work" (Demo.world (projectFs fs))).1.

(** The stale archive of an earlier run. *)
Definition staleFs : FS :=
  {| files := ["/work/expo-template-bare-minimum-44.0.0.tgz"];
     directories := ["/work"];
     packageJsons := ∅ |}.

(** A package inside the directory of another one. *)
Definition bundledModules : Package :=
  {| packageName := "bundled-native-modules";
     path := "/repo/packages/expo/bundledNativeModules";
     getDependencies := [] |}.

Definition envNested : Env :=
  {| getExpoRepositoryRootDir := "/repo";
     listOfPackages := fun _ => Return (Demo.workspace ++ [bundledModules]);
     packageByName := packageByName Demo.env;
     changedFiles := fun _ _ _ =>
       Return ["packages/expo/bundledNativeModules/index.js"];
     expoCli := Demo.runCli;
     spawn := Demo.runProcess;
     mergeAppJson := fun _ _ fs => (fs, None) |}.

(** A workspace without the [expo] package. *)
Definition envWithoutExpo : Env :=
  {| getExpoRepositoryRootDir := "/repo";
     listOfPackages := fun _ => Return [Demo.expoCamera];
     packageByName := fun _ _ => None;
     changedFiles := changedFiles Demo.env;
     expoCli := Demo.runCli;
     spawn := Demo.runProcess;
     mergeAppJson := fun _ _ fs => (fs, None) |}.

(** A workspace in which git rejects the refs. *)
Definition envFailingGit : Env :=
  {| getExpoRepositoryRootDir := "/repo";
     listOfPackages := fun _ => Return Demo.workspace;
     packageByName := packageByName Demo.env;
     changedFiles := fun _ _ _ => Throw (Rejected "git diff");
     expoCli := Demo.runCli;
     spawn := Demo.runProcess;
     mergeAppJson := fun _ _ fs => (fs, None) |}.

(** A workspace in which [npm pack] leaves no archive. *)
Definition envWithoutArchive : Env :=
  {| getExpoRepositoryRootDir := "/repo";
     listOfPackages := fun _ => Return Demo.workspace;
     packageByName := packageByName Demo.env;
     changedFiles := changedFiles Demo.env;
     expoCli := Demo.runCli;
     spawn := fun _ _ _ fs => (fs, None);
     mergeAppJson := fun _ _ fs => (fs, None) |}.

(** A workspace in which [expo prebuild] succeeds and deletes the archive it
    was given. *)
Definition envConsumingArchive : Env :=
  {| getExpoRepositoryRootDir := "/repo";
     listOfPackages := fun _ => Return Demo.workspace;
     packageByName := packageByName Demo.env;
     changedFiles := changedFiles Demo.env;
     expoCli := fun command args dir fs =>
       if String.eqb command "prebuild" then
         ({| files := []; directories := directories fs;
             packageJsons := packageJsons fs |}, None)
       else Demo.runCli command args dir fs;
     spawn := Demo.runProcess;
     mergeAppJson := fun _ _ fs => (fs, None) |}.

(** The entry of [n] in the [dependencies] of the manifest at [file], and
    in its [resolutions]: what [require(file).dependencies[n]] and
    [require(file).resolutions[n]] would read. *)
Definition dependencyAt (fs : FS) (file n : string) : option string :=
  manifest ← packageJsons fs !! file;
  declared ← dependencies manifest;
  declared !! n.

Definition resolutionAt (fs : FS) (file n : string) : option string :=
  manifest ← packageJsons fs !! file;
  resolved ← resolutions manifest;
  resolved !! n.

(** The test of the inner loop in the words of the specification, to be
    compared with [isInsidePackage] of the source: the path of the file
    relative to the package path is not empty, does not begin with a
    parent-directory traversal marker, which is a first segment [..], and is
    not absolute. *)
Definition beginsWithTraversalMarker (relativePath : string) : bool :=
  match Path.segments relativePath with
  | first :: _ => String.eqb first ".."
  | [] => false
  end.

Definition specifiedInsidePackage (cwd rootDir : string) (pkg : Package)
    (file : string) : bool :=
  let relativePath := Path.relative cwd (Path.relative cwd rootDir (path pkg)) file in
  negb (String.eqb relativePath "")
  && negb (beginsWithTraversalMarker relativePath)
  && negb (Path.isAbsolute relativePath).

(** A changed file below a directory of [expo-camera] whose name starts with
    two dots. *)
Definition cacheFile : string := "packages/expo-camera/..cache/x".

Definition envDottedDirectory : Env :=
  {| getExpoRepositoryRootDir := "/repo";
     listOfPackages := fun _ => Return Demo.workspace;
     packageByName := packageByName Demo.env;
     changedFiles := fun _ _ _ => Return [cacheFile];
     expoCli := Demo.runCli;
     spawn := Demo.runProcess;
     mergeAppJson := fun _ _ fs => (fs, None) |}.

(** A workspace in which [expo prebuild] removes the archive it was given
    and then fails. *)
Definition envFailingAfterConsuming : Env :=
  {| getExpoRepositoryRootDir := "/repo";
     listOfPackages := fun _ => Return Demo.workspace;
     packageByName := packageByName Demo.env;
     changedFiles := changedFiles Demo.env;
     expoCli := fun command args dir fs =>
       if String.eqb command "prebuild" then
         ({| files := []; directories := directories fs;
             packageJsons := packageJsons fs |}, Some (Rejected "expo prebuild"))
       else Demo.runCli command args dir fs;
     spawn := Demo.runProcess;
     mergeAppJson := fun _ _ fs => (fs, None) |}.

(** U+00A0 NO-BREAK SPACE and U+FEFF ZERO WIDTH NO-BREAK SPACE, in UTF-8. *)
Definition noBreakSpace : string :=
  String (ascii_of_nat 194) (String (ascii_of_nat 160) "").

Definition byteOrderMark : string :=
  String (ascii_of_nat 239) (String (ascii_of_nat 187) (String (ascii_of_nat 191) "")).

(** * Properties *)

(** ** Strings and paths *)

Example split_commas : Js.split ","%char "a,,b," = ["a"; ""; "b"; ""].
Proof. reflexivity. Qed.

Example split_empty : Js.split ","%char "" = [""].
Proof. reflexivity. Qed.

Example trim_both : Js.trim "  expo-camera  " = "expo-camera".
Proof. reflexivity. Qed.

Example trim_inner : Js.trim " a b " = "a b".
Proof. reflexivity. Qed.

Example relative_inside :
  Path.relative "/repo" "packages/expo-camera" "packages/expo-camera/ios/Foo.m"
  = "ios/Foo.m".
Proof. reflexivity. Qed.

Example relative_outside :
  Path.relative "/repo" "packages/expo-camera" "packages/expo-router/index.ts"
  = "../expo-router/index.ts".
Proof. reflexivity. Qed.

Example relative_same : Path.relative "/repo" "packages/expo" "packages/expo" = "".
Proof. reflexivity. Qed.

Example relative_up : Path.relative "/" "/a/b" "/a" = "..".
Proof. reflexivity. Qed.

Example relative_root : Path.relative "/repo" "/repo" "/repo/packages/expo" = "packages/expo".
Proof. reflexivity. Qed.

Example inside_the_package :
  isInsidePackage "/repo" "/repo" Demo.expoCamera "packages/expo-camera/ios/Foo.m" = true.
Proof. reflexivity. Qed.

Example outside_the_package :
  isInsidePackage "/repo" "/repo" Demo.expoRouter "packages/expo-camera/ios/Foo.m" = false.
Proof. reflexivity. Qed.

(** A directory whose name starts with two dots is taken for a way out of
    the package. *)
Example two_dots_directory :
  isInsidePackage "/repo" "/repo" Demo.expoCamera "packages/expo-camera/..cache/x" = false.
Proof. reflexivity. Qed.

Example one_changed_file :
  changedPackagesLoop "/repo" "/repo" Demo.workspace ["packages/expo-camera/ios/Foo.m"]
  = ["expo-camera"].
Proof. reflexivity. Qed.

Example tarball_name :
  matchesStar "expo-template-bare-minimum-" ".tgz" "expo-template-bare-minimum-45.0.0.tgz"
  = true
  ∧ matchesStar "expo-template-bare-minimum-" ".tgz" "expo-template-bare-minimum.tgz"
    = false
  ∧ matchesStar "expo-template-bare-minimum-" ".tgz" "expo-template-bare-minimum-.tgz"
    = true.
Proof. by repeat split. Qed.

Example join_parts : Path.join ["/work"; "demo"; "package.json"] = "/work/demo/package.json".
Proof. reflexivity. Qed.

Example join_dots : Path.join ["work/"; "../x/./y/"] = "x/y/".
Proof. reflexivity. Qed.

Example normalize_above : Path.normalize "../../a/../b" = "../../b".
Proof. reflexivity. Qed.

(** ** Change sets *)

Section ChangeSets.

Variables (cwd rootDir : string) (allPackages : list Package).

Lemma inner_loop file (result : list string) :
  fold_left
    (fun result pkg =>
       if isInsidePackage cwd rootDir pkg file
       then result ++ [packageName pkg] else result)
    allPackages result
  = result ++ List.map packageName
                (List.filter (fun pkg => isInsidePackage cwd rootDir pkg file) allPackages).
Proof.
  revert result.
  induction allPackages as [|pkg pkgs IH]; intros result; simpl.
  - by rewrite app_nil_r.
  - rewrite IH. destruct (isInsidePackage cwd rootDir pkg file); simpl.
    + by rewrite <- app_assoc.
    + done.
Qed.

(** The loops list, file after file, the names of the packages the file is
    inside of. *)
Lemma changedPackagesLoop_flat_map changed :
  changedPackagesLoop cwd rootDir allPackages changed
  = flat_map
      (fun file =>
         List.map packageName
           (List.filter (fun pkg => isInsidePackage cwd rootDir pkg file) allPackages))
      changed.
Proof.
  unfold changedPackagesLoop.
  enough (H : forall result,
    fold_left
      (fun result file =>
         fold_left
           (fun result pkg =>
              if isInsidePackage cwd rootDir pkg file
              then result ++ [packageName pkg] else result)
           allPackages result)
      changed result
    = result ++ flat_map
        (fun file =>
           List.map packageName
             (List.filter (fun pkg => isInsidePackage cwd rootDir pkg file) allPackages))
        changed) by apply (H []).
  induction changed as [|file rest IH]; intros result; simpl.
  - by rewrite app_nil_r.
  - rewrite IH, inner_loop. by rewrite <- app_assoc.
Qed.

Lemma elem_of_changedPackagesLoop changed n :
  n ∈ changedPackagesLoop cwd rootDir allPackages changed
  ↔ ∃ file pkg, file ∈ changed ∧ pkg ∈ allPackages ∧ packageName pkg = n
                ∧ isInsidePackage cwd rootDir pkg file = true.
Proof.
  rewrite changedPackagesLoop_flat_map, list_elem_of_In, in_flat_map.
  split.
  - intros (file & Hfile & Hn). apply in_map_iff in Hn as (pkg & Hname & Hpkg).
    apply filter_In in Hpkg as [Hpkg Hin].
    exists file, pkg. by rewrite !list_elem_of_In.
  - intros (file & pkg & Hfile & Hpkg & Hname & Hin).
    exists file. rewrite <- list_elem_of_In. split; [done|].
    apply in_map_iff. exists pkg. split; [done|].
    apply filter_In. by rewrite <- list_elem_of_In.
Qed.


End ChangeSets.

Lemma isInsidePackage_spec cwd rootDir pkg file :
  isInsidePackage cwd rootDir pkg file = true
  ↔ let relativePath :=
      Path.relative cwd (Path.relative cwd rootDir (path pkg)) file in
    relativePath ≠ "" ∧ Js.startsWith relativePath ".." = false
    ∧ Path.isAbsolute relativePath = false.
Proof.
  unfold isInsidePackage, Js.truthy. cbv zeta.
  rewrite !andb_true_iff, !negb_true_iff, String.eqb_neq. tauto.
Qed.

Lemma unique_name (pkgs : list Package) p q :
  NoDup (List.map packageName pkgs) → p ∈ pkgs → q ∈ pkgs →
  packageName p = packageName q → p = q.
Proof.
  induction pkgs as [|x pkgs IH]; simpl; intros Hnd Hp Hq Hname.
  - by apply elem_of_nil in Hp.
  - apply NoDup_cons in Hnd as [Hx Hnd].
    apply elem_of_cons in Hp as [->|Hp]; apply elem_of_cons in Hq as [->|Hq].
    + done.
    + exfalso. apply Hx. rewrite Hname. apply list_elem_of_fmap. by exists q.
    + exfalso. apply Hx. rewrite <- Hname. apply list_elem_of_fmap. by exists p.
    + by apply IH.
Qed.

Lemma getChangedPackagesAsync_run env base ref w allPackages changed :
  listOfPackages env (fs w) = Return allPackages →
  changedFiles env base ref (fs w) = Return changed →
  getChangedPackagesAsync env base ref w
  = (record (GetChangedFiles base ref) (record GetListOfPackages w),
     Return (changedPackagesLoop (cwd w) (getExpoRepositoryRootDir env)
               allPackages changed)).
Proof.
  intros Hpkgs Hfiles.
  unfold getChangedPackagesAsync, bind, getListOfPackagesAsync,
    getChangedFilesAsync, observe, getCwd, ret.
  rewrite Hpkgs. simpl. by rewrite Hfiles.
Qed.

(** Change-set resolution as the source tests it, for a catalog whose names
    are unique: the result holds the name of a package exactly when, for
    some changed file, the path of the file relative to the package path is
    not empty, does not start with the two characters [..] and is not
    absolute; and it holds nothing but names of catalog packages. *)
Lemma changed_packages_pass_the_test_of_the_source env base ref w allPackages changed :
  listOfPackages env (fs w) = Return allPackages →
  changedFiles env base ref (fs w) = Return changed →
  NoDup (List.map packageName allPackages) →
  ∃ w' result,
    getChangedPackagesAsync env base ref w = (w', Return result)
    ∧ (∀ n, n ∈ result → ∃ pkg, pkg ∈ allPackages ∧ packageName pkg = n)
    ∧ ∀ pkg, pkg ∈ allPackages →
        (packageName pkg ∈ result
         ↔ ∃ file, file ∈ changed ∧
             let relativePath :=
               Path.relative (cwd w)
                 (Path.relative (cwd w) (getExpoRepositoryRootDir env) (path pkg))
                 file in
             relativePath ≠ "" ∧ Js.startsWith relativePath ".." = false
             ∧ Path.isAbsolute relativePath = false).
Proof.
  intros Hpkgs Hfiles Hnames.
  eexists _, _. split; [by apply getChangedPackagesAsync_run|]. split.
  - intros n Hn. apply elem_of_changedPackagesLoop in Hn
      as (file & pkg & _ & Hpkg & Hname & _). by exists pkg.
  - intros pkg Hpkg. rewrite elem_of_changedPackagesLoop. split.
    + intros (file & q & Hfile & Hq & Hname & Hin).
      assert (q = pkg) as -> by (by apply (unique_name allPackages)).
      exists file. split; [done|]. by apply isInsidePackage_spec.
    + intros (file & Hfile & Hin). exists file, pkg.
      repeat split; try done. by apply isInsidePackage_spec.
Qed.

(** C1. The change-set resolution misses a package that owns a changed
    file.  The file [packages/expo-camera/..cache/x] lies in the directory of
    the catalog package [expo-camera]: its resolved path continues the path
    of the package, and its path relative to the package, [..cache/x], is not
    empty, does not begin with the parent-directory marker [..] and is not
    absolute, so the test of the specification holds.  The test of the
    source, [startsWith('..')], takes the directory [..cache] for a traversal
    and fails, and the result of the [changed] mode is empty. *)
Theorem changed_file_below_a_dotted_directory_is_missed :
  let w := Demo.world Demo.emptyFs in
  let rootDir := getExpoRepositoryRootDir envDottedDirectory in
  let relativePath :=
    Path.relative (cwd w) (Path.relative (cwd w) rootDir (path Demo.expoCamera))
      cacheFile in
  listOfPackages envDottedDirectory (fs w) = Return Demo.workspace
  ∧ changedFiles envDottedDirectory "master" "HEAD" (fs w) = Return [cacheFile]
  ∧ Demo.expoCamera ∈ Demo.workspace
  ∧ Path.resolveSegments (cwd w) cacheFile
    = Path.resolveSegments (cwd w) (path Demo.expoCamera) ++ ["..cache"; "x"]
  ∧ relativePath = "..cache/x"
  ∧ relativePath ≠ ""
  ∧ beginsWithTraversalMarker relativePath = false
  ∧ Path.isAbsolute relativePath = false
  ∧ specifiedInsidePackage (cwd w) rootDir Demo.expoCamera cacheFile = true
  ∧ isInsidePackage (cwd w) rootDir Demo.expoCamera cacheFile = false
  ∧ getChangedPackagesAsync envDottedDirectory "master" "HEAD" w
    = (record (GetChangedFiles "master" "HEAD") (record GetListOfPackages w),
       Return []).
Proof.
  cbv zeta. split_and!; try (vm_compute; reflexivity); try done.
  do 3 (apply elem_of_cons; right). apply list_elem_of_here.
Qed.







(** ** Selection *)

Lemma getExpoTransitivePackages_run env w :
  getExpoTransitivePackages env w
  = (record (GetPackageByName "expo") w,
     match packageByName env "expo" (fs w) with
     | Some expoPackage =>
         Return (List.map (fun dep => Packages.name dep) (getDependencies expoPackage))
     | None => Throw expoNotFound
     end).
Proof.
  unfold getExpoTransitivePackages, bind, getPackageByName, observe.
  by destruct (packageByName env "expo" (fs w)).
Qed.

Lemma getExtraPackagesAsync_run env options w :
  getExtraPackagesAsync env options w
  = match packageByName env "expo" (fs w) with
    | Some expoPackage =>
        match extraPackagesOf env options (record (GetPackageByName "expo") w) with
        | (w', Return extraPackages) =>
            (w', Return (List.map (fun dep => Packages.name dep)
                           (getDependencies expoPackage) ++ extraPackages))
        | (w', Throw e) => (w', Throw e)
        end
    | None => (record (GetPackageByName "expo") w, Throw expoNotFound)
    end.
Proof.
  unfold getExtraPackagesAsync, bind. rewrite getExpoTransitivePackages_run.
  destruct (packageByName env "expo" (fs w)); [|done].
  by destruct (extraPackagesOf env options _) as [w' [extra|e]].
Qed.

(** What each mode yields as extras, read off the collaborators. *)
Lemma extraPackagesOf_returns env options w extraPackages :
  (∃ w', extraPackagesOf env options w = (w', Return extraPackages))
  ↔ if String.eqb (packages options) "default" then extraPackages = []
    else if String.eqb (packages options) "all" then
      ∃ allPackages,
        listOfPackages env (fs w) = Return allPackages
        ∧ extraPackages = allSupportedPackages allPackages
    else if String.eqb (packages options) "changed" then
      ∃ allPackages changed,
        listOfPackages env (fs w) = Return allPackages
        ∧ changedFiles env (changedBase options) (changedRef options) (fs w)
          = Return changed
        ∧ extraPackages
          = changedPackagesLoop (cwd w) (getExpoRepositoryRootDir env)
              allPackages changed
    else extraPackages = listedPackages (packages options).
Proof.
  unfold extraPackagesOf.
  destruct (String.eqb (packages options) "default").
  { unfold ret. split; [intros [w' [= _ <-]]; done | intros ->; by eexists]. }
  destruct (String.eqb (packages options) "all").
  { unfold bind, getListOfPackagesAsync, observe, ret.
    destruct (listOfPackages env (fs w)) as [allPackages|e]; split.
    - intros [w' [= _ <-]]. by exists allPackages.
    - intros (? & [= <-] & ->). by eexists.
    - by intros [w' ?].
    - by intros (? & ? & _). }
  destruct (String.eqb (packages options) "changed").
  { unfold getChangedPackagesAsync, bind, getListOfPackagesAsync,
      getChangedFilesAsync, observe, getCwd, ret.
    destruct (listOfPackages env (fs w)) as [allPackages|e]; simpl.
    - destruct (changedFiles env _ _ (fs w)) as [changed|e]; split.
      + intros [w' [= _ <-]]. by exists allPackages, changed.
      + intros (? & ? & [= <-] & [= <-] & ->). by eexists.
      + by intros [w' ?].
      + by intros (? & ? & _ & ? & _).
    - split; [by intros [w' ?] | by intros (? & ? & ? & _)]. }
  unfold ret. split; [intros [w' [= _ <-]]; done | intros ->; by eexists].
Qed.

Lemma getExtraPackagesAsync_returns env options w result :
  (∃ w', getExtraPackagesAsync env options w = (w', Return result))
  ↔ ∃ expoPackage extraPackages,
      packageByName env "expo" (fs w) = Some expoPackage
      ∧ result
        = List.map (fun dep => Packages.name dep) (getDependencies expoPackage)
          ++ extraPackages
      ∧ ∃ w', extraPackagesOf env options (record (GetPackageByName "expo") w)
              = (w', Return extraPackages).
Proof.
  rewrite getExtraPackagesAsync_run. split.
  - intros [w' Hrun].
    destruct (packageByName env "expo" (fs w)) as [expoPackage|]; [|done].
    destruct (extraPackagesOf env options _) as [w1 [extraPackages|e]] eqn:Hextra;
      [|done].
    injection Hrun as _ <-. exists expoPackage, extraPackages.
    repeat split; try done. by exists w1.
  - intros (expoPackage & extraPackages & -> & -> & w' & ->). by exists w'.
Qed.


Lemma NoDup_app_disjoint (l k : list string) :
  NoDup (l ++ k) ↔ NoDup l ∧ NoDup k ∧ ∀ n, n ∈ l → n ∉ k.
Proof. rewrite NoDup_app. tauto. Qed.

(** C5 fails: in the [all] mode the dependencies of [expo] that belong to
    the catalog are returned twice. *)
Lemma selection_repeats_a_name :
  ∃ w' result,
    getExtraPackagesAsync Demo.env (Demo.options (Some "demo") "all")
      (Demo.world Demo.emptyFs)
    = (w', Return result)
    ∧ ¬ NoDup result.
Proof.
  eexists _, _. split; [vm_compute; reflexivity|].
  intros Hnd. apply NoDup_cons in Hnd as [Hnotin _].
  apply Hnotin. do 2 (apply elem_of_cons; right). apply elem_of_cons. by left.
Qed.

(** C5, amended. The selector returns the dependency names of [expo]
    followed by the extras its mode produced, as they were produced, and
    removes no duplicate: every name occurs in the result as often as in the
    dependency names and in the extras together, and the result is as long as
    the two.  So the sequence is free of duplicates exactly when both parts
    are and they share no name.  For the list ["expo-router, expo-camera"]
    the extras are these two names, so the names returned are those of the
    union of the dependency names of [expo] with the two; for a list that
    names a package twice the extras hold it twice. *)
Theorem selection_concatenates_without_deduplication env options w w' result :
  getExtraPackagesAsync env options w = (w', Return result) →
  ∃ expoPackage extraPackages,
    let defaultPackages :=
      List.map (fun dep => Packages.name dep) (getDependencies expoPackage) in
    packageByName env "expo" (fs w) = Some expoPackage
    ∧ (if String.eqb (packages options) "default" then extraPackages = []
       else if String.eqb (packages options) "all" then
         ∃ allPackages,
           listOfPackages env (fs w) = Return allPackages
           ∧ extraPackages = allSupportedPackages allPackages
       else if String.eqb (packages options) "changed" then
         ∃ allPackages changed,
           listOfPackages env (fs w) = Return allPackages
           ∧ changedFiles env (changedBase options) (changedRef options) (fs w)
             = Return changed
           ∧ extraPackages
             = changedPackagesLoop (cwd w) (getExpoRepositoryRootDir env)
                 allPackages changed
       else extraPackages = listedPackages (packages options))
    ∧ result = defaultPackages ++ extraPackages
    ∧ length result = (length defaultPackages + length extraPackages)%nat
    ∧ (∀ n, count_occ string_dec result n
            = (count_occ string_dec defaultPackages n
               + count_occ string_dec extraPackages n)%nat)
    ∧ (NoDup result
       ↔ NoDup defaultPackages ∧ NoDup extraPackages
         ∧ ∀ n, n ∈ defaultPackages → n ∉ extraPackages)
    ∧ (packages options = "expo-router, expo-camera" →
       extraPackages = ["expo-router"; "expo-camera"]
       ∧ ∀ n, n ∈ result
              ↔ n ∈ defaultPackages ∨ n = "expo-router" ∨ n = "expo-camera")
    ∧ (packages options = "expo-router, expo-router" →
       extraPackages = ["expo-router"; "expo-router"]).
Proof.
  intros Hrun.
  assert (∃ w', getExtraPackagesAsync env options w = (w', Return result))
    as Hex by by exists w'.
  apply getExtraPackagesAsync_returns in Hex
    as (expoPackage & extraPackages & Hexpo & -> & Hmode).
  apply (extraPackagesOf_returns env options) in Hmode.
  exists expoPackage, extraPackages. cbv zeta.
  split; [done|]. split; [done|]. split; [done|].
  split; [apply length_app|].
  split; [intros n; apply count_occ_app|].
  split; [apply NoDup_app_disjoint|].
  split.
  - intros Hlist. rewrite Hlist in Hmode. simpl in Hmode. subst extraPackages.
    split; [reflexivity|].
    intros n. change (listedPackages "expo-router, expo-camera")
      with ["expo-router"; "expo-camera"].
    rewrite elem_of_app, !elem_of_cons, elem_of_nil. tauto.
  - intros Hlist. rewrite Hlist in Hmode. simpl in Hmode. by subst extraPackages.
Qed.

Lemma selection_concatenates_without_deduplication_witness :
  let options := Demo.options (Some "demo") "expo-router, expo-router" in
  let result := ["expo-asset"; "expo-constants"; "expo-router"; "expo-router"] in
  ∃ expoPackage extraPackages,
    let defaultPackages :=
      List.map (fun dep => Packages.name dep) (getDependencies expoPackage) in
    packageByName Demo.env "expo" Demo.emptyFs = Some expoPackage
    ∧ extraPackages = listedPackages (packages options)
    ∧ result = defaultPackages ++ extraPackages
    ∧ length result = (length defaultPackages + length extraPackages)%nat
    ∧ (∀ n, count_occ string_dec result n
            = (count_occ string_dec defaultPackages n
               + count_occ string_dec extraPackages n)%nat)
    ∧ (NoDup result
       ↔ NoDup defaultPackages ∧ NoDup extraPackages
         ∧ ∀ n, n ∈ defaultPackages → n ∉ extraPackages)
    ∧ (packages options = "expo-router, expo-camera" →
       extraPackages = ["expo-router"; "expo-camera"]
       ∧ ∀ n, n ∈ result
              ↔ n ∈ defaultPackages ∨ n = "expo-router" ∨ n = "expo-camera")
    ∧ (packages options = "expo-router, expo-router" →
       extraPackages = ["expo-router"; "expo-router"]).
Proof.
  apply (selection_concatenates_without_deduplication Demo.env
           (Demo.options (Some "demo") "expo-router, expo-router")
           (Demo.world Demo.emptyFs)
           (record (GetPackageByName "expo") (Demo.world Demo.emptyFs))).
  vm_compute. reflexivity.
Defined.

(** ** Default mode *)

(** C7 fails: a dependency of [expo] that is in the exclusion list is
    returned in the default mode. *)
Lemma default_selection_keeps_an_excluded_name :
  ∃ w' result,
    getExtraPackagesAsync envWithTestCore (Demo.options (Some "demo") "default")
      (Demo.world Demo.emptyFs)
    = (w', Return result)
    ∧ "unimodules-test-core" ∈ EXCLUDED_PACKAGES
    ∧ "unimodules-test-core" ∈ result.
Proof.
  eexists _, _. split; [vm_compute; reflexivity|].
  split.
  - unfold EXCLUDED_PACKAGES. do 4 (apply elem_of_cons; right).
    apply elem_of_cons. by left.
  - apply elem_of_cons. right. apply elem_of_cons. by left.
Qed.

Lemma allSupportedPackages_not_excluded allPackages n :
  n ∈ allSupportedPackages allPackages → n ≠ "" ∧ n ∉ EXCLUDED_PACKAGES.
Proof.
  unfold allSupportedPackages. rewrite list_elem_of_In, filter_In.
  intros [_ Hkeep]. apply andb_true_iff in Hkeep as [Htruthy Hexcl].
  split.
  - intros ->. by vm_compute in Htruthy.
  - apply negb_true_iff in Hexcl. unfold isExcluded in Hexcl.
    by apply bool_decide_eq_false in Hexcl.
Qed.

(** C7, amended. In the default mode the selector returns exactly the names
    of the dependencies the [expo] package declares.  The exclusion list is
    not applied to them: a name of the list is returned when [expo] declares
    it.  The list only filters the extras of the [all] mode. *)
Theorem default_selection_is_expo_dependencies env options w w' result :
  packages options = "default" →
  getExtraPackagesAsync env options w = (w', Return result) →
  ∃ expoPackage,
    packageByName env "expo" (fs w) = Some expoPackage
    ∧ result = List.map (fun dep => Packages.name dep) (getDependencies expoPackage)
    ∧ (∀ n, n ∈ result
            ↔ ∃ dep, dep ∈ getDependencies expoPackage ∧ Packages.name dep = n)
    ∧ (∀ n, n ∈ EXCLUDED_PACKAGES →
            (∃ dep, dep ∈ getDependencies expoPackage ∧ Packages.name dep = n) →
            n ∈ result)
    ∧ ∀ allPackages n, n ∈ allSupportedPackages allPackages → n ∉ EXCLUDED_PACKAGES.
Proof.
  intros Hmode Hrun.
  assert (∃ w', getExtraPackagesAsync env options w = (w', Return result))
    as Hex by by exists w'.
  apply getExtraPackagesAsync_returns in Hex
    as (expoPackage & extraPackages & Hexpo & -> & Hextra).
  apply (extraPackagesOf_returns env options) in Hextra.
  rewrite Hmode in Hextra. simpl in Hextra. subst extraPackages.
  rewrite app_nil_r.
  assert (Hmem : ∀ n,
    n ∈ List.map (fun dep => Packages.name dep) (getDependencies expoPackage)
    ↔ ∃ dep, dep ∈ getDependencies expoPackage ∧ Packages.name dep = n).
  { intros n. rewrite list_elem_of_In, in_map_iff.
    split; intros (dep & H1 & H2); exists dep; by rewrite ?list_elem_of_In in *. }
  exists expoPackage.
  split; [done|]. split; [done|]. split; [exact Hmem|]. split.
  - intros n _ Hdep. by apply Hmem.
  - intros allPackages n Hn.
    by apply allSupportedPackages_not_excluded in Hn as [_ ?].
Qed.

Lemma default_selection_is_expo_dependencies_witness :
  ∃ expoPackage,
    packageByName Demo.env "expo" Demo.emptyFs = Some expoPackage
    ∧ ["expo-asset"; "expo-constants"]
      = List.map (fun dep => Packages.name dep) (getDependencies expoPackage)
    ∧ (∀ n, n ∈ ["expo-asset"; "expo-constants"]
            ↔ ∃ dep, dep ∈ getDependencies expoPackage ∧ Packages.name dep = n)
    ∧ (∀ n, n ∈ EXCLUDED_PACKAGES →
            (∃ dep, dep ∈ getDependencies expoPackage ∧ Packages.name dep = n) →
            n ∈ ["expo-asset"; "expo-constants"])
    ∧ ∀ allPackages n, n ∈ allSupportedPackages allPackages → n ∉ EXCLUDED_PACKAGES.
Proof.
  apply (default_selection_is_expo_dependencies Demo.env
           (Demo.options (Some "demo") "default")
           (Demo.world Demo.emptyFs)
           (record (GetPackageByName "expo") (Demo.world Demo.emptyFs))).
  - reflexivity.
  - vm_compute. reflexivity.
Defined.

(** ** Explicit lists *)

Lemma split_nonempty sep s : Js.split sep s ≠ [].
Proof.
  destruct s as [|c s]; simpl; [done|].
  destruct (Ascii.eqb c sep); [done|]. by destruct (Js.split sep s).
Qed.

(** A separator in the middle cuts the string in two. *)
Lemma split_app_sep sep a b :
  Js.split sep (a ++ String sep b) = Js.split sep a ++ Js.split sep b.
Proof.
  induction a as [|c a IH]; simpl.
  - by rewrite Ascii.eqb_refl.
  - destruct (Ascii.eqb c sep); [by rewrite IH|].
    rewrite IH. pose proof (split_nonempty sep a) as Hne.
    by destruct (Js.split sep a).
Qed.

Lemma listedPackages_app_comma a b :
  listedPackages (a ++ String ","%char b) = listedPackages a ++ listedPackages b.
Proof. unfold listedPackages. by rewrite split_app_sep, map_app. Qed.

Lemma listedPackages_head_comma b :
  listedPackages (String ","%char b) = "" :: listedPackages b.
Proof. reflexivity. Qed.

Lemma append_String c a b : (String c a ++ b)%string = String c (a ++ b)%string.
Proof. reflexivity. Qed.

Lemma containsChar_app c a b :
  containsChar c (a ++ b) = containsChar c a || containsChar c b.
Proof.
  induction a as [|d a IH]; [done|].
  rewrite append_String. simpl. by rewrite IH, orb_assoc.
Qed.

Lemma trimStart_eq s :
  Js.trimStart s
  = match s with
    | EmptyString => EmptyString
    | String _ rest1 =>
        match Js.whiteSpaceWidth s with
        | 0 => s
        | 1 => Js.trimStart rest1
        | 2 =>
            match rest1 with
            | String _ rest2 => Js.trimStart rest2
            | EmptyString => s
            end
        | _ =>
            match rest1 with
            | String _ (String _ rest3) => Js.trimStart rest3
            | _ => s
            end
        end
    end.
Proof. by destruct s. Qed.

Lemma whiteSpaceWidth_length s : Js.whiteSpaceWidth s <= String.length s.
Proof.
  destruct s as [|a [|b [|c rest]]]; simpl; repeat case_match; simpl; lia.
Qed.

(** What [trimStart] removes comes first, and what it leaves starts with no
    white space. *)
Lemma trimStart_spec s :
  (∃ removed, s = (removed ++ Js.trimStart s)%string)
  ∧ Js.whiteSpaceWidth (Js.trimStart s) = 0.
Proof.
  remember (String.length s) as n eqn:Hn.
  assert (String.length s <= n) as Hlen by lia. clear Hn.
  revert s Hlen. induction n as [|n IH]; intros s Hlen.
  - destruct s; [|simpl in Hlen; lia]. split; [by exists ""|done].
  - rewrite trimStart_eq. destruct s as [|a rest1]; [split; [by exists ""|done]|].
    simpl in Hlen.
    destruct (Js.whiteSpaceWidth (String a rest1)) as [|[|[|k]]] eqn:Hwidth.
    + split; [by exists ""|done].
    + destruct (IH rest1) as [[removed Hremoved] Hzero]; [lia|].
      split; [|done]. exists (String a removed).
      by rewrite append_String, <- Hremoved.
    + destruct rest1 as [|b rest2].
      { pose proof (whiteSpaceWidth_length (String a "")) as Hw.
        rewrite Hwidth in Hw. simpl in Hw. lia. }
      simpl in Hlen.
      destruct (IH rest2) as [[removed Hremoved] Hzero]; [lia|].
      split; [|done]. exists (String a (String b removed)).
      by rewrite !append_String, <- Hremoved.
    + destruct rest1 as [|b [|c rest3]].
      { pose proof (whiteSpaceWidth_length (String a "")) as Hw.
        rewrite Hwidth in Hw. simpl in Hw. lia. }
      { pose proof (whiteSpaceWidth_length (String a (String b ""))) as Hw.
        rewrite Hwidth in Hw. simpl in Hw. lia. }
      simpl in Hlen.
      destruct (IH rest3) as [[removed Hremoved] Hzero]; [lia|].
      split; [|done]. exists (String a (String b (String c removed))).
      by rewrite !append_String, <- Hremoved.
Qed.

Lemma whiteSpaceWidth_zero_head c rest :
  Js.whiteSpaceWidth (String c rest) = 0 → Js.isWhiteSpace c = false.
Proof. simpl. by destruct (Js.isWhiteSpace c). Qed.

Lemma trimStart_head s c rest :
  Js.trimStart s = String c rest → Js.isWhiteSpace c = false.
Proof.
  intros Hs. destruct (trimStart_spec s) as [_ Hzero]. rewrite Hs in Hzero.
  by apply whiteSpaceWidth_zero_head in Hzero.
Qed.

Lemma trimEnd_head s c rest :
  Js.trimEnd s = String c rest → ∃ rest', s = String c rest'.
Proof.
  destruct s as [|d s]; [done|].
  change (Js.trimEnd (String d s))
    with (if String.eqb (Js.trimStart (String d s)) ""
          then EmptyString else String d (Js.trimEnd s)).
  destruct (String.eqb _ ""); [done|]. intros [= <- _]. by eexists.
Qed.

Lemma trimEnd_eq d s :
  Js.trimEnd (String d s)
  = if String.eqb (Js.trimStart (String d s)) ""
    then EmptyString else String d (Js.trimEnd s).
Proof. reflexivity. Qed.

Lemma trimEnd_empty s :
  Js.trimEnd s = "" → Js.trimStart s = "".
Proof.
  destruct s as [|d s]; [done|]. rewrite trimEnd_eq.
  destruct (String.eqb _ "") eqn:Heq; [|done].
  intros _. by apply String.eqb_eq.
Qed.

Lemma trimStart_white d s :
  Js.isWhiteSpace d = true → Js.trimStart (String d s) = Js.trimStart s.
Proof.
  intros Hd. rewrite trimStart_eq.
  assert (Js.whiteSpaceWidth (String d s) = 1) as -> by (simpl; by rewrite Hd).
  done.
Qed.

Lemma trimEnd_last s c :
  Js.endsWithChar (Js.trimEnd s) c = true → Js.isWhiteSpace c = false.
Proof.
  induction s as [|d s IH]; [done|]. rewrite trimEnd_eq.
  destruct (String.eqb _ "") eqn:Hall; [done|].
  apply String.eqb_neq in Hall.
  destruct (Js.trimEnd s) as [|k kept] eqn:Hkept.
  - simpl. intros Heq. apply Ascii.eqb_eq in Heq. subst c.
    destruct (Js.isWhiteSpace d) eqn:Hd; [|done].
    exfalso. apply Hall. rewrite trimStart_white by done.
    by apply trimEnd_empty.
  - intros Hlast. apply IH. exact Hlast.
Qed.

Lemma containsChar_trimStart c s :
  containsChar c s = false → containsChar c (Js.trimStart s) = false.
Proof.
  destruct (trimStart_spec s) as [[removed Hremoved] _].
  rewrite Hremoved at 1. rewrite containsChar_app.
  intros H. by apply orb_false_iff in H as [_ ?].
Qed.

Lemma containsChar_trimEnd c s :
  containsChar c s = false → containsChar c (Js.trimEnd s) = false.
Proof.
  induction s as [|d s IH]; [done|]. rewrite trimEnd_eq.
  simpl. intros H. apply orb_false_iff in H as [Hd Hs].
  destruct (String.eqb _ ""); [done|]. simpl. by rewrite Hd, IH.
Qed.

(** The width of the white space a string starts with depends on the bytes
    of that white space only. *)
Lemma whiteSpaceWidth_one a rest rest' :
  Js.whiteSpaceWidth (String a rest) = 1 → Js.whiteSpaceWidth (String a rest') = 1.
Proof.
  simpl. destruct (Js.isWhiteSpace a); [done|].
  intros H. exfalso. revert H. repeat case_match; done.
Qed.

Lemma whiteSpaceWidth_two a b rest rest' :
  Js.whiteSpaceWidth (String a (String b rest)) = 2 →
  Js.whiteSpaceWidth (String a (String b rest')) = 2.
Proof.
  simpl. destruct (Js.isWhiteSpace a); [done|].
  destruct (_ && _); [done|].
  intros H. exfalso. revert H. repeat case_match; done.
Qed.

Lemma whiteSpaceWidth_three a b c rest rest' :
  Js.whiteSpaceWidth (String a (String b (String c rest')))
  = Js.whiteSpaceWidth (String a (String b (String c rest))).
Proof. reflexivity. Qed.

(** White space in front of a string is trimmed with it. *)
Lemma trimStart_app before s :
  Js.trimStart before = "" → Js.trimStart (before ++ s) = Js.trimStart s.
Proof.
  remember (String.length before) as n eqn:Hn.
  assert (String.length before <= n) as Hlen by lia. clear Hn.
  revert before Hlen. induction n as [|n IH]; intros before Hlen.
  - destruct before; [done | simpl in Hlen; lia].
  - destruct before as [|a rest1]; [done|]. simpl in Hlen.
    rewrite (trimStart_eq (String a rest1)), append_String,
      (trimStart_eq (String a (rest1 ++ s))).
    destruct (Js.whiteSpaceWidth (String a rest1)) as [|[|[|k]]] eqn:Hwidth.
    + done.
    + rewrite (whiteSpaceWidth_one a rest1 (rest1 ++ s) Hwidth).
      intros Hblank. apply IH; [lia | done].
    + destruct rest1 as [|b rest2]; [done|]. simpl in Hlen.
      rewrite append_String, (whiteSpaceWidth_two a b rest2 (rest2 ++ s) Hwidth).
      intros Hblank. apply IH; [lia | done].
    + destruct rest1 as [|b [|c rest3]]; [done..|]. simpl in Hlen.
      rewrite !append_String,
        (whiteSpaceWidth_three a b c rest3 (rest3 ++ s)), Hwidth.
      intros Hblank. apply IH; [lia | done].
Qed.

(** What [trimStart] removes is white space. *)
Lemma trimStart_removes_white_space s :
  ∃ removed, s = (removed ++ Js.trimStart s)%string ∧ Js.trimStart removed = "".
Proof.
  remember (String.length s) as n eqn:Hn.
  assert (String.length s <= n) as Hlen by lia. clear Hn.
  revert s Hlen. induction n as [|n IH]; intros s Hlen.
  - destruct s; [|simpl in Hlen; lia]. by exists "".
  - rewrite trimStart_eq. destruct s as [|a rest1]; [by exists ""|].
    simpl in Hlen.
    destruct (Js.whiteSpaceWidth (String a rest1)) as [|[|[|k]]] eqn:Hwidth.
    + by exists "".
    + destruct (IH rest1) as (removed & Hremoved & Hblank); [lia|].
      exists (String a removed). split; [by rewrite append_String, <- Hremoved|].
      rewrite trimStart_eq, (whiteSpaceWidth_one a rest1 removed Hwidth). done.
    + destruct rest1 as [|b rest2].
      { pose proof (whiteSpaceWidth_length (String a "")) as Hw.
        rewrite Hwidth in Hw. simpl in Hw. lia. }
      simpl in Hlen.
      destruct (IH rest2) as (removed & Hremoved & Hblank); [lia|].
      exists (String a (String b removed)).
      split; [by rewrite !append_String, <- Hremoved|].
      rewrite trimStart_eq, (whiteSpaceWidth_two a b rest2 removed Hwidth). done.
    + destruct rest1 as [|b [|c rest3]].
      { pose proof (whiteSpaceWidth_length (String a "")) as Hw.
        rewrite Hwidth in Hw. simpl in Hw. lia. }
      { pose proof (whiteSpaceWidth_length (String a (String b ""))) as Hw.
        rewrite Hwidth in Hw. simpl in Hw. lia. }
      simpl in Hlen.
      destruct (IH rest3) as (removed & Hremoved & Hblank); [lia|].
      exists (String a (String b (String c removed))).
      split; [by rewrite !append_String, <- Hremoved|].
      rewrite trimStart_eq, (whiteSpaceWidth_three a b c rest3 removed), Hwidth.
      done.
Qed.

(** What [trimEnd] removes is white space. *)
Lemma trimEnd_removes_white_space s :
  ∃ removed, s = (Js.trimEnd s ++ removed)%string ∧ Js.trimStart removed = "".
Proof.
  induction s as [|d s IH]; [by exists ""|]. rewrite trimEnd_eq.
  destruct (String.eqb _ "") eqn:Hall.
  - apply String.eqb_eq in Hall. by exists (String d s).
  - destruct IH as (removed & Hs & Hblank). exists removed. split; [|done].
    by rewrite append_String, <- Hs.
Qed.

(** What [trimEnd] leaves ends with no white space. *)
Lemma trimEnd_ends_with_no_white_space s kept suffix :
  Js.trimEnd s = (kept ++ suffix)%string → Js.trimStart suffix = "" → suffix = "".
Proof.
  revert kept. induction s as [|d s IH]; intros kept.
  - simpl. by destruct kept, suffix.
  - rewrite trimEnd_eq. destruct (String.eqb _ "") eqn:Hall.
    { by destruct kept, suffix. }
    apply String.eqb_neq in Hall.
    destruct kept as [|k kept].
    + change (String d (Js.trimEnd s) = suffix → Js.trimStart suffix = "" → suffix = "").
      intros <- Hblank. exfalso. apply Hall.
      destruct (trimEnd_removes_white_space s) as (removed & Hs & Hremoved).
      rewrite Hs at 1. rewrite <- append_String.
      by rewrite trimStart_app.
    + rewrite append_String. intros [= _ Hkept]. by apply (IH kept).
Qed.

(** What starts with no white space still does after [trimEnd]. *)
Lemma trimEnd_starts_with_no_white_space s :
  Js.whiteSpaceWidth s = 0 → Js.whiteSpaceWidth (Js.trimEnd s) = 0.
Proof.
  intros Hzero.
  destruct (Js.whiteSpaceWidth (Js.trimEnd s)) as [|n] eqn:Hwidth; [done|].
  exfalso.
  destruct (trimEnd_removes_white_space s) as (removed & Hs & _).
  destruct (Js.trimEnd s) as [|a [|b [|c kept]]] eqn:Hkept; [done|..].
  - assert (Js.whiteSpaceWidth (String a "") = 1) as Hone.
    { revert Hwidth. simpl. by destruct (Js.isWhiteSpace a). }
    rewrite Hs, append_String in Hzero.
    by rewrite (whiteSpaceWidth_one a "" _ Hone) in Hzero.
  - destruct n as [|[|n]].
    + rewrite Hs, append_String in Hzero.
      by rewrite (whiteSpaceWidth_one a _ _ Hwidth) in Hzero.
    + rewrite Hs, !append_String in Hzero.
      by rewrite (whiteSpaceWidth_two a b "" _ Hwidth) in Hzero.
    + pose proof (whiteSpaceWidth_length (String a (String b ""))) as Hw.
      rewrite Hwidth in Hw. simpl in Hw. lia.
  - rewrite Hs, !append_String in Hzero.
    rewrite (whiteSpaceWidth_three a b c kept (kept ++ removed)) in Hzero.
    congruence.
Qed.

(** [trim] takes white space away at both ends, and all of it. *)
Lemma trim_spec s :
  ∃ before after,
    s = (before ++ Js.trim s ++ after)%string
    ∧ Js.trimStart before = "" ∧ Js.trimStart after = ""
    ∧ Js.whiteSpaceWidth (Js.trim s) = 0
    ∧ ∀ kept suffix,
        Js.trim s = (kept ++ suffix)%string → Js.trimStart suffix = "" →
        suffix = "".
Proof.
  unfold Js.trim.
  destruct (trimStart_removes_white_space s) as (before & Hbefore & Hblank).
  destruct (trimEnd_removes_white_space (Js.trimStart s))
    as (after & Hafter & Hblank').
  exists before, after. split; [by rewrite <- Hafter|].
  split; [done|]. split; [done|].
  split; [apply trimEnd_starts_with_no_white_space, trimStart_spec|].
  apply trimEnd_ends_with_no_white_space.
Qed.

(** C10. The mode is matched by equality of strings: any value other than
    [default], [all] and [changed] is split at the commas and every entry is
    trimmed.  So [All], [ all] and [all ] name packages, called [All] and
    [all], and a doubled or a trailing comma gives an empty entry.  Trimming
    takes the white space away at both ends of an entry, all of it, the
    no-break space and the byte order mark included, and leaves the white
    space inside an entry. *)
Theorem other_values_are_comma_separated_lists env options w :
  packages options ≠ "default" →
  packages options ≠ "all" →
  packages options ≠ "changed" →
  getExtraPackagesAsync env options w
  = (record (GetPackageByName "expo") w,
     match packageByName env "expo" (fs w) with
     | Some expoPackage =>
         Return (List.map (fun dep => Packages.name dep) (getDependencies expoPackage)
                 ++ List.map Js.trim (Js.split ","%char (packages options)))
     | None => Throw expoNotFound
     end)
  ∧ listedPackages "All" = ["All"]
  ∧ listedPackages " all" = ["all"]
  ∧ listedPackages "all " = ["all"]
  ∧ listedPackages " expo-camera , expo router " = ["expo-camera"; "expo router"]
  ∧ listedPackages (noBreakSpace ++ "all" ++ byteOrderMark) = ["all"]
  ∧ (∀ a b, listedPackages (a ++ ",," ++ b)
            = listedPackages a ++ [""] ++ listedPackages b)
  ∧ (∀ a, listedPackages (a ++ ",") = listedPackages a ++ [""])
  ∧ ∀ entry, ∃ before after,
      entry = (before ++ Js.trim entry ++ after)%string
      ∧ Js.trimStart before = "" ∧ Js.trimStart after = ""
      ∧ Js.whiteSpaceWidth (Js.trim entry) = 0
      ∧ (∀ kept suffix,
           Js.trim entry = (kept ++ suffix)%string → Js.trimStart suffix = "" →
           suffix = "")
      ∧ (∀ c rest, Js.trim entry = String c rest → Js.isWhiteSpace c = false)
      ∧ (∀ c, Js.endsWithChar (Js.trim entry) c = true → Js.isWhiteSpace c = false).
Proof.
  intros Hdefault Hall Hchanged. split_and!.
  - rewrite getExtraPackagesAsync_run. unfold extraPackagesOf.
    apply String.eqb_neq in Hdefault, Hall, Hchanged.
    rewrite Hdefault, Hall, Hchanged.
    by destruct (packageByName env "expo" (fs w)).
  - reflexivity.
  - reflexivity.
  - reflexivity.
  - reflexivity.
  - reflexivity.
  - intros a b. change (a ++ ",," ++ b)%string with (a ++ String ","%char ("," ++ b))%string.
    by rewrite listedPackages_app_comma.
  - intros a. change (a ++ ",")%string with (a ++ String ","%char "")%string.
    by rewrite listedPackages_app_comma.
  - intros entry.
    destruct (trim_spec entry)
      as (before & after & Hentry & Hbefore & Hafter & Hstart & Hend).
    exists before, after. split_and!; try done.
    + intros c rest Hhead. rewrite Hhead in Hstart.
      by apply whiteSpaceWidth_zero_head in Hstart.
    + apply trimEnd_last.
Qed.

Lemma other_values_are_comma_separated_lists_witness :
  getExtraPackagesAsync Demo.env (Demo.options (Some "demo") " all ")
    (Demo.world Demo.emptyFs)
  = (record (GetPackageByName "expo") (Demo.world Demo.emptyFs),
     Return ["expo-asset"; "expo-constants"; "all"])
  ∧ listedPackages "All" = ["All"]
  ∧ listedPackages " all" = ["all"]
  ∧ listedPackages "all " = ["all"]
  ∧ listedPackages " expo-camera , expo router " = ["expo-camera"; "expo router"]
  ∧ listedPackages (noBreakSpace ++ "all" ++ byteOrderMark) = ["all"]
  ∧ (∀ a b, listedPackages (a ++ ",," ++ b)
            = listedPackages a ++ [""] ++ listedPackages b)
  ∧ (∀ a, listedPackages (a ++ ",") = listedPackages a ++ [""])
  ∧ ∀ entry, ∃ before after,
      entry = (before ++ Js.trim entry ++ after)%string
      ∧ Js.trimStart before = "" ∧ Js.trimStart after = ""
      ∧ Js.whiteSpaceWidth (Js.trim entry) = 0
      ∧ (∀ kept suffix,
           Js.trim entry = (kept ++ suffix)%string → Js.trimStart suffix = "" →
           suffix = "")
      ∧ (∀ c rest, Js.trim entry = String c rest → Js.isWhiteSpace c = false)
      ∧ (∀ c, Js.endsWithChar (Js.trim entry) c = true → Js.isWhiteSpace c = false).
Proof.
  apply (other_values_are_comma_separated_lists Demo.env
           (Demo.options (Some "demo") " all ") (Demo.world Demo.emptyFs)).
  - simpl. discriminate.
  - simpl. discriminate.
  - simpl. discriminate.
Defined.

(** ** The command *)

(** C9. Without a project name, or with an empty one, the command throws the
    missing-name error at once: the world is the one it started in, so no
    file was read or written, no process was started and nothing was done
    about the catalog, the project, the archive or the prebuild. *)
Theorem missing_name_fails_before_any_work env options w :
  name options = None ∨ name options = Some "" →
  action env options w = (w, Throw missingProjectName).
Proof.
  unfold action. by intros [-> | ->].
Qed.

Lemma missing_name_fails_before_any_work_witness :
  action Demo.env (Demo.options None "all") (Demo.world Demo.emptyFs)
  = (Demo.world Demo.emptyFs, Throw missingProjectName)
  ∧ action Demo.env (Demo.options (Some "") "all") (Demo.world Demo.emptyFs)
    = (Demo.world Demo.emptyFs, Throw missingProjectName).
Proof.
  split.
  - apply (missing_name_fails_before_any_work Demo.env (Demo.options None "all")).
    left. reflexivity.
  - apply (missing_name_fails_before_any_work Demo.env (Demo.options (Some "") "all")).
    right. reflexivity.
Defined.

(** ** The archive of the template *)

Lemma not_in_withoutFile file fs : file ∉ files (withoutFile file fs).
Proof.
  simpl. rewrite list_elem_of_In, filter_In. intros [_ H].
  by rewrite String.eqb_refl in H.
Qed.

Lemma elem_of_withoutFile file other fs :
  other ≠ file → other ∈ files (withoutFile file fs) ↔ other ∈ files fs.
Proof.
  intros Hne. simpl. rewrite !list_elem_of_In, filter_In, negb_true_iff.
  apply String.eqb_neq in Hne. tauto.
Qed.

Lemma filter_absent file (l : list string) :
  file ∉ l → List.filter (fun f => negb (String.eqb f file)) l = l.
Proof.
  induction l as [|x l IH]; simpl; [done|].
  rewrite not_elem_of_cons. intros [Hne Hl].
  apply not_eq_sym, String.eqb_neq in Hne. rewrite Hne. simpl. by rewrite IH.
Qed.

(** The [try]/[finally] block, step by step. *)
Lemma prebuildFromTarball_run env projectDir tarball w :
  prebuildFromTarball env projectDir tarball w
  = let '(fs1, failure) :=
      expoCli env "prebuild" (prebuildArgs tarball) projectDir (fs w) in
    let events := [RunExpoCli "prebuild" (prebuildArgs tarball) projectDir;
                   Unlink tarball] in
    if bool_decide (tarball ∈ files fs1) then
      ({| fs := withoutFile tarball fs1; cwd := cwd w; trace := trace w ++ events |},
       match failure with Some e => Throw e | None => Return tt end)
    else
      ({| fs := fs1; cwd := cwd w; trace := trace w ++ events |},
       Throw (ENOENT tarball)).
Proof.
  unfold prebuildFromTarball, tryFinally, runExpoCliAsync, unlink, perform,
    prebuildArgs.
  destruct (expoCli env "prebuild" _ projectDir (fs w)) as [fs1 failure].
  simpl. destruct (bool_decide (tarball ∈ files fs1)); simpl;
    unfold withFs, record, withoutFile; simpl; rewrite <- app_assoc; simpl.
  - by destruct failure.
  - done.
Qed.

Lemma prebuildProjectAsync_run env name projectDir workDir extras w :
  prebuildProjectAsync env name projectDir workDir extras w
  = match packBareTemplate env name projectDir workDir w with
    | (w1, Return tarball) =>
        match prebuildFromTarball env projectDir tarball w1 with
        | (w2, Return _) => setupPackageJson env name projectDir workDir extras w2
        | (w2, Throw e) => (w2, Throw e)
        end
    | (w1, Throw e) => (w1, Throw e)
    end.
Proof.
  unfold prebuildProjectAsync, bind.
  destruct (packBareTemplate env name projectDir workDir w) as [w1 [tarball|e]];
    [|done].
  by destruct (prebuildFromTarball env projectDir tarball w1) as [w2 [[]|e]].
Qed.

(** C3 fails: [expo prebuild] removes the archive it was given and then
    fails.  The [unlink] of the [finally] block finds no file, and its error
    is the one the caller gets: the failure of the prebuild is lost. *)
Lemma cleanup_error_replaces_the_prebuild_error :
  let w := Demo.world (projectFs Demo.emptyFs) in
  ∃ w1 fs1 w2,
    packBareTemplate envFailingAfterConsuming "demo" "/work/demo" "/work" w
    = (w1, Return demoTarball)
    ∧ expoCli envFailingAfterConsuming "prebuild" (prebuildArgs demoTarball)
        "/work/demo" (fs w1)
      = (fs1, Some (Rejected "expo prebuild"))
    ∧ (demoTarball ∉ files fs1)
    ∧ prebuildProjectAsync envFailingAfterConsuming "demo" "/work/demo" "/work"
        ["expo-camera"] w
      = (w2, Throw (ENOENT demoTarball))
    ∧ ENOENT demoTarball ≠ Rejected "expo prebuild".
Proof.
  eexists _, _, _. split; [vm_compute; reflexivity|].
  split; [vm_compute; reflexivity|]. split; [apply not_elem_of_nil|].
  split; [vm_compute; reflexivity | done].
Qed.

(** C3, amended. Once the archive is located, [unlink] is called on it after
    [expo prebuild], whether that succeeded or threw, and it is the last
    interaction of the block; afterwards the archive is not in the file
    system, and the other files are those [expo prebuild] left.  When the
    archive is still there after [expo prebuild], it is removed and the
    outcome of the prebuild stands: its error reaches the caller, in the
    world without the archive, and its success lets the rewrite of the
    manifest start.  When [expo prebuild] has removed the archive itself,
    the no-such-file error of [unlink] reaches the caller, in place of the
    error of the prebuild as well as of its success. *)
Theorem archive_removed_on_success_and_on_failure
    env name projectDir workDir extras w w1 tarball fs1 failure :
  packBareTemplate env name projectDir workDir w = (w1, Return tarball) →
  expoCli env "prebuild" (prebuildArgs tarball) projectDir (fs w1) = (fs1, failure) →
  ∃ w2,
    prebuildFromTarball env projectDir tarball w1
    = (w2,
       if bool_decide (tarball ∈ files fs1) then
         match failure with Some e => Throw e | None => Return tt end
       else Throw (ENOENT tarball))
    ∧ (tarball ∉ files (fs w2))
    ∧ (∀ file, file ≠ tarball → file ∈ files (fs w2) ↔ file ∈ files fs1)
    ∧ directories (fs w2) = directories fs1
    ∧ packageJsons (fs w2) = packageJsons fs1
    ∧ trace w2
      = trace w1 ++ [RunExpoCli "prebuild" (prebuildArgs tarball) projectDir;
                     Unlink tarball]
    ∧ prebuildProjectAsync env name projectDir workDir extras w
      = if bool_decide (tarball ∈ files fs1) then
          match failure with
          | Some e => (w2, Throw e)
          | None => setupPackageJson env name projectDir workDir extras w2
          end
        else (w2, Throw (ENOENT tarball)).
Proof.
  intros Hpack Hcli.
  rewrite prebuildProjectAsync_run, Hpack, prebuildFromTarball_run, Hcli.
  case_bool_decide as Hin.
  - eexists. split; [done|]. simpl. split; [apply not_in_withoutFile|].
    split; [intros file Hfile; by apply elem_of_withoutFile|].
    split; [done|]. split; [done|]. split; [done|]. by destruct failure.
  - eexists. split; [done|]. simpl. by split_and!.
Qed.

Lemma archive_removed_on_success_and_on_failure_witness :
  let w := Demo.world (projectFs Demo.emptyFs) in
  let w1 := packedWorld envFailingPrebuild Demo.emptyFs in
  ∃ w2,
    prebuildFromTarball envFailingPrebuild "/work/demo" demoTarball w1
    = (w2,
       if bool_decide (demoTarball ∈ files (fs w1)) then
         Throw (Rejected "expo prebuild")
       else Throw (ENOENT demoTarball))
    ∧ (demoTarball ∉ files (fs w2))
    ∧ (∀ file, file ≠ demoTarball → file ∈ files (fs w2) ↔ file ∈ files (fs w1))
    ∧ directories (fs w2) = directories (fs w1)
    ∧ packageJsons (fs w2) = packageJsons (fs w1)
    ∧ trace w2
      = trace w1 ++ [RunExpoCli "prebuild" (prebuildArgs demoTarball) "/work/demo";
                     Unlink demoTarball]
    ∧ prebuildProjectAsync envFailingPrebuild "demo" "/work/demo" "/work"
        ["expo-camera"] w
      = if bool_decide (demoTarball ∈ files (fs w1)) then
          (w2, Throw (Rejected "expo prebuild"))
        else (w2, Throw (ENOENT demoTarball)).
Proof.
  apply (archive_removed_on_success_and_on_failure envFailingPrebuild
           "demo" "/work/demo" "/work" ["expo-camera"]
           (Demo.world (projectFs Demo.emptyFs))
           (packedWorld envFailingPrebuild Demo.emptyFs) demoTarball
           (fs (packedWorld envFailingPrebuild Demo.emptyFs))
           (Some (Rejected "expo prebuild"))).
  - vm_compute. reflexivity.
  - vm_compute. reflexivity.
Defined.

Example failing_prebuild_still_unlinks :
  let '(w', completion) :=
    prebuildProjectAsync envFailingPrebuild "demo" "/work/demo" "/work"
      ["expo-camera"] (Demo.world (projectFs Demo.emptyFs)) in
  completion = Throw (Rejected "expo prebuild")
  ∧ files (fs w') = []
  ∧ List.last (trace w') GetListOfPackages = Unlink demoTarball.
Proof. vm_compute. by repeat split. Qed.

(** ** The manifest *)

(** The loop leaves the file system and the working directory alone; when
    it completes, every value was a package and the maps hold their paths. *)
Lemma forOf_installPackage projectDir targets :
  ∀ json w w' completion,
    forOf targets (installPackage projectDir) json w = (w', completion) →
    fs w' = fs w ∧ cwd w' = cwd w
    ∧ match completion with
      | Return json' =>
          Forall isPackageObject targets
          ∧ json' = fold_left (installed (cwd w) projectDir) targets json
      | Throw e => e = TypeError ∧ ¬ Forall isPackageObject targets
      end.
Proof.
  induction targets as [|v targets IH]; intros json w w' completion; simpl.
  - intros [= <- <-]. by repeat split.
  - unfold bind at 1. destruct v as [|pkg|key]; simpl.
    + intros [= <- <-]. repeat split; try done.
      intros H. apply Forall_cons in H as [[pkg ?] _]. done.
    + intros Hrest. apply IH in Hrest as (Hfs & Hcwd & Hcompletion).
      simpl in Hfs, Hcwd, Hcompletion. repeat split; try done.
      destruct completion as [json'|e].
      * destruct Hcompletion as [Hall ->]. split; [|done].
        apply Forall_cons. split; [by exists pkg | done].
      * destruct Hcompletion as [-> Hnot]. split; [done|].
        intros H. apply Forall_cons in H as [_ H]. by apply Hnot.
    + intros [= <- <-]. repeat split; try done.
      intros H. apply Forall_cons in H as [[pkg ?] _]. done.
Qed.

(** Conversely, over package objects the loop completes. *)
Lemma forOf_installPackage_total projectDir targets :
  Forall isPackageObject targets →
  ∀ json w, ∃ w',
    forOf targets (installPackage projectDir) json w
    = (w', Return (fold_left (installed (cwd w) projectDir) targets json)).
Proof.
  induction 1 as [|v targets [pkg ->] _ IH]; intros json w; simpl.
  - by eexists.
  - unfold bind at 1. simpl.
    destruct (IH (installed (cwd w) projectDir json (PackageObject pkg))
                 (record (ConsoleLog ("- " ++ packageName pkg)) w)) as [w' Hw'].
    exists w'. exact Hw'.
Qed.

Lemma setupPackageJson_keeps_files env name projectDir workDir extras w w' completion :
  setupPackageJson env name projectDir workDir extras w = (w', completion) →
  files (fs w') = files (fs w) ∧ cwd w' = cwd w.
Proof.
  unfold setupPackageJson, bind at 1, getListOfPackagesAsync, observe.
  destruct (listOfPackages env (fs w)) as [allPackages|e]; [|by intros [= <- _]].
  unfold bind at 1, require, observe. simpl.
  destruct (moduleAt (fs w) _) as [manifest|]; [|by intros [= <- _]].
  destruct (dependencies manifest) as [declared|]; [|by intros [= <- _]].
  unfold bind at 1, consoleLog. unfold bind at 1.
  destruct (forOf _ _ _ _) as [w3 [json|e]] eqn:Hloop;
    apply forOf_installPackage in Hloop as (Hfs & Hcwd & _); simpl in Hfs, Hcwd.
  - unfold bind, writeAsync, perform. simpl. intros [= <- _]. simpl.
    by rewrite Hfs, Hcwd.
  - intros [= <- _]. by rewrite Hfs, Hcwd.
Qed.

(** The archive that is located is the first file of the working directory
    that matches the pattern, after [npm pack]. *)
Lemma packBareTemplate_returns env name projectDir workDir w w1 tarball :
  packBareTemplate env name projectDir workDir w = (w1, Return tarball) →
  ∃ others,
    List.filter (tarballPattern (cwd w1) workDir) (files (fs w1)) = tarball :: others.
Proof.
  unfold packBareTemplate, bind at 1, mergeAsync, perform.
  destruct (mergeAppJson env _ _ (fs w)) as [fs1 [e|]]; [done|].
  unfold bind at 1, spawnAsync, perform. simpl.
  destruct (spawn env _ _ _ fs1) as [fs2 [e|]]; [done|].
  unfold bind, glob. simpl.
  destruct (List.filter _ (files fs2)) as [|first others] eqn:Hglob; [done|].
  destruct (Js.truthy first); [|done].
  intros [= <- <-]. simpl. by exists others.
Qed.

Lemma filter_nil_iff {A} (keep : A → bool) (l : list A) :
  List.filter keep l = [] ↔ ∀ x, x ∈ l → keep x = false.
Proof.
  induction l as [|x l IH]; simpl.
  - split; [intros _ y Hy; by apply elem_of_nil in Hy | done].
  - destruct (keep x) eqn:Hx.
    + split; [done|]. intros H. specialize (H x (list_elem_of_here _ _)). congruence.
    + rewrite IH. split.
      * intros H y Hy. apply elem_of_cons in Hy as [->|Hy]; [done | by apply H].
      * intros H y Hy. apply H. by apply list_elem_of_further.
Qed.

(** C8 fails: with two matching files in the working directory, the first is
    located and removed and the other is still there when
    [prebuildProjectAsync] returns. *)
Lemma prebuild_leaves_a_second_archive :
  ∃ w',
    prebuildProjectAsync Demo.env "demo" "/work/demo" "/work" ["expo-camera"]
      (Demo.world (projectFs staleFs))
    = (w', Return tt)
    ∧ List.filter (tarballPattern "/repo" "/work") (files (projectFs staleFs))
      = ["/work/expo-template-bare-minimum-44.0.0.tgz"]
    ∧ List.filter (tarballPattern (cwd w') "/work") (files (fs w'))
      = ["/work/expo-template-bare-minimum-45.0.0.tgz"].
Proof.
  eexists. split; [vm_compute; reflexivity|]. split; vm_compute; reflexivity.
Qed.

(** C8, amended. Once the archive is located, [prebuildProjectAsync] removes
    that one file, whether it returns or throws afterwards: its files are
    those [expo prebuild] left, without the located archive.  Hence no file
    matching the pattern remains exactly when the located archive is the only
    matching file [expo prebuild] left. *)
Theorem prebuild_removes_the_located_archive
    env name projectDir workDir extras w w1 tarball w' completion :
  packBareTemplate env name projectDir workDir w = (w1, Return tarball) →
  prebuildProjectAsync env name projectDir workDir extras w = (w', completion) →
  let afterPrebuild :=
    (expoCli env "prebuild" (prebuildArgs tarball) projectDir (fs w1)).1 in
  (∃ others,
     List.filter (tarballPattern (cwd w1) workDir) (files (fs w1)) = tarball :: others)
  ∧ files (fs w')
    = List.filter (fun f => negb (String.eqb f tarball)) (files afterPrebuild)
  ∧ (tarball ∉ files (fs w'))
  ∧ (List.filter (tarballPattern (cwd w') workDir) (files (fs w')) = []
     ↔ ∀ f, f ∈ files afterPrebuild →
            tarballPattern (cwd w') workDir f = true → f = tarball).
Proof.
  intros Hpack Hrun. cbv zeta.
  split; [by apply packBareTemplate_returns in Hpack|].
  rewrite prebuildProjectAsync_run, Hpack, prebuildFromTarball_run in Hrun.
  destruct (expoCli env "prebuild" (prebuildArgs tarball) projectDir (fs w1))
    as [fs1 failure]. simpl.
  assert (files (fs w')
          = List.filter (fun f => negb (String.eqb f tarball)) (files fs1)) as Hfiles.
  { destruct (bool_decide (tarball ∈ files fs1)) eqn:Hin.
    - destruct failure as [e|].
      + by injection Hrun as <- _.
      + by apply setupPackageJson_keeps_files in Hrun as [-> _].
    - apply bool_decide_eq_false in Hin. injection Hrun as <- _. simpl.
      by rewrite filter_absent. }
  split; [done|]. rewrite Hfiles. split.
  - rewrite list_elem_of_In, filter_In. intros [_ H].
    by rewrite String.eqb_refl in H.
  - rewrite filter_nil_iff. split.
    + intros H f Hf Hmatch. destruct (String.eqb f tarball) eqn:Heq.
      * by apply String.eqb_eq.
      * assert (tarballPattern (cwd w') workDir f = false); [|congruence].
        apply H. rewrite list_elem_of_In, filter_In, <- list_elem_of_In.
        by rewrite Heq.
    + intros H f Hf. rewrite list_elem_of_In, filter_In, <- list_elem_of_In in Hf.
      destruct Hf as [Hf Hne].
      destruct (tarballPattern (cwd w') workDir f) eqn:Hmatch; [|done].
      apply H in Hmatch; [|done]. subst f. by rewrite String.eqb_refl in Hne.
Qed.

Lemma prebuild_removes_the_located_archive_witness :
  let w1 := packedWorld Demo.env staleFs in
  let w' := (prebuildProjectAsync Demo.env "demo" "/work/demo" "/work" ["expo-camera"]
               (Demo.world (projectFs staleFs))).1 in
  let tarball := "/work/expo-template-bare-minimum-44.0.0.tgz" in
  let afterPrebuild :=
    (expoCli Demo.env "prebuild" (prebuildArgs tarball) "/work/demo" (fs w1)).1 in
  (∃ others,
     List.filter (tarballPattern (cwd w1) "/work") (files (fs w1)) = tarball :: others)
  ∧ files (fs w')
    = List.filter (fun f => negb (String.eqb f tarball)) (files afterPrebuild)
  ∧ (tarball ∉ files (fs w'))
  ∧ (List.filter (tarballPattern (cwd w') "/work") (files (fs w')) = []
     ↔ ∀ f, f ∈ files afterPrebuild →
            tarballPattern (cwd w') "/work" f = true → f = tarball).
Proof.
  apply (prebuild_removes_the_located_archive Demo.env "demo" "/work/demo" "/work"
           ["expo-camera"] (Demo.world (projectFs staleFs))
           (packedWorld Demo.env staleFs)
           "/work/expo-template-bare-minimum-44.0.0.tgz" _ (Return tt)).
  - vm_compute. reflexivity.
  - vm_compute. reflexivity.
Defined.

Lemma elem_of_newSet v values : v ∈ newSet values ↔ v ∈ values.
Proof.
  unfold newSet.
  enough (H : ∀ set,
    v ∈ fold_left
          (fun set v => if bool_decide (v ∈ set) then set else set ++ [v])
          values set
    ↔ v ∈ set ∨ v ∈ values).
  { rewrite H. rewrite elem_of_nil. tauto. }
  induction values as [|x values IH]; intros set; simpl.
  - rewrite elem_of_nil. tauto.
  - rewrite IH, elem_of_cons. case_bool_decide as Hx.
    + split; [tauto|]. intros [?|[->|?]]; tauto.
    + rewrite elem_of_app, elem_of_cons, elem_of_nil. tauto.
Qed.

Lemma objectKeys_spec (object : gmap string string) n :
  n ∈ objectKeys object ↔ is_Some (object !! n).
Proof.
  unfold objectKeys. rewrite list_elem_of_fmap. split.
  - intros ([k v] & -> & Hkv). apply elem_of_map_to_list in Hkv. by exists v.
  - intros [v Hv]. exists (n, v). split; [done|]. by apply elem_of_map_to_list.
Qed.

Section PackageMap.

Lemma fold_add_miss pkgs : ∀ accu n,
  n ∉ List.map packageName pkgs → fold_left indexPackage pkgs accu !! n = accu !! n.
Proof.
  induction pkgs as [|x pkgs IH]; intros accu n Hn; simpl; [done|].
  simpl in Hn. apply not_elem_of_cons in Hn as [Hne Hn].
  rewrite IH by done. unfold indexPackage. by rewrite lookup_insert_ne.
Qed.

Lemma fold_add_Some pkgs : ∀ accu n p,
  fold_left indexPackage pkgs accu !! n = Some p →
  (p ∈ pkgs ∧ packageName p = n) ∨ accu !! n = Some p.
Proof.
  induction pkgs as [|x pkgs IH]; intros accu n p; simpl; [by right|].
  intros H. apply IH in H as [[Hp Hn]|H].
  - left. split; [by apply list_elem_of_further | done].
  - unfold indexPackage in H. destruct (decide (packageName x = n)) as [Heq|Hne].
    + rewrite Heq, lookup_insert_eq in H. injection H as <-.
      left. split; [apply list_elem_of_here | done].
    + rewrite lookup_insert_ne in H by done. by right.
Qed.

Lemma fold_add_hit pkgs : ∀ accu n,
  n ∈ List.map packageName pkgs → is_Some (fold_left indexPackage pkgs accu !! n).
Proof.
  induction pkgs as [|x pkgs IH]; intros accu n Hn; simpl.
  - by apply elem_of_nil in Hn.
  - destruct (decide (n ∈ List.map packageName pkgs)) as [Hin|Hout].
    + by apply IH.
    + rewrite fold_add_miss by done. simpl in Hn.
      apply elem_of_cons in Hn as [->|Hn]; [|done].
      unfold indexPackage. rewrite lookup_insert_eq. by eexists.
Qed.

(** The map holds, for every name of the catalog, a package of that name. *)
Lemma makePackageMap_Some allPackages n p :
  makePackageMap allPackages !! n = Some p → p ∈ allPackages ∧ packageName p = n.
Proof.
  intros H. apply fold_add_Some in H as [H|H]; [done|].
  by rewrite lookup_empty in H.
Qed.

Lemma makePackageMap_is_Some allPackages n :
  n ∈ List.map packageName allPackages → is_Some (makePackageMap allPackages !! n).
Proof. apply fold_add_hit. Qed.

End PackageMap.

Section Installed.

Variables (cwd projectDir : string).

Lemma installed_miss targets n : ∀ json,
  (∀ q, PackageObject q ∈ targets → packageName q ≠ n) →
  (fold_left (installed cwd projectDir) targets json).1 !! n = json.1 !! n
  ∧ (fold_left (installed cwd projectDir) targets json).2 !! n = json.2 !! n.
Proof.
  induction targets as [|v targets IH]; intros json Hmiss; simpl; [done|].
  destruct (IH (installed cwd projectDir json v)) as [H1 H2].
  { intros q Hq. apply Hmiss. by apply list_elem_of_further. }
  rewrite H1, H2. destruct v as [|q|key]; simpl; try done.
  assert (packageName q ≠ n) by (apply Hmiss; apply list_elem_of_here).
  by rewrite !lookup_insert_ne.
Qed.

Lemma installed_hit targets pkg : ∀ json,
  PackageObject pkg ∈ targets →
  (∀ q, PackageObject q ∈ targets → packageName q = packageName pkg → q = pkg) →
  (fold_left (installed cwd projectDir) targets json).1 !! packageName pkg
  = Some (Path.relative cwd projectDir (path pkg))
  ∧ (fold_left (installed cwd projectDir) targets json).2 !! packageName pkg
    = Some (Path.relative cwd projectDir (path pkg)).
Proof.
  induction targets as [|v targets IH]; intros json Hin Hunique; simpl.
  - by apply elem_of_nil in Hin.
  - destruct (decide (PackageObject pkg ∈ targets)) as [Hrest|Hrest].
    + apply IH; [done|]. intros q Hq. apply Hunique. by apply list_elem_of_further.
    + apply elem_of_cons in Hin as [<-|Hin]; [|done].
      destruct (installed_miss targets (packageName pkg)
                  (installed cwd projectDir json (PackageObject pkg))) as [H1 H2].
      { intros q Hq Hname. apply Hrest.
        rewrite <- (Hunique q); [done | by apply list_elem_of_further | done]. }
      rewrite H1, H2. simpl. by rewrite !lookup_insert_eq.
Qed.

End Installed.

Lemma elem_of_installPackagesOf allPackageMap declared extras v :
  v ∈ installPackagesOf allPackageMap declared extras
  ↔ ∃ n, (is_Some (declared !! n) ∨ n ∈ extras)
         ∧ getProperty allPackageMap n = v ∧ truthyValue v = true.
Proof.
  unfold installPackagesOf.
  rewrite elem_of_newSet, list_elem_of_In, in_map_iff. split.
  - intros (n & <- & Hn). apply filter_In in Hn as [Hn Htruthy].
    apply list_elem_of_In, elem_of_app in Hn. rewrite objectKeys_spec in Hn.
    by exists n.
  - intros (n & Hn & <- & Htruthy). exists n. split; [done|].
    apply filter_In. split; [|done].
    apply list_elem_of_In, elem_of_app. by rewrite objectKeys_spec.
Qed.

Lemma getProperty_package allPackageMap n pkg :
  getProperty allPackageMap n = PackageObject pkg ↔ allPackageMap !! n = Some pkg.
Proof.
  unfold getProperty. destruct (allPackageMap !! n) as [q|].
  - split; congruence.
  - by case_bool_decide.
Qed.

Lemma moduleAt_Some fs file json :
  moduleAt fs file = Some json
  ↔ Path.isAbsolute file = true ∧ packageJsons fs !! file = Some json.
Proof.
  unfold moduleAt. destruct (Path.isAbsolute file); [|split; [done|by intros [? _]]].
  split; [done|by intros [_ ?]].
Qed.

(** What a completed rewrite has read and written. *)
Lemma setupPackageJson_returns env name projectDir workDir extras w w' :
  setupPackageJson env name projectDir workDir extras w = (w', Return tt) →
  ∃ allPackages manifest declared,
    listOfPackages env (fs w) = Return allPackages
    ∧ packageJsons (fs w) !! manifestPath workDir name = Some manifest
    ∧ dependencies manifest = Some declared
    ∧ Forall isPackageObject
        (installPackagesOf (makePackageMap allPackages) declared extras)
    ∧ packageJsons (fs w')
      = <[manifestPath workDir name :=
            let json :=
              fold_left (installed (cwd w) projectDir)
                (installPackagesOf (makePackageMap allPackages) declared extras)
                (declared, default ∅ (resolutions manifest)) in
            {| dependencies := Some json.1; resolutions := Some json.2 |}]>
          (packageJsons (fs w)).
Proof.
  unfold setupPackageJson, manifestPath, bind at 1, getListOfPackagesAsync, observe.
  destruct (listOfPackages env (fs w)) as [allPackages|e]; [|done].
  unfold bind at 1, require, observe. simpl.
  destruct (moduleAt (fs w) _) as [manifest|] eqn:Hmanifest; [|done].
  apply moduleAt_Some in Hmanifest as [_ Hmanifest].
  destruct (dependencies manifest) as [declared|] eqn:Hdeclared; [|done].
  unfold bind at 1, consoleLog. unfold bind at 1.
  destruct (forOf _ _ _ _) as [w3 [json|e]] eqn:Hloop; [|done].
  apply forOf_installPackage in Hloop as (Hfs & Hcwd & Hall & ->).
  simpl in Hfs, Hcwd.
  unfold bind, writeAsync, perform. simpl. intros [= <-]. simpl.
  exists allPackages, manifest, declared. rewrite Hfs. by repeat split.
Qed.

(** The rewrite completes when the catalog and the manifest can be read and
    no name of the manifest or of the selection is, outside the catalog, a
    key of [Object.prototype]. *)
Lemma setupPackageJson_total env name projectDir workDir extras w
    allPackages manifest declared :
  listOfPackages env (fs w) = Return allPackages →
  Path.isAbsolute (manifestPath workDir name) = true →
  packageJsons (fs w) !! manifestPath workDir name = Some manifest →
  dependencies manifest = Some declared →
  (∀ n, is_Some (declared !! n) ∨ n ∈ extras →
        n ∈ objectPrototypeKeys → n ∈ List.map packageName allPackages) →
  ∃ w', setupPackageJson env name projectDir workDir extras w = (w', Return tt).
Proof.
  intros Hlist Habsolute Hmanifest Hdeclared Hkeys.
  assert (moduleAt (fs w) (manifestPath workDir name) = Some manifest) as Hmodule
    by by apply moduleAt_Some.
  assert (Forall isPackageObject
            (installPackagesOf (makePackageMap allPackages) declared extras)) as Hall.
  { apply Forall_forall. intros v Hv.
    apply elem_of_installPackagesOf in Hv as (n & Hn & <- & Htruthy).
    unfold getProperty in *.
    destruct (makePackageMap allPackages !! n) as [pkg|] eqn:Hpkg; [by exists pkg|].
    case_bool_decide as Hproto; [|done].
    destruct (makePackageMap_is_Some allPackages n (Hkeys n Hn Hproto))
      as [pkg Hsome].
    congruence. }
  unfold setupPackageJson, bind at 1, getListOfPackagesAsync, observe.
  rewrite Hlist. unfold bind at 1, require, observe. simpl.
  unfold manifestPath in Hmodule. rewrite Hmodule, Hdeclared.
  unfold bind at 1, consoleLog. unfold bind at 1.
  edestruct (forOf_installPackage_total projectDir _ Hall) as [w3 ->].
  unfold bind, writeAsync, perform. simpl. by eexists.
Qed.

(** C2. After the rewrite of the manifest: a name that is declared in the
    manifest or selected, and that is the name of a catalog package, has in
    [dependencies] the path of that package relative to the project
    directory, and the same value in [resolutions] (which exists from then
    on); every other name has in [dependencies] and in [resolutions] what it
    had before, so a name that was in neither is in neither. *)
Theorem manifest_points_eligible_names_to_local_paths
    env name projectDir workDir extras w w' :
  setupPackageJson env name projectDir workDir extras w = (w', Return tt) →
  ∃ allPackages manifest declared declared' overrides',
    listOfPackages env (fs w) = Return allPackages
    ∧ packageJsons (fs w) !! manifestPath workDir name = Some manifest
    ∧ dependencies manifest = Some declared
    ∧ packageJsons (fs w') !! manifestPath workDir name
      = Some {| dependencies := Some declared'; resolutions := Some overrides' |}
    ∧ (∀ n, (is_Some (declared !! n) ∨ n ∈ extras) →
            n ∈ List.map packageName allPackages →
            ∃ pkg, pkg ∈ allPackages ∧ packageName pkg = n
                   ∧ declared' !! n = Some (Path.relative (cwd w) projectDir (path pkg))
                   ∧ overrides' !! n = declared' !! n)
    ∧ (∀ n, ¬ ((is_Some (declared !! n) ∨ n ∈ extras)
               ∧ n ∈ List.map packageName allPackages) →
            declared' !! n = declared !! n
            ∧ overrides' !! n = default ∅ (resolutions manifest) !! n).
Proof.
  intros Hrun.
  apply setupPackageJson_returns in Hrun
    as (allPackages & manifest & declared & Hlist & Hmanifest & Hdeclared & Hall & Hfs).
  set (targets := installPackagesOf (makePackageMap allPackages) declared extras) in *.
  set (json := fold_left (installed (cwd w) projectDir) targets
                 (declared, default ∅ (resolutions manifest))) in *.
  exists allPackages, manifest, declared, json.1, json.2.
  split; [done|]. split; [done|]. split; [done|].
  split; [by rewrite Hfs, lookup_insert_eq|].
  assert (Htargets : ∀ q, PackageObject q ∈ targets →
            (is_Some (declared !! packageName q) ∨ packageName q ∈ extras)
            ∧ makePackageMap allPackages !! packageName q = Some q
            ∧ q ∈ allPackages).
  { intros q Hq. apply elem_of_installPackagesOf in Hq as (n & Hn & Hq & _).
    apply getProperty_package in Hq.
    destruct (makePackageMap_Some _ _ _ Hq) as [Hin <-]. done. }
  split.
  - intros n Hn Hcatalog.
    destruct (makePackageMap_is_Some allPackages n Hcatalog) as [pkg Hpkg].
    destruct (makePackageMap_Some _ _ _ Hpkg) as [Hin Hname]. subst n.
    exists pkg. split; [done|]. split; [done|].
    destruct (installed_hit (cwd w) projectDir targets pkg
                (declared, default ∅ (resolutions manifest))) as [H1 H2].
    + apply elem_of_installPackagesOf. exists (packageName pkg).
      split; [done|]. split; [by apply getProperty_package | done].
    + intros q Hq Hname. apply Htargets in Hq as (_ & Hq & _).
      rewrite Hname in Hq. congruence.
    + fold json in H1, H2. by rewrite H1, H2.
  - intros n Hn.
    destruct (installed_miss (cwd w) projectDir targets n
                (declared, default ∅ (resolutions manifest))) as [H1 H2].
    + intros q Hq <-. apply Hn. apply Htargets in Hq as (Hq & _ & Hin).
      split; [done|]. apply list_elem_of_fmap. by exists q.
    + done.
Qed.

Lemma manifest_points_eligible_names_to_local_paths_witness :
  let w := Demo.world (projectFs Demo.emptyFs) in
  let w' := (setupPackageJson Demo.env "demo" "/work/demo" "/work"
               ["expo-camera"; "left-pad"] w).1 in
  ∃ allPackages manifest declared declared' overrides',
    listOfPackages Demo.env (fs w) = Return allPackages
    ∧ packageJsons (fs w) !! manifestPath "/work" "demo" = Some manifest
    ∧ dependencies manifest = Some declared
    ∧ packageJsons (fs w') !! manifestPath "/work" "demo"
      = Some {| dependencies := Some declared'; resolutions := Some overrides' |}
    ∧ (∀ n, (is_Some (declared !! n) ∨ n ∈ ["expo-camera"; "left-pad"]) →
            n ∈ List.map packageName allPackages →
            ∃ pkg, pkg ∈ allPackages ∧ packageName pkg = n
                   ∧ declared' !! n = Some (Path.relative (cwd w) "/work/demo" (path pkg))
                   ∧ overrides' !! n = declared' !! n)
    ∧ (∀ n, ¬ ((is_Some (declared !! n) ∨ n ∈ ["expo-camera"; "left-pad"])
               ∧ n ∈ List.map packageName allPackages) →
            declared' !! n = declared !! n
            ∧ overrides' !! n = default ∅ (resolutions manifest) !! n).
Proof.
  apply (manifest_points_eligible_names_to_local_paths Demo.env "demo" "/work/demo"
           "/work" ["expo-camera"; "left-pad"] (Demo.world (projectFs Demo.emptyFs))).
  vm_compute. reflexivity.
Defined.

Example rewritten_manifest :
  let w' := (setupPackageJson Demo.env "demo" "/work/demo" "/work"
               ["expo-camera"; "left-pad"] (Demo.world (projectFs Demo.emptyFs))).1 in
  match packageJsons (fs w') !! "/work/demo/package.json" with
  | Some {| dependencies := Some declared; resolutions := Some overrides |} =>
      declared !! "expo" = Some "../../repo/packages/expo"
      ∧ declared !! "expo-camera" = Some "../../repo/packages/expo-camera"
      ∧ declared !! "react" = Some "17.0.2"
      ∧ declared !! "left-pad" = None
      ∧ overrides !! "expo" = Some "../../repo/packages/expo"
      ∧ overrides !! "react" = None
  | _ => False
  end.
Proof. vm_compute. by repeat split. Qed.

Example prototype_key_in_selection :
  (setupPackageJson Demo.env "demo" "/work/demo" "/work" ["constructor"]
     (Demo.world (projectFs Demo.emptyFs))).2
  = Throw TypeError.
Proof. vm_compute. reflexivity. Qed.


(** * Further properties *)

(** ** Paths *)

Lemma split_pieces_without_sep sep s :
  Forall (fun piece => containsChar sep piece = false) (Js.split sep s).
Proof.
  induction s as [|c s IH]; simpl.
  - by apply Forall_cons.
  - destruct (Ascii.eqb c sep) eqn:Hc.
    + by apply Forall_cons.
    + destruct (Js.split sep s) as [|piece pieces].
      * apply Forall_cons. split; [|done]. simpl. by rewrite Hc.
      * apply Forall_cons in IH as [Hpiece Hpieces].
        apply Forall_cons. split; [|done]. simpl. by rewrite Hc.
Qed.

Lemma pushSegment_plain stack seg :
  Forall isPlainSegment stack → containsChar Path.sep seg = false →
  Forall isPlainSegment (Path.pushSegment false stack seg).
Proof.
  intros Hstack Hseg. unfold Path.pushSegment.
  destruct (String.eqb seg "") eqn:Hempty; [done|].
  destruct (String.eqb seg ".") eqn:Hdot; [done|]. simpl.
  destruct (String.eqb seg "..") eqn:Hdots.
  - destruct (last stack) as [top|] eqn:Hlast; [|done].
    destruct (String.eqb top ".."); [done|].
    destruct stack as [|x stack _] using rev_ind; [done|].
    rewrite removelast_last. by apply Forall_app in Hstack as [? _].
  - apply Forall_app. split; [done|]. apply Forall_cons. split; [|done].
    apply String.eqb_neq in Hempty, Hdot, Hdots. by repeat split.
Qed.

Lemma normalizeSegments_plain segs :
  Forall (fun seg => containsChar Path.sep seg = false) segs →
  Forall isPlainSegment (Path.normalizeSegments false segs).
Proof.
  unfold Path.normalizeSegments.
  enough (H : ∀ stack, Forall isPlainSegment stack →
                Forall (fun seg => containsChar Path.sep seg = false) segs →
                Forall isPlainSegment (fold_left (Path.pushSegment false) segs stack))
    by by apply H.
  induction segs as [|seg segs IH]; intros stack Hstack Hsegs; simpl; [done|].
  apply Forall_cons in Hsegs as [Hseg Hsegs].
  apply IH; [|done]. by apply pushSegment_plain.
Qed.

(** A resolved path is made of plain segments. *)
Lemma resolveSegments_plain cwd p : Forall isPlainSegment (Path.resolveSegments cwd p).
Proof.
  unfold Path.resolveSegments, Path.segments.
  destruct (Path.isAbsolute p); apply normalizeSegments_plain.
  - apply split_pieces_without_sep.
  - apply Forall_app. split; apply split_pieces_without_sep.
Qed.

Lemma dropCommon_spec from to :
  ∃ common,
    from = common ++ (Path.dropCommon from to).1
    ∧ to = common ++ (Path.dropCommon from to).2.
Proof.
  revert to. induction from as [|f from IH]; intros to; simpl.
  - by exists [].
  - destruct to as [|t to]; [by exists []|].
    destruct (String.eqb f t) eqn:Heq; [|by exists []].
    apply String.eqb_eq in Heq as ->.
    destruct (IH to) as (common & H1 & H2).
    exists (t :: common). simpl. by rewrite <- H1, <- H2.
Qed.

Lemma dropCommon_prefix from down :
  Path.dropCommon from (from ++ down) = ([], down).
Proof.
  induction from as [|f from IH]; simpl.
  - by destruct down.
  - by rewrite String.eqb_refl.
Qed.

Lemma join_cons sep piece pieces :
  Js.join sep (piece :: pieces)
  = match pieces with
    | [] => piece
    | _ => (piece ++ sep ++ Js.join sep pieces)%string
    end.
Proof. by destruct pieces. Qed.

Lemma prefix_dots c1 c2 s :
  String.prefix ".." (String c1 (String c2 s))
  = if ascii_dec "." c1 then (if ascii_dec "." c2 then true else false) else false.
Proof. by destruct s. Qed.

(** The first two characters of the joined segments are those of the first
    segment. *)
Lemma startsWith_dots_join seg segs :
  seg ≠ "" →
  containsChar Path.sep seg = false →
  Js.startsWith (Js.join "/" (seg :: segs)) ".." = Js.startsWith seg "..".
Proof.
  intros Hne Hsep. rewrite join_cons. destruct segs as [|next segs]; [done|].
  unfold Js.startsWith. generalize (Js.join "/" (next :: segs)). intros tail.
  destruct seg as [|c1 [|c2 seg]]; [done| |].
  - change (String.prefix ".." (String c1 (String "/" tail))
            = String.prefix ".." (String c1 "")).
    rewrite prefix_dots. change (String.prefix ".." (String c1 ""))
      with (if ascii_dec "." c1 then false else false).
    destruct (ascii_dec "." c1); [|done]. by destruct (ascii_dec "." "/").
  - change (String.prefix ".." (String c1 (String c2 (seg ++ "/" ++ tail)%string))
            = String.prefix ".." (String c1 (String c2 seg))).
    by rewrite !prefix_dots.
Qed.

Lemma join_dots_starts_with_dots (up : list string) down :
  up ≠ [] →
  Js.startsWith (Js.join "/" (List.map (fun _ => "..") up ++ down)) ".." = true.
Proof.
  destruct up as [|u up]; [done|]. intros _. simpl List.map. simpl app.
  rewrite join_cons. by destruct (List.map _ up ++ down).
Qed.

Lemma join_plain_not_absolute seg segs :
  seg ≠ "" → containsChar Path.sep seg = false →
  Path.isAbsolute (Js.join "/" (seg :: segs)) = false.
Proof.
  intros Hne Hsep. rewrite join_cons.
  destruct seg as [|c seg]; [done|]. simpl in Hsep.
  apply orb_false_iff in Hsep as [Hc _].
  unfold Path.isAbsolute, Js.startsWith.
  assert (∀ rest, String.prefix "/" (String c rest) = false) as Hprefix.
  { intros rest.
    assert (String.prefix "/" (String c rest)
            = if ascii_dec "/" c then true else false) as -> by by destruct rest.
    destruct (ascii_dec "/" c) as [<-|]; [|done].
    by rewrite Ascii.eqb_refl in Hc. }
  destruct segs; apply Hprefix.
Qed.

Lemma join_nonempty seg segs : seg ≠ "" → Js.join "/" (seg :: segs) ≠ "".
Proof.
  intros Hne. rewrite join_cons. destruct segs; [done|]. by destruct seg.
Qed.

(** [path.relative] never answers with an absolute path. *)
Lemma relative_not_absolute cwd from to :
  Path.isAbsolute (Path.relative cwd from to) = false.
Proof.
  unfold Path.relative.
  destruct (dropCommon_spec (Path.resolveSegments cwd from)
              (Path.resolveSegments cwd to)) as (common & _ & Hto).
  destruct (Path.dropCommon _ _) as [up down]. simpl in Hto.
  destruct up as [|u up]; simpl.
  - destruct down as [|seg down]; [done|].
    pose proof (resolveSegments_plain cwd to) as Hplain.
    rewrite Hto in Hplain. apply Forall_app in Hplain as [_ Hplain].
    apply Forall_cons in Hplain as [(Hne & _ & _ & Hsep) _].
    by apply join_plain_not_absolute.
  - by apply join_plain_not_absolute.
Qed.

Lemma relative_eq cwd from to :
  Path.relative cwd from to
  = Js.join "/"
      (List.map (fun _ => "..")
         (Path.dropCommon (Path.resolveSegments cwd from)
            (Path.resolveSegments cwd to)).1
       ++ (Path.dropCommon (Path.resolveSegments cwd from)
             (Path.resolveSegments cwd to)).2).
Proof. unfold Path.relative. by destruct (Path.dropCommon _ _). Qed.

(** ** Which files a package owns *)

(** X1. A changed file is inside a package exactly when its resolved path
    continues the resolved path of the package by at least one segment, the
    first of which does not start with two dots.  The package directory
    itself is not inside the package. *)
Theorem inside_package_iff_path_continues cwd rootDir pkg file :
  isInsidePackage cwd rootDir pkg file = true
  ↔ ∃ seg rest,
      Path.resolveSegments cwd file
      = Path.resolveSegments cwd (Path.relative cwd rootDir (path pkg)) ++ seg :: rest
      ∧ Js.startsWith seg ".." = false.
Proof.
  rewrite isInsidePackage_spec. cbv zeta.
  set (pkgRelativePath := Path.relative cwd rootDir (path pkg)).
  rewrite relative_eq.
  pose proof (resolveSegments_plain cwd file) as Hplain.
  destruct (dropCommon_spec (Path.resolveSegments cwd pkgRelativePath)
              (Path.resolveSegments cwd file)) as (common & Hfrom & Hto).
  split.
  - intros (Hne & Hdots & _).
    destruct (Path.dropCommon _ _) as [up down]. cbn [fst snd] in *.
    destruct up as [|u up].
    + rewrite app_nil_r in Hfrom. subst common.
      cbn [List.map app] in Hne, Hdots.
      destruct down as [|seg rest]; [done|].
      exists seg, rest. split; [done|].
      rewrite Hto in Hplain. apply Forall_app in Hplain as [_ Hplain].
      apply Forall_cons in Hplain as [(Hseg & _ & _ & Hsep) _].
      by rewrite startsWith_dots_join in Hdots.
    + by rewrite join_dots_starts_with_dots in Hdots.
  - intros (seg & rest & Hfile & Hdots).
    rewrite Hfile in Hplain |- *. rewrite dropCommon_prefix.
    cbn [fst snd List.map app].
    apply Forall_app in Hplain as [_ Hplain].
    apply Forall_cons in Hplain as [(Hseg & _ & _ & Hsep) _].
    split; [by apply join_nonempty|].
    split; [by rewrite startsWith_dots_join | by apply join_plain_not_absolute].
Qed.

(** X2. In the test of the inner loop the third condition never decides:
    the relative path is never absolute, so a file is inside a package
    exactly when the relative path is not empty and does not start with two
    dots. *)
Theorem inside_package_needs_no_absolute_test cwd rootDir pkg file :
  let relativePath :=
    Path.relative cwd (Path.relative cwd rootDir (path pkg)) file in
  Path.isAbsolute relativePath = false
  ∧ isInsidePackage cwd rootDir pkg file
    = Js.truthy relativePath && negb (Js.startsWith relativePath "..").
Proof.
  cbv zeta. unfold isInsidePackage.
  rewrite relative_not_absolute. split; [done|]. simpl. by rewrite andb_true_r.
Qed.

(** X3. Nested packages are both reported: when the path of a package
    continues the path of another one by segments the first of which does not
    start with two dots, every file inside the inner package is inside the
    outer one, so a change of such a file puts both names in the change
    set. *)
Theorem nested_packages_are_both_reported
    env base ref w allPackages changed outer inner file seg rest :
  listOfPackages env (fs w) = Return allPackages →
  changedFiles env base ref (fs w) = Return changed →
  outer ∈ allPackages → inner ∈ allPackages → file ∈ changed →
  Path.resolveSegments (cwd w)
    (Path.relative (cwd w) (getExpoRepositoryRootDir env) (path inner))
  = Path.resolveSegments (cwd w)
      (Path.relative (cwd w) (getExpoRepositoryRootDir env) (path outer))
    ++ seg :: rest →
  Js.startsWith seg ".." = false →
  isInsidePackage (cwd w) (getExpoRepositoryRootDir env) inner file = true →
  isInsidePackage (cwd w) (getExpoRepositoryRootDir env) outer file = true
  ∧ ∃ w' result,
      getChangedPackagesAsync env base ref w = (w', Return result)
      ∧ packageName inner ∈ result ∧ packageName outer ∈ result.
Proof.
  intros Hlist Hchanged Houter Hinner Hfile Hnested Hseg Hinside.
  assert (isInsidePackage (cwd w) (getExpoRepositoryRootDir env) outer file = true)
    as Hout.
  { apply inside_package_iff_path_continues in Hinside as (seg' & rest' & Hpath & _).
    apply inside_package_iff_path_continues. exists seg, (rest ++ seg' :: rest').
    split; [|done]. rewrite Hpath, Hnested, <- app_assoc. done. }
  split; [done|].
  eexists _, _. split; [by apply getChangedPackagesAsync_run|].
  split; apply elem_of_changedPackagesLoop.
  - by exists file, inner.
  - by exists file, outer.
Qed.

Lemma nested_packages_are_both_reported_witness :
  isInsidePackage "/repo" "/repo" Demo.expo
    "packages/expo/bundledNativeModules/index.js" = true
  ∧ ∃ w' result,
      getChangedPackagesAsync envNested "master" "HEAD" (Demo.world Demo.emptyFs)
      = (w', Return result)
      ∧ packageName bundledModules ∈ result ∧ packageName Demo.expo ∈ result.
Proof.
  apply (nested_packages_are_both_reported envNested "master" "HEAD"
           (Demo.world Demo.emptyFs) (Demo.workspace ++ [bundledModules])
           ["packages/expo/bundledNativeModules/index.js"]
           Demo.expo bundledModules "packages/expo/bundledNativeModules/index.js"
           "bundledNativeModules" []).
  - reflexivity.
  - reflexivity.
  - apply (bool_decide_unpack (Demo.expo ∈ Demo.workspace ++ [bundledModules])).
    vm_compute. exact I.
  - apply (bool_decide_unpack (bundledModules ∈ Demo.workspace ++ [bundledModules])).
    vm_compute. exact I.
  - apply list_elem_of_here.
  - vm_compute. reflexivity.
  - reflexivity.
  - vm_compute. reflexivity.
Defined.



Lemma getChangedPackagesAsync_throws env base ref w w' e :
  getChangedPackagesAsync env base ref w = (w', Throw e)
  ↔ (listOfPackages env (fs w) = Throw e
     ∧ w' = record GetListOfPackages w)
    ∨ (∃ allPackages,
         listOfPackages env (fs w) = Return allPackages
         ∧ changedFiles env base ref (fs w) = Throw e
         ∧ w' = record (GetChangedFiles base ref) (record GetListOfPackages w)).
Proof.
  unfold getChangedPackagesAsync, bind, getListOfPackagesAsync,
    getChangedFilesAsync, observe, getCwd, ret.
  destruct (listOfPackages env (fs w)) as [allPackages|e0]; simpl.
  - destruct (changedFiles env base ref (fs w)) as [changed|e1]; split.
    + done.
    + intros [[? _]|(? & _ & ? & _)]; done.
    + intros [= <- <-]. right. by exists allPackages.
    + intros [[? _]|(? & _ & [= <-] & ->)]; done.
  - split.
    + intros [= <- <-]. by left.
    + intros [[[= <-] ->]|(? & ? & _)]; done.
Qed.

(** X5. The change set fails in two ways only, with the error of the
    collaborator: the catalog cannot be listed, and then git is not asked; or
    git cannot list the changed files.  Each collaborator is asked once. *)
Theorem changed_packages_fail_with_the_collaborator env base ref w w' e :
  getChangedPackagesAsync env base ref w = (w', Throw e)
  ↔ (listOfPackages env (fs w) = Throw e
     ∧ w' = record GetListOfPackages w)
    ∨ (∃ allPackages,
         listOfPackages env (fs w) = Return allPackages
         ∧ changedFiles env base ref (fs w) = Throw e
         ∧ w' = record (GetChangedFiles base ref) (record GetListOfPackages w)).
Proof. apply getChangedPackagesAsync_throws. Qed.

(** ** What the selection does and how it fails *)

Lemma extraPackagesOf_only_reads env options w w' completion :
  extraPackagesOf env options w = (w', completion) →
  fs w' = fs w ∧ cwd w' = cwd w
  ∧ ∃ events, trace w' = trace w ++ events ∧ Forall isQuery events.
Proof.
  unfold extraPackagesOf.
  destruct (String.eqb (packages options) "default").
  { intros [= <- _]. repeat split. exists []. by rewrite app_nil_r. }
  destruct (String.eqb (packages options) "all").
  { unfold bind, getListOfPackagesAsync, observe, ret.
    destruct (listOfPackages env (fs w)); intros [= <- _]; repeat split;
      exists [GetListOfPackages]; (split; [done|]);
      apply Forall_cons; (split; [by left | done]). }
  destruct (String.eqb (packages options) "changed").
  { unfold getChangedPackagesAsync, bind, getListOfPackagesAsync,
      getChangedFilesAsync, observe, getCwd, ret.
    assert (Forall isQuery
              [GetListOfPackages;
               GetChangedFiles (changedBase options) (changedRef options)]) as Hq.
    { apply Forall_cons. split; [by left|].
      apply Forall_cons. split; [right; eauto | done]. }
    destruct (listOfPackages env (fs w)); simpl.
    - destruct (changedFiles env _ _ (fs w)); intros [= <- _]; repeat split;
        eexists; (split; [|exact Hq]); simpl; by rewrite <- app_assoc.
    - intros [= <- _]. repeat split. exists [GetListOfPackages]. split; [done|].
      apply Forall_cons. split; [by left | done]. }
  intros [= <- _]. repeat split. exists []. by rewrite app_nil_r.
Qed.

Lemma getExtraPackagesAsync_only_reads env options w w' completion :
  getExtraPackagesAsync env options w = (w', completion) →
  fs w' = fs w ∧ cwd w' = cwd w
  ∧ ∃ events,
      trace w' = trace w ++ GetPackageByName "expo" :: events
      ∧ Forall isQuery events.
Proof.
  rewrite getExtraPackagesAsync_run.
  destruct (packageByName env "expo" (fs w)) as [expoPackage|].
  - destruct (extraPackagesOf env options _) as [w1 c1] eqn:Hextra.
    apply extraPackagesOf_only_reads in Hextra as (Hfs & Hcwd & events & Htrace & Hq).
    simpl in Hfs, Hcwd, Htrace. intros Hrun.
    assert (w1 = w') as <- by (destruct c1; congruence).
    repeat split; try done. exists events. split; [|done].
    by rewrite Htrace, <- app_assoc.
  - intros [= <- _]. repeat split. exists []. by split.
Qed.

(** X6. Whatever the mode and the outcome, the selection only reads: the file
    system and the working directory are as before, and after the lookup of
    [expo] the only interactions are listings of the catalog and of the
    changed files. *)
Theorem selection_only_reads env options w w' completion :
  getExtraPackagesAsync env options w = (w', completion) →
  fs w' = fs w ∧ cwd w' = cwd w
  ∧ ∃ events,
      trace w' = trace w ++ GetPackageByName "expo" :: events
      ∧ Forall isQuery events.
Proof. apply getExtraPackagesAsync_only_reads. Qed.

Lemma selection_only_reads_witness :
  let w' := (getExtraPackagesAsync Demo.env (Demo.options (Some "demo") "changed")
               (Demo.world Demo.emptyFs)).1 in
  fs w' = Demo.emptyFs ∧ cwd w' = "/repo"
  ∧ ∃ events,
      trace w' = [] ++ GetPackageByName "expo" :: events
      ∧ Forall isQuery events.
Proof.
  apply (selection_only_reads Demo.env (Demo.options (Some "demo") "changed")
           (Demo.world Demo.emptyFs) _
           (Return ["expo-asset"; "expo-constants"; "expo-camera"; "expo-camera"])).
  vm_compute. reflexivity.
Defined.

(** X7. The causes of a failed selection: [expo] is not found, in any mode;
    the catalog cannot be listed, in the modes [all] and [changed]; git
    cannot list the changed files, in the mode [changed].  With [expo] found,
    the mode [default] and a list of names never fail. *)
Theorem selection_fails_for_three_reasons env options w w' e :
  getExtraPackagesAsync env options w = (w', Throw e) →
  (packageByName env "expo" (fs w) = None ∧ e = expoNotFound)
  ∨ (is_Some (packageByName env "expo" (fs w))
     ∧ ((packages options = "all" ∨ packages options = "changed")
        ∧ listOfPackages env (fs w) = Throw e
        ∨ packages options = "changed"
          ∧ changedFiles env (changedBase options) (changedRef options) (fs w)
            = Throw e)).
Proof.
  rewrite getExtraPackagesAsync_run.
  destruct (packageByName env "expo" (fs w)) as [expoPackage|];
    [|intros [= _ <-]; by left].
  destruct (extraPackagesOf env options _) as [w1 [extra|e1]] eqn:Hextra; [done|].
  intros [= -> ->]. right. split; [by eexists|].
  unfold extraPackagesOf in Hextra.
  destruct (String.eqb (packages options) "default") eqn:Hdefault; [done|].
  destruct (String.eqb (packages options) "all") eqn:Hall.
  { apply String.eqb_eq in Hall. left. split; [by left|].
    unfold bind, getListOfPackagesAsync, observe, ret in Hextra. simpl in Hextra.
    destruct (listOfPackages env (fs w)); congruence. }
  destruct (String.eqb (packages options) "changed") eqn:Hchanged; [|done].
  apply String.eqb_eq in Hchanged.
  apply getChangedPackagesAsync_throws in Hextra
    as [[Hlist _]|(allPackages & _ & Hgit & _)].
  - left. split; [by right | done].
  - by right.
Qed.

Lemma selection_fails_for_three_reasons_witness :
  (packageByName envFailingGit "expo" Demo.emptyFs = None
   ∧ Rejected "git diff" = expoNotFound)
  ∨ (is_Some (packageByName envFailingGit "expo" Demo.emptyFs)
     ∧ (("changed" = "all" ∨ "changed" = "changed")
        ∧ listOfPackages envFailingGit Demo.emptyFs = Throw (Rejected "git diff")
        ∨ "changed" = "changed"
          ∧ changedFiles envFailingGit "master" "HEAD" Demo.emptyFs
            = Throw (Rejected "git diff"))).
Proof.
  apply (selection_fails_for_three_reasons envFailingGit
           (Demo.options (Some "demo") "changed") (Demo.world Demo.emptyFs)
           (record (GetChangedFiles "master" "HEAD")
              (record GetListOfPackages
                 (record (GetPackageByName "expo") (Demo.world Demo.emptyFs))))).
  vm_compute. reflexivity.
Defined.

Lemma elem_of_allSupportedPackages allPackages n :
  n ∈ allSupportedPackages allPackages
  ↔ n ≠ "" ∧ (n ∉ EXCLUDED_PACKAGES)
    ∧ ∃ pkg, pkg ∈ allPackages ∧ packageName pkg = n.
Proof.
  unfold allSupportedPackages.
  rewrite list_elem_of_In, filter_In, in_map_iff, andb_true_iff, negb_true_iff.
  unfold Js.truthy, isExcluded. rewrite negb_true_iff, String.eqb_neq.
  rewrite bool_decide_eq_false. split.
  - intros ((pkg & Hname & Hin) & Hne & Hexcl). repeat split; try done.
    exists pkg. by rewrite list_elem_of_In.
  - intros (Hne & Hexcl & pkg & Hin & Hname). repeat split; try done.
    exists pkg. by rewrite <- list_elem_of_In.
Qed.

(** X8. In the mode [all] the names returned are the dependency names of
    [expo] and the names of the catalog that are neither empty nor in the
    exclusion list. *)
Theorem all_mode_selects_the_supported_catalog env options w expoPackage allPackages :
  packages options = "all" →
  packageByName env "expo" (fs w) = Some expoPackage →
  listOfPackages env (fs w) = Return allPackages →
  ∃ w' result,
    getExtraPackagesAsync env options w = (w', Return result)
    ∧ ∀ n, n ∈ result
           ↔ (∃ dep, dep ∈ getDependencies expoPackage ∧ Packages.name dep = n)
             ∨ (n ≠ "" ∧ (n ∉ EXCLUDED_PACKAGES)
                ∧ ∃ pkg, pkg ∈ allPackages ∧ packageName pkg = n).
Proof.
  intros Hmode Hexpo Hlist.
  rewrite getExtraPackagesAsync_run, Hexpo. unfold extraPackagesOf.
  rewrite Hmode. simpl String.eqb. cbv iota.
  unfold bind, getListOfPackagesAsync, observe, ret. simpl. rewrite Hlist.
  eexists _, _. split; [done|].
  intros n. rewrite elem_of_app, elem_of_allSupportedPackages, list_elem_of_fmap.
  split; (intros [(dep & H1 & H2)|H]; [left; by exists dep | by right]).
Qed.

Lemma all_mode_selects_the_supported_catalog_witness :
  ∃ w' result,
    getExtraPackagesAsync Demo.env (Demo.options (Some "demo") "all")
      (Demo.world Demo.emptyFs) = (w', Return result)
    ∧ ∀ n, n ∈ result
           ↔ (∃ dep, dep ∈ getDependencies Demo.expo ∧ Packages.name dep = n)
             ∨ (n ≠ "" ∧ (n ∉ EXCLUDED_PACKAGES)
                ∧ ∃ pkg, pkg ∈ Demo.workspace ∧ packageName pkg = n).
Proof.
  apply (all_mode_selects_the_supported_catalog Demo.env
           (Demo.options (Some "demo") "all") (Demo.world Demo.emptyFs));
    reflexivity.
Defined.

(** ** The entries of a list of names *)

Lemma length_split sep s : length (Js.split sep s) = S (countChar sep s).
Proof.
  induction s as [|c s IH]; simpl; [done|].
  destruct (Ascii.eqb c sep); simpl; [by rewrite IH|].
  pose proof (split_nonempty sep s) as Hne.
  destruct (Js.split sep s); [done|]. simpl in *. lia.
Qed.

(** X9. A list of names gives one entry more than it has commas, so at
    least one; no entry contains a comma, and none starts or ends with white
    space. *)
Theorem listed_entries_are_trimmed_and_comma_free packages :
  length (listedPackages packages) = S (countChar ","%char packages)
  ∧ Forall
      (fun entry =>
         containsChar ","%char entry = false
         ∧ (∀ c rest, entry = String c rest → Js.isWhiteSpace c = false)
         ∧ (∀ c, Js.endsWithChar entry c = true → Js.isWhiteSpace c = false))
      (listedPackages packages).
Proof.
  unfold listedPackages. split; [by rewrite length_map, length_split|].
  apply Forall_forall. intros entry Hentry.
  apply list_elem_of_fmap in Hentry as (piece & -> & Hpiece).
  pose proof (split_pieces_without_sep ","%char packages) as Hsep.
  rewrite Forall_forall in Hsep. specialize (Hsep piece Hpiece).
  unfold Js.trim. split; [|split].
  - by apply containsChar_trimEnd, containsChar_trimStart.
  - intros c rest Hhead. apply trimEnd_head in Hhead as [rest' Hhead].
    by apply trimStart_head in Hhead.
  - apply trimEnd_last.
Qed.

(** ** Packing the template *)

Lemma append_cons c a b : (String c a ++ b)%string = String c (a ++ b)%string.
Proof. reflexivity. Qed.

Lemma append_nil b : ("" ++ b)%string = b.
Proof. reflexivity. Qed.

Lemma prefix_app p s : String.prefix p s = true → ∃ rest, s = (p ++ rest)%string.
Proof.
  revert s. induction p as [|c p IH]; intros s.
  - intros _. by exists s.
  - destruct s as [|d s]; [done|].
    change (String.prefix (String c p) (String d s))
      with (if ascii_dec c d then String.prefix p s else false).
    destruct (ascii_dec c d) as [<-|]; [|done].
    intros H. apply IH in H as [rest ->]. exists rest. by rewrite append_cons.
Qed.

Lemma substring_all s : substring 0 (String.length s) s = s.
Proof. induction s as [|c s IH]; simpl; [done|]. by rewrite IH. Qed.

Lemma substring_after_prefix p rest :
  substring (String.length p) (String.length (p ++ rest) - String.length p) (p ++ rest)
  = rest.
Proof.
  induction p as [|c p IH].
  - rewrite append_nil. simpl. rewrite Nat.sub_0_r. apply substring_all.
  - rewrite append_cons. simpl. apply IH.
Qed.

Lemma substring_split s k :
  k <= String.length s →
  s = (substring 0 k s ++ substring k (String.length s - k) s)%string.
Proof.
  revert k. induction s as [|c s IH]; intros k Hk; simpl in *.
  - by destruct k.
  - destruct k as [|k]; simpl.
    + by rewrite substring_all.
    + rewrite append_cons. f_equal. apply IH. lia.
Qed.

Lemma endsWith_app s suffix :
  endsWith s suffix = true → ∃ start, s = (start ++ suffix)%string.
Proof.
  unfold endsWith. intros H. apply andb_true_iff in H as [Hlen Heq].
  apply Nat.leb_le in Hlen. apply String.eqb_eq in Heq.
  exists (substring 0 (String.length s - String.length suffix) s).
  rewrite <- Heq at 2.
  rewrite (substring_split s (String.length s - String.length suffix)) at 1 by lia.
  do 3 f_equal. lia.
Qed.

(** A name matches [prefix*suffix] only if it is the prefix, something, and
    the suffix. *)
Lemma matchesStar_shape prefix suffix fileName :
  matchesStar prefix suffix fileName = true →
  ∃ middle, fileName = (prefix ++ middle ++ suffix)%string.
Proof.
  unfold matchesStar, Js.startsWith. intros H.
  apply andb_true_iff in H as [H _]. apply andb_true_iff in H as [Hprefix Hsuffix].
  apply prefix_app in Hprefix as [rest ->].
  rewrite substring_after_prefix in Hsuffix.
  apply endsWith_app in Hsuffix as [middle ->]. by exists middle.
Qed.

Lemma globMatch_shape cwd prefix suffix dir file :
  globMatch cwd prefix suffix dir file = true →
  ∃ middle,
    Path.resolveSegments cwd file
    = Path.resolveSegments cwd dir ++ [(prefix ++ middle ++ suffix)%string].
Proof.
  unfold globMatch.
  destruct (Path.resolveSegments cwd file) as [|seg segs] eqn:Hsegs; [done|].
  intros H. apply andb_true_iff in H as [Hdir Hname].
  apply bool_decide_eq_true in Hdir.
  apply matchesStar_shape in Hname as [middle Hname].
  exists middle. rewrite <- Hdir, <- Hname.
  by apply app_removelast_last.
Qed.

(** The three steps before the archive is known, step by step. *)
Lemma packBareTemplate_run env name projectDir workDir w :
  packBareTemplate env name projectDir workDir w
  = let appJson := Path.join [projectDir; "app.json"] in
    let appId := ("dev.expo." ++ name)%string in
    let packArgs := ["pack"; "--pack-destination"; workDir] in
    let templateDir :=
      Path.join [getExpoRepositoryRootDir env; "templates";
                 "expo-template-bare-minimum"] in
    let pattern := "expo-template-bare-minimum-*.tgz" in
    match mergeAppJson env appJson appId (fs w) with
    | (fs1, Some e) =>
        ({| fs := fs1; cwd := cwd w; trace := trace w ++ [MergeJson appJson appId] |},
         Throw e)
    | (fs1, None) =>
        match spawn env "npm" packArgs (Some templateDir) fs1 with
        | (fs2, Some e) =>
            ({| fs := fs2; cwd := cwd w;
                trace := trace w ++ [MergeJson appJson appId;
                                     Spawn "npm" packArgs (Some templateDir)] |},
             Throw e)
        | (fs2, None) =>
            ({| fs := fs2; cwd := cwd w;
                trace := trace w ++ [MergeJson appJson appId;
                                     Spawn "npm" packArgs (Some templateDir);
                                     Glob pattern workDir] |},
             match List.filter (tarballPattern (cwd w) workDir) (files fs2) with
             | tarball :: _ =>
                 if Js.truthy tarball then Return tarball
                 else Throw templateArchiveNotFound
             | [] => Throw templateArchiveNotFound
             end)
        end
    end.
Proof.
  unfold packBareTemplate, bind at 1, mergeAsync, perform. cbv zeta.
  destruct (mergeAppJson env _ _ (fs w)) as [fs1 [e|]]; [done|].
  unfold bind at 1, spawnAsync, perform. simpl.
  destruct (spawn env _ _ _ fs1) as [fs2 [e|]].
  { unfold withFs, record. simpl. by rewrite <- app_assoc. }
  unfold bind, glob, tarballPattern. simpl.
  destruct (List.filter _ (files fs2)) as [|tarball others];
    unfold record, withFs, throw, ret; simpl; rewrite <- !app_assoc; simpl;
    [done|].
  by destruct (Js.truthy tarball).
Qed.

(** X10. The path that is located as the archive is not empty, lies directly
    in the working directory, and its name is [expo-template-bare-minimum-],
    something, and [.tgz].  Whether it names a regular file is not said: the
    search of the model ranges over regular files only. *)
Theorem located_archive_has_the_pattern_name
    env name projectDir workDir w w1 tarball :
  packBareTemplate env name projectDir workDir w = (w1, Return tarball) →
  tarball ≠ ""
  ∧ ∃ middle,
      Path.resolveSegments (cwd w1) tarball
      = Path.resolveSegments (cwd w1) workDir
        ++ [("expo-template-bare-minimum-" ++ middle ++ ".tgz")%string].
Proof.
  rewrite packBareTemplate_run. cbv zeta.
  destruct (mergeAppJson env _ _ (fs w)) as [fs1 [e|]]; [done|].
  destruct (spawn env _ _ _ fs1) as [fs2 [e|]]; [done|].
  destruct (List.filter _ (files fs2)) as [|first others] eqn:Hglob; [done|].
  destruct (Js.truthy first) eqn:Htruthy; [|done].
  intros [= <- <-]. simpl.
  assert (first ∈ List.filter (tarballPattern (cwd w) workDir) (files fs2)) as Hin
    by (rewrite Hglob; apply list_elem_of_here).
  apply list_elem_of_In, filter_In in Hin as [Hin Hmatch].
  split; [intros ->; by vm_compute in Htruthy|].
  by apply globMatch_shape in Hmatch.
Qed.

Lemma located_archive_has_the_pattern_name_witness :
  let w1 := packedWorld Demo.env staleFs in
  let tarball := "/work/expo-template-bare-minimum-44.0.0.tgz" in
  tarball ≠ ""
  ∧ ∃ middle,
      Path.resolveSegments (cwd w1) tarball
      = Path.resolveSegments (cwd w1) "/work"
        ++ [("expo-template-bare-minimum-" ++ middle ++ ".tgz")%string].
Proof.
  apply (located_archive_has_the_pattern_name Demo.env "demo" "/work/demo" "/work"
           (Demo.world (projectFs staleFs))).
  vm_compute. reflexivity.
Defined.

(** X11. Packing fails in three ways only.  When the identifiers cannot be
    merged into app.json, [npm pack] is not started.  When [npm pack] fails,
    the working directory is not searched.  Otherwise the error is that the
    archive was not created, and then no file of the working directory
    matches the pattern (or the first match is the empty path).  In none of
    the three was [expo prebuild] run or a file removed. *)
Theorem packing_fails_for_three_reasons env name projectDir workDir w w1 e :
  packBareTemplate env name projectDir workDir w = (w1, Throw e) →
  let appJson := Path.join [projectDir; "app.json"] in
  let appId := ("dev.expo." ++ name)%string in
  let packArgs := ["pack"; "--pack-destination"; workDir] in
  let templateDir :=
    Path.join [getExpoRepositoryRootDir env; "templates";
               "expo-template-bare-minimum"] in
  let merged := mergeAppJson env appJson appId (fs w) in
  let packed := spawn env "npm" packArgs (Some templateDir) merged.1 in
  (merged.2 = Some e ∧ fs w1 = merged.1
   ∧ trace w1 = trace w ++ [MergeJson appJson appId])
  ∨ (merged.2 = None ∧ packed.2 = Some e ∧ fs w1 = packed.1
     ∧ trace w1 = trace w ++ [MergeJson appJson appId;
                              Spawn "npm" packArgs (Some templateDir)])
  ∨ (merged.2 = None ∧ packed.2 = None ∧ fs w1 = packed.1
     ∧ e = templateArchiveNotFound
     ∧ (List.filter (tarballPattern (cwd w) workDir) (files packed.1) = []
        ∨ ∃ others,
            List.filter (tarballPattern (cwd w) workDir) (files packed.1)
            = "" :: others)
     ∧ trace w1 = trace w ++ [MergeJson appJson appId;
                              Spawn "npm" packArgs (Some templateDir);
                              Glob "expo-template-bare-minimum-*.tgz" workDir]).
Proof.
  rewrite packBareTemplate_run. cbv zeta.
  destruct (mergeAppJson env _ _ (fs w)) as [fs1 [e1|]]; simpl.
  { intros [= <- <-]. by left. }
  destruct (spawn env _ _ _ fs1) as [fs2 [e2|]]; simpl.
  { intros [= <- <-]. right. by left. }
  destruct (List.filter _ (files fs2)) as [|first others] eqn:Hglob.
  - intros H. injection H as H1 H2. subst w1 e.
    right. right. repeat split; try done. by left.
  - destruct (Js.truthy first) eqn:Htruthy; [done|].
    intros H. injection H as H1 H2. subst w1 e.
    right. right. repeat split; try done.
    right. exists others. f_equal.
    unfold Js.truthy in Htruthy. apply negb_false_iff in Htruthy.
    by apply String.eqb_eq.
Qed.

Lemma packing_fails_for_three_reasons_witness :
  let w := Demo.world (projectFs Demo.emptyFs) in
  let w1 := (packBareTemplate envWithoutArchive "demo" "/work/demo" "/work" w).1 in
  let e := templateArchiveNotFound in
  let appJson := Path.join ["/work/demo"; "app.json"] in
  let appId := ("dev.expo." ++ "demo")%string in
  let packArgs := ["pack"; "--pack-destination"; "/work"] in
  let templateDir :=
    Path.join [getExpoRepositoryRootDir envWithoutArchive; "templates";
               "expo-template-bare-minimum"] in
  let merged := mergeAppJson envWithoutArchive appJson appId (fs w) in
  let packed := spawn envWithoutArchive "npm" packArgs (Some templateDir) merged.1 in
  (merged.2 = Some e ∧ fs w1 = merged.1
   ∧ trace w1 = trace w ++ [MergeJson appJson appId])
  ∨ (merged.2 = None ∧ packed.2 = Some e ∧ fs w1 = packed.1
     ∧ trace w1 = trace w ++ [MergeJson appJson appId;
                              Spawn "npm" packArgs (Some templateDir)])
  ∨ (merged.2 = None ∧ packed.2 = None ∧ fs w1 = packed.1
     ∧ e = templateArchiveNotFound
     ∧ (List.filter (tarballPattern (cwd w) "/work") (files packed.1) = []
        ∨ ∃ others,
            List.filter (tarballPattern (cwd w) "/work") (files packed.1)
            = "" :: others)
     ∧ trace w1 = trace w ++ [MergeJson appJson appId;
                              Spawn "npm" packArgs (Some templateDir);
                              Glob "expo-template-bare-minimum-*.tgz" "/work"]).
Proof.
  apply (packing_fails_for_three_reasons envWithoutArchive "demo" "/work/demo"
           "/work" (Demo.world (projectFs Demo.emptyFs))).
  vm_compute. reflexivity.
Defined.

(** ** More on the manifest *)

(** The rewrite, step by step. *)
Lemma setupPackageJson_run env name projectDir workDir extras w :
  setupPackageJson env name projectDir workDir extras w
  = let file := manifestPath workDir name in
    match listOfPackages env (fs w) with
    | Throw e => (record GetListOfPackages w, Throw e)
    | Return allPackages =>
        let w1 := record (Require file) (record GetListOfPackages w) in
        match moduleAt (fs w) file with
        | None => (w1, Throw (ModuleNotFound file))
        | Some manifest =>
            match dependencies manifest with
            | None => (w1, Throw TypeError)
            | Some declared =>
                match forOf
                        (installPackagesOf (makePackageMap allPackages) declared extras)
                        (installPackage projectDir)
                        (declared, default ∅ (resolutions manifest))
                        (record (ConsoleLog installHeader) w1) with
                | (w3, Throw e) => (w3, Throw e)
                | (w3, Return json) =>
                    ({| fs := {| files := files (fs w3);
                                 directories := directories (fs w3);
                                 packageJsons :=
                                   <[file := {| dependencies := Some json.1;
                                                resolutions := Some json.2 |}]>
                                     (packageJsons (fs w3)) |};
                        cwd := cwd w3;
                        trace := trace w3 ++ [ConsoleLog newline; WriteJson file] |},
                     Return tt)
                end
            end
        end
    end.
Proof.
  unfold setupPackageJson, manifestPath, bind at 1, getListOfPackagesAsync, observe.
  cbv zeta.
  destruct (listOfPackages env (fs w)) as [allPackages|e]; [|done].
  unfold bind at 1, require, observe. simpl.
  destruct (moduleAt (fs w) _) as [manifest|]; [|done].
  destruct (dependencies manifest) as [declared|]; [|done].
  unfold bind at 1, consoleLog. unfold bind at 1.
  fold installHeader.
  destruct (forOf _ _ _ _) as [w3 [json|e]]; [|done].
  unfold bind, writeAsync, perform, consoleLog, withFs, record. simpl.
  by rewrite <- app_assoc.
Qed.

(** The lines of the loop. *)
Lemma forOf_installPackage_trace projectDir targets :
  ∀ json w w' completion,
    forOf targets (installPackage projectDir) json w = (w', completion) →
    ∃ lines,
      trace w' = trace w ++ lines
      ∧ (∀ ev, ev ∈ lines → ∃ line, ev = ConsoleLog line)
      ∧ ∀ json', completion = Return json' →
                 lines = flat_map installLine targets.
Proof.
  induction targets as [|v targets IH]; intros json w w' completion; simpl.
  - intros [= <- <-]. exists []. rewrite app_nil_r. repeat split; try done.
    intros ev Hev. by apply elem_of_nil in Hev.
  - unfold bind at 1. destruct v as [|pkg|key]; simpl.
    + intros [= <- <-]. exists []. rewrite app_nil_r. repeat split; try done.
      intros ev Hev. by apply elem_of_nil in Hev.
    + intros Hrest. apply IH in Hrest as (lines & Htrace & Hlines & Hreturn).
      simpl in Htrace.
      exists (ConsoleLog ("- " ++ packageName pkg) :: lines). split; [|split].
      * by rewrite Htrace, <- app_assoc.
      * intros ev Hev. apply elem_of_cons in Hev as [->|Hev]; [by eexists|].
        by apply Hlines.
      * intros json' Hjson. f_equal. by apply (Hreturn json').
    + intros [= <- <-]. exists [ConsoleLog "- undefined"]. repeat split; try done.
      intros ev Hev. apply elem_of_cons in Hev as [->|Hev]; [by eexists|].
      by apply elem_of_nil in Hev.
Qed.

(** X12. Whatever its outcome, the rewrite leaves the files, the directories
    and the working directory as they are and changes no other document than
    the manifest of the project; when it fails, it has written nothing at
    all. *)
Theorem rewrite_touches_the_manifest_only
    env name projectDir workDir extras w w' completion :
  setupPackageJson env name projectDir workDir extras w = (w', completion) →
  files (fs w') = files (fs w)
  ∧ directories (fs w') = directories (fs w)
  ∧ cwd w' = cwd w
  ∧ (∀ other, other ≠ manifestPath workDir name →
              packageJsons (fs w') !! other = packageJsons (fs w) !! other)
  ∧ (∀ e, completion = Throw e →
          fs w' = fs w
          ∧ ∃ events, trace w' = trace w ++ events
                      ∧ ∀ file, WriteJson file ∉ events).
Proof.
  rewrite setupPackageJson_run. cbv zeta.
  assert (Hread : ∀ events,
    (∀ file, WriteJson file ∉ events) →
    ∀ w1 e0,
      fs w1 = fs w → cwd w1 = cwd w → trace w1 = trace w ++ events →
      (w1, @Throw unit e0) = (w', completion) →
      files (fs w') = files (fs w)
      ∧ directories (fs w') = directories (fs w)
      ∧ cwd w' = cwd w
      ∧ (∀ other, other ≠ manifestPath workDir name →
                  packageJsons (fs w') !! other = packageJsons (fs w) !! other)
      ∧ (∀ e, completion = Throw e →
              fs w' = fs w
              ∧ ∃ events, trace w' = trace w ++ events
                          ∧ ∀ file, WriteJson file ∉ events)).
  { intros events Hevents w1 e0 Hfs Hcwd Htrace [= <- <-].
    rewrite Hfs, Hcwd. split_and!; try done.
    intros e _. split; [done|]. by exists events. }
  destruct (listOfPackages env (fs w)) as [allPackages|e0].
  2:{ apply (Hread [GetListOfPackages]); try done.
      intros file Hin. apply elem_of_cons in Hin as [Heq|Hin]; [done|].
      by apply elem_of_nil in Hin. }
  assert (Hw1 : ∀ file,
    WriteJson file ∉ [GetListOfPackages; Require (manifestPath workDir name)]).
  { intros file Hin. repeat (apply elem_of_cons in Hin as [Heq|Hin]; [done|]).
    by apply elem_of_nil in Hin. }
  destruct (moduleAt (fs w) _) as [manifest|].
  2:{ apply (Hread _ Hw1); try done. simpl. by rewrite <- app_assoc. }
  destruct (dependencies manifest) as [declared|].
  2:{ apply (Hread _ Hw1); try done. simpl. by rewrite <- app_assoc. }
  destruct (forOf _ _ _ _) as [w3 [json|e3]] eqn:Hloop;
    pose proof (forOf_installPackage_trace _ _ _ _ _ _ Hloop)
      as (lines & Htrace & Hlines & _);
    apply forOf_installPackage in Hloop as (Hfs & Hcwd & _);
    simpl in Hfs, Hcwd, Htrace.
  - intros [= <- <-]. simpl. rewrite Hfs, Hcwd. split_and!; try done.
    intros other Hother. by rewrite lookup_insert_ne.
  - apply (Hread ([GetListOfPackages; Require (manifestPath workDir name);
                    ConsoleLog installHeader] ++ lines)); try done.
    + intros file Hin. apply elem_of_app in Hin as [Hin|Hin].
      * repeat (apply elem_of_cons in Hin as [Heq|Hin]; [done|]).
        by apply elem_of_nil in Hin.
      * apply Hlines in Hin as [line Hin]. done.
    + rewrite Htrace, <- !app_assoc. done.
Qed.

Lemma rewrite_touches_the_manifest_only_witness :
  let w := Demo.world (projectFs Demo.emptyFs) in
  let w' := (setupPackageJson Demo.env "demo" "/work/demo" "/work" ["constructor"] w).1 in
  files (fs w') = files (fs w)
  ∧ directories (fs w') = directories (fs w)
  ∧ cwd w' = cwd w
  ∧ (∀ other, other ≠ manifestPath "/work" "demo" →
              packageJsons (fs w') !! other = packageJsons (fs w) !! other)
  ∧ (∀ e, @Throw unit TypeError = Throw e →
          fs w' = fs w
          ∧ ∃ events, trace w' = trace w ++ events
                      ∧ ∀ file, WriteJson file ∉ events).
Proof.
  apply (rewrite_touches_the_manifest_only Demo.env "demo" "/work/demo" "/work"
           ["constructor"] (Demo.world (projectFs Demo.emptyFs))).
  vm_compute. reflexivity.
Defined.

(** The rewritten maps, name by name. *)
Lemma rewritten_lookup cwd projectDir allPackages declared overrides extras n :
  let json :=
    fold_left (installed cwd projectDir)
      (installPackagesOf (makePackageMap allPackages) declared extras)
      (declared, overrides) in
  let located (old : option string) : option string :=
    match makePackageMap allPackages !! n with
    | Some pkg =>
        if bool_decide (is_Some (declared !! n) ∨ n ∈ extras)
        then Some (Path.relative cwd projectDir (path pkg))
        else old
    | None => old
    end in
  json.1 !! n = located (declared !! n) ∧ json.2 !! n = located (overrides !! n).
Proof.
  cbv zeta.
  set (targets := installPackagesOf (makePackageMap allPackages) declared extras).
  assert (Htargets : ∀ q, PackageObject q ∈ targets →
            (is_Some (declared !! packageName q) ∨ packageName q ∈ extras)
            ∧ makePackageMap allPackages !! packageName q = Some q).
  { intros q Hq. apply elem_of_installPackagesOf in Hq as (n' & Hn & Hq & _).
    apply getProperty_package in Hq.
    destruct (makePackageMap_Some _ _ _ Hq) as [_ <-]. done. }
  destruct (makePackageMap allPackages !! n) as [pkg|] eqn:Hpkg.
  - destruct (makePackageMap_Some _ _ _ Hpkg) as [_ Hname].
    case_bool_decide as Hn.
    + subst n. apply (installed_hit cwd projectDir targets pkg (declared, overrides)).
      * apply elem_of_installPackagesOf. exists (packageName pkg).
        split; [done|]. split; [by apply getProperty_package | done].
      * intros q Hq Heq. apply Htargets in Hq as [_ Hq].
        rewrite Heq in Hq. congruence.
    + apply (installed_miss cwd projectDir targets n (declared, overrides)).
      intros q Hq <-. by apply Htargets in Hq as [Hq _].
  - apply (installed_miss cwd projectDir targets n (declared, overrides)).
    intros q Hq <-. apply Htargets in Hq as [_ Hq]. congruence.
Qed.

(** The loop completes exactly over names that are not, outside the catalog,
    keys of [Object.prototype]. *)
Lemma installPackagesOf_all_packages allPackages declared extras :
  Forall isPackageObject (installPackagesOf (makePackageMap allPackages) declared extras)
  ↔ ∀ n, is_Some (declared !! n) ∨ n ∈ extras →
         n ∈ objectPrototypeKeys → n ∈ List.map packageName allPackages.
Proof.
  rewrite Forall_forall. split.
  - intros Hall n Hn Hproto.
    destruct (makePackageMap allPackages !! n) as [pkg|] eqn:Hpkg.
    + apply makePackageMap_Some in Hpkg as [Hin <-].
      apply list_elem_of_fmap. by exists pkg.
    + destruct (Hall (PrototypeMember n)) as [pkg Hpkg']; [|done].
      apply elem_of_installPackagesOf. exists n. split; [done|].
      unfold getProperty. rewrite Hpkg. by rewrite bool_decide_eq_true_2.
  - intros Hkeys v Hv.
    apply elem_of_installPackagesOf in Hv as (n & Hn & <- & Htruthy).
    unfold getProperty in *.
    destruct (makePackageMap allPackages !! n) as [pkg|] eqn:Hpkg; [by exists pkg|].
    case_bool_decide as Hproto; [|done].
    destruct (makePackageMap_is_Some allPackages n (Hkeys n Hn Hproto))
      as [pkg Hsome].
    congruence.
Qed.

(** The outcome of the rewrite in terms of what it reads. *)
Lemma setupPackageJson_outcome env name projectDir workDir extras w :
  ∃ w',
    setupPackageJson env name projectDir workDir extras w
    = (w',
       match listOfPackages env (fs w) with
       | Throw e => Throw e
       | Return allPackages =>
           match moduleAt (fs w) (manifestPath workDir name) with
           | None => Throw (ModuleNotFound (manifestPath workDir name))
           | Some manifest =>
               match dependencies manifest with
               | None => Throw TypeError
               | Some declared =>
                   if bool_decide
                        (Forall isPackageObject
                           (installPackagesOf (makePackageMap allPackages)
                              declared extras))
                   then Return tt
                   else Throw TypeError
               end
           end
       end).
Proof.
  rewrite setupPackageJson_run. cbv zeta.
  destruct (listOfPackages env (fs w)) as [allPackages|e0]; [|by eexists].
  destruct (moduleAt (fs w) _) as [manifest|]; [|by eexists].
  destruct (dependencies manifest) as [declared|]; [|by eexists].
  destruct (forOf _ _ _ _) as [w3 [json|e3]] eqn:Hloop;
    apply forOf_installPackage in Hloop as (_ & _ & Hcompletion).
  - destruct Hcompletion as [Hall _]. rewrite bool_decide_eq_true_2 by done.
    by eexists.
  - destruct Hcompletion as [-> Hnot]. rewrite bool_decide_eq_false_2 by done.
    by eexists.
Qed.

(** X13. The rewrite completes exactly when the catalog can be listed, the
    path of the manifest is absolute, the manifest exists and has
    [dependencies], and no name of the manifest or of the selection is a key
    of [Object.prototype] without being the name of a catalog package.  In
    particular selected names that are not in the catalog do not make it
    fail, and a relative working directory does. *)
Theorem rewrite_completes_iff env name projectDir workDir extras w :
  (∃ w', setupPackageJson env name projectDir workDir extras w = (w', Return tt))
  ↔ ∃ allPackages manifest declared,
      listOfPackages env (fs w) = Return allPackages
      ∧ Path.isAbsolute (manifestPath workDir name) = true
      ∧ packageJsons (fs w) !! manifestPath workDir name = Some manifest
      ∧ dependencies manifest = Some declared
      ∧ ∀ n, is_Some (declared !! n) ∨ n ∈ extras →
             n ∈ objectPrototypeKeys → n ∈ List.map packageName allPackages.
Proof.
  destruct (setupPackageJson_outcome env name projectDir workDir extras w)
    as [w0 Hrun]. rewrite Hrun. split.
  - intros [w' Heq].
    destruct (listOfPackages env (fs w)) as [allPackages|]; [|done].
    destruct (moduleAt (fs w) _) as [manifest|] eqn:Hmodule; [|done].
    apply moduleAt_Some in Hmodule as [Habsolute Hmanifest].
    destruct (dependencies manifest) as [declared|] eqn:Hdeclared; [|done].
    case_bool_decide as Hall; [|done].
    exists allPackages, manifest, declared. split_and!; try done.
    by apply installPackagesOf_all_packages.
  - intros (allPackages & manifest & declared & -> & Habsolute & Hmanifest
            & Hdeclared & Hkeys).
    rewrite (proj2 (moduleAt_Some _ _ _) (conj Habsolute Hmanifest)), Hdeclared.
    apply installPackagesOf_all_packages in Hkeys.
    rewrite bool_decide_eq_true_2 by done. by exists w0.
Qed.

(** X14. The failures of the rewrite, cause by cause.  It fails with the
    error of the catalog exactly when the catalog cannot be listed; otherwise
    with a module-not-found error exactly when the path of the manifest is
    not absolute or the manifest does not exist; otherwise with a type error
    exactly when the manifest has no [dependencies] or a name of the manifest
    or of the selection is a key of [Object.prototype] that names no catalog
    package.  It fails in no other way. *)
Theorem rewrite_fails_for_four_reasons env name projectDir workDir extras w e :
  (∃ w', setupPackageJson env name projectDir workDir extras w = (w', Throw e))
  ↔ listOfPackages env (fs w) = Throw e
    ∨ ∃ allPackages,
        listOfPackages env (fs w) = Return allPackages
        ∧ ((Path.isAbsolute (manifestPath workDir name) = false
            ∨ packageJsons (fs w) !! manifestPath workDir name = None)
           ∧ e = ModuleNotFound (manifestPath workDir name)
           ∨ ∃ manifest,
               Path.isAbsolute (manifestPath workDir name) = true
               ∧ packageJsons (fs w) !! manifestPath workDir name = Some manifest
               ∧ e = TypeError
               ∧ (dependencies manifest = None
                  ∨ ∃ declared n,
                      dependencies manifest = Some declared
                      ∧ (is_Some (declared !! n) ∨ n ∈ extras)
                      ∧ n ∈ objectPrototypeKeys
                      ∧ n ∉ List.map packageName allPackages)).
Proof.
  destruct (setupPackageJson_outcome env name projectDir workDir extras w)
    as [w0 Hrun]. rewrite Hrun. clear Hrun.
  destruct (listOfPackages env (fs w)) as [allPackages|e0].
  2:{ split.
      - intros [w' [= _ <-]]. by left.
      - intros [[= <-]|(? & ? & _)]; [by exists w0 | done]. }
  assert (Hmodule : ∀ manifest,
    moduleAt (fs w) (manifestPath workDir name) = Some manifest
    ↔ Path.isAbsolute (manifestPath workDir name) = true
      ∧ packageJsons (fs w) !! manifestPath workDir name = Some manifest)
    by (intros manifest; apply moduleAt_Some).
  destruct (moduleAt (fs w) _) as [manifest|] eqn:Hread.
  - destruct (proj1 (Hmodule manifest) eq_refl) as [Habsolute Hmanifest].
    assert (Hkeys : ∀ declared,
      ¬ Forall isPackageObject
          (installPackagesOf (makePackageMap allPackages) declared extras)
      ↔ ∃ n, (is_Some (declared !! n) ∨ n ∈ extras)
             ∧ n ∈ objectPrototypeKeys
             ∧ n ∉ List.map packageName allPackages).
    { intros declared. rewrite installPackagesOf_all_packages. split.
      - intros Hall.
        assert (Hex : Exists
                  (not ∘ (fun n => n ∈ objectPrototypeKeys
                                   → n ∈ List.map packageName allPackages))
                  (objectKeys declared ++ extras)).
        { apply not_Forall_Exists; [apply _|]. intros Hforall. apply Hall.
          intros n Hn. rewrite Forall_forall in Hforall. apply Hforall.
          apply elem_of_app. by rewrite objectKeys_spec. }
        apply Exists_exists in Hex as (n & Hn & Hnot). simpl in Hnot.
        apply elem_of_app in Hn. rewrite objectKeys_spec in Hn.
        destruct (decide (n ∈ objectPrototypeKeys)) as [Hproto|]; [|tauto].
        destruct (decide (n ∈ List.map packageName allPackages)) as [|Hout];
          [tauto|].
        by exists n.
      - intros (n & Hn & Hproto & Hout) Hall. apply Hout. by apply Hall. }
    split.
    + intros [w' [= _ Hcompletion]]. right. exists allPackages. split; [done|].
      right. exists manifest. split; [done|]. split; [done|].
      destruct (dependencies manifest) as [declared|] eqn:Hdeclared;
        [|injection Hcompletion as <-; split; [done | by left]].
      case_bool_decide as Hall; [done|]. injection Hcompletion as <-.
      split; [done|]. right. apply Hkeys in Hall as (n & Hn).
      by exists declared, n.
    + intros [?|(allPackages' & [= <-] & Hcause)]; [done|].
      destruct Hcause as [[[Hrel|Hnone] _]|(manifest' & _ & Hmanifest' & -> & Hcause)];
        [congruence..|].
      assert (manifest' = manifest) as -> by congruence.
      destruct Hcause as [->|(declared & n & -> & Hn)]; [by exists w0|].
      rewrite bool_decide_eq_false_2; [by exists w0|].
      apply Hkeys. by exists n.
  - assert (Path.isAbsolute (manifestPath workDir name) = false
            ∨ packageJsons (fs w) !! manifestPath workDir name = None) as Hnone.
    { unfold moduleAt in Hread.
      destruct (Path.isAbsolute (manifestPath workDir name)); [by right | by left]. }
    split.
    + intros [w' [= _ <-]]. right. exists allPackages. split; [done|]. by left.
    + intros [?|(allPackages' & _ & Hcause)]; [done|].
      destruct Hcause as [[_ ->]|(manifest & Habsolute & Hmanifest & _)];
        [by exists w0|].
      destruct Hnone; congruence.
Qed.

Lemma rewrite_fails_for_four_reasons_witness :
  (∃ w', setupPackageJson Demo.env "demo" "work/demo" "work" ["expo-camera"]
           (Demo.world (projectFs Demo.emptyFs))
         = (w', Throw (ModuleNotFound (manifestPath "work" "demo"))))
  ∧ (∃ w', setupPackageJson Demo.env "demo" "/work/demo" "/work" ["constructor"]
             (Demo.world (projectFs Demo.emptyFs))
           = (w', Throw TypeError)).
Proof.
  split.
  - apply (rewrite_fails_for_four_reasons Demo.env "demo" "work/demo" "work"
             ["expo-camera"] (Demo.world (projectFs Demo.emptyFs))).
    right. exists Demo.workspace. split; [reflexivity|].
    left. split; [left; reflexivity | reflexivity].
  - apply (rewrite_fails_for_four_reasons Demo.env "demo" "/work/demo" "/work"
             ["constructor"] (Demo.world (projectFs Demo.emptyFs))).
    right. exists Demo.workspace. split; [reflexivity|].
    right. exists Demo.templateManifest. split; [reflexivity|].
    split; [vm_compute; reflexivity|]. split; [reflexivity|].
    right. eexists _, "constructor". split; [reflexivity|].
    split; [right; apply list_elem_of_here|].
    split; [apply list_elem_of_here|].
    apply (bool_decide_unpack
             ("constructor" ∉ List.map packageName Demo.workspace)).
    vm_compute. exact I.
Defined.

(** The file system after a completed rewrite. *)
Lemma setupPackageJson_returns_fs env name projectDir workDir extras w w' :
  setupPackageJson env name projectDir workDir extras w = (w', Return tt) →
  ∃ allPackages manifest declared,
    listOfPackages env (fs w) = Return allPackages
    ∧ Path.isAbsolute (manifestPath workDir name) = true
    ∧ packageJsons (fs w) !! manifestPath workDir name = Some manifest
    ∧ dependencies manifest = Some declared
    ∧ Forall isPackageObject
        (installPackagesOf (makePackageMap allPackages) declared extras)
    ∧ cwd w' = cwd w
    ∧ fs w'
      = {| files := files (fs w);
           directories := directories (fs w);
           packageJsons :=
             <[manifestPath workDir name :=
                 let json :=
                   fold_left (installed (cwd w) projectDir)
                     (installPackagesOf (makePackageMap allPackages) declared extras)
                     (declared, default ∅ (resolutions manifest)) in
                 {| dependencies := Some json.1; resolutions := Some json.2 |}]>
               (packageJsons (fs w)) |}.
Proof.
  rewrite setupPackageJson_run. cbv zeta.
  destruct (listOfPackages env (fs w)) as [allPackages|e0]; [|done].
  destruct (moduleAt (fs w) _) as [manifest|] eqn:Hmodule; [|done].
  apply moduleAt_Some in Hmodule as [Habsolute Hmanifest].
  destruct (dependencies manifest) as [declared|] eqn:Hdeclared; [|done].
  destruct (forOf _ _ _ _) as [w3 [json|e3]] eqn:Hloop; [|done].
  apply forOf_installPackage in Hloop as (Hfs & Hcwd & Hall & ->).
  simpl in Hfs, Hcwd. intros [= <-]. simpl.
  exists allPackages, manifest, declared. rewrite Hfs, Hcwd. by split_and!.
Qed.

(** X15. The selection counts as a set: two selections with the same names,
    in any order and with any repetitions, give manifests with the same entry
    for every name, in [dependencies] and in [resolutions], and leave all
    other manifests, the files, the directories and the working directory
    alike.  The order of the keys in the written file is not part of the
    model and nothing is said about it. *)
Theorem rewrite_depends_on_the_set_of_selected_names
    env name projectDir workDir extras extras' w w1 :
  (∀ n, n ∈ extras ↔ n ∈ extras') →
  setupPackageJson env name projectDir workDir extras w = (w1, Return tt) →
  ∃ w2,
    setupPackageJson env name projectDir workDir extras' w = (w2, Return tt)
    ∧ (∀ n, dependencyAt (fs w2) (manifestPath workDir name) n
            = dependencyAt (fs w1) (manifestPath workDir name) n
            ∧ resolutionAt (fs w2) (manifestPath workDir name) n
              = resolutionAt (fs w1) (manifestPath workDir name) n)
    ∧ (∀ file, file ≠ manifestPath workDir name →
               packageJsons (fs w2) !! file = packageJsons (fs w1) !! file)
    ∧ files (fs w2) = files (fs w1)
    ∧ directories (fs w2) = directories (fs w1)
    ∧ cwd w2 = cwd w1.
Proof.
  intros Hsame Hrun.
  apply setupPackageJson_returns_fs in Hrun
    as (allPackages & manifest & declared & Hlist & Habsolute & Hmanifest
        & Hdeclared & Hall & Hcwd & Hfs).
  destruct (setupPackageJson_outcome env name projectDir workDir extras' w)
    as [w2 Hrun2].
  rewrite Hlist, (proj2 (moduleAt_Some _ _ _) (conj Habsolute Hmanifest)),
    Hdeclared in Hrun2.
  rewrite bool_decide_eq_true_2 in Hrun2.
  2:{ apply installPackagesOf_all_packages.
      pose proof (proj1 (installPackagesOf_all_packages _ _ _) Hall) as Hkeys.
      intros n Hn. apply Hkeys. by rewrite Hsame. }
  exists w2. split; [done|].
  apply setupPackageJson_returns_fs in Hrun2
    as (allPackages' & manifest' & declared' & Hlist' & _ & Hmanifest'
        & Hdeclared' & _ & Hcwd' & Hfs').
  assert (allPackages' = allPackages) as -> by congruence.
  assert (manifest' = manifest) as -> by congruence.
  assert (declared' = declared) as -> by congruence.
  rewrite Hfs, Hfs'. cbv zeta. simpl. split_and!; [|by intros file Hfile;
    rewrite !lookup_insert_ne by done|done|done|congruence].
  intros n. unfold dependencyAt, resolutionAt. simpl.
  rewrite !lookup_insert_eq. simpl.
  destruct (rewritten_lookup (cwd w) projectDir allPackages declared
              (default ∅ (resolutions manifest)) extras n) as [-> ->].
  destruct (rewritten_lookup (cwd w) projectDir allPackages declared
              (default ∅ (resolutions manifest)) extras' n) as [-> ->].
  destruct (makePackageMap allPackages !! n); [|done].
  erewrite bool_decide_ext; [done|]. by rewrite Hsame.
Qed.

Lemma rewrite_depends_on_the_set_of_selected_names_witness :
  let w := Demo.world (projectFs Demo.emptyFs) in
  let w1 := (setupPackageJson Demo.env "demo" "/work/demo" "/work"
               ["expo-camera"; "expo-router"] w).1 in
  ∃ w2,
    setupPackageJson Demo.env "demo" "/work/demo" "/work"
      ["expo-router"; "expo-camera"; "expo-router"] w = (w2, Return tt)
    ∧ (∀ n, dependencyAt (fs w2) (manifestPath "/work" "demo") n
            = dependencyAt (fs w1) (manifestPath "/work" "demo") n
            ∧ resolutionAt (fs w2) (manifestPath "/work" "demo") n
              = resolutionAt (fs w1) (manifestPath "/work" "demo") n)
    ∧ (∀ file, file ≠ manifestPath "/work" "demo" →
               packageJsons (fs w2) !! file = packageJsons (fs w1) !! file)
    ∧ files (fs w2) = files (fs w1)
    ∧ directories (fs w2) = directories (fs w1)
    ∧ cwd w2 = cwd w1.
Proof.
  apply (rewrite_depends_on_the_set_of_selected_names Demo.env "demo" "/work/demo"
           "/work" ["expo-camera"; "expo-router"]
           ["expo-router"; "expo-camera"; "expo-router"]).
  - intros n. rewrite !elem_of_cons, elem_of_nil. tauto.
  - vm_compute. reflexivity.
Defined.

(** X16. The rewrite is idempotent: when the catalog is the same after the
    rewrite as before, a second rewrite with the same selection completes and
    leaves the file system as the first one left it. *)
Theorem rewrite_is_idempotent env name projectDir workDir extras w w1 :
  setupPackageJson env name projectDir workDir extras w = (w1, Return tt) →
  listOfPackages env (fs w1) = listOfPackages env (fs w) →
  ∃ w2,
    setupPackageJson env name projectDir workDir extras w1 = (w2, Return tt)
    ∧ fs w2 = fs w1.
Proof.
  intros Hrun Hcatalog.
  apply setupPackageJson_returns_fs in Hrun
    as (allPackages & manifest & declared & Hlist & Habsolute & Hmanifest
        & Hdeclared & Hall & Hcwd & Hfs).
  set (json := fold_left (installed (cwd w) projectDir)
                 (installPackagesOf (makePackageMap allPackages) declared extras)
                 (declared, default ∅ (resolutions manifest))) in *.
  cbv zeta in Hfs.
  pose proof (proj1 (installPackagesOf_all_packages _ _ _) Hall) as Hkeys.
  assert (Hfirst : ∀ n,
    json.1 !! n
    = match makePackageMap allPackages !! n with
      | Some pkg =>
          if bool_decide (is_Some (declared !! n) ∨ n ∈ extras)
          then Some (Path.relative (cwd w) projectDir (path pkg))
          else declared !! n
      | None => declared !! n
      end
    ∧ json.2 !! n
      = match makePackageMap allPackages !! n with
        | Some pkg =>
            if bool_decide (is_Some (declared !! n) ∨ n ∈ extras)
            then Some (Path.relative (cwd w) projectDir (path pkg))
            else default ∅ (resolutions manifest) !! n
        | None => default ∅ (resolutions manifest) !! n
        end).
  { intros n. apply rewritten_lookup. }
  assert (Hcandidate : ∀ n pkg,
    makePackageMap allPackages !! n = Some pkg →
    (is_Some (json.1 !! n) ∨ n ∈ extras) → is_Some (declared !! n) ∨ n ∈ extras).
  { intros n pkg Hpkg [Hsome|Hin]; [|by right].
    destruct (Hfirst n) as [H1 _]. rewrite Hpkg in H1.
    case_bool_decide as Hn; [done|]. rewrite H1 in Hsome. by left. }
  assert (Hmanifest1 :
    packageJsons (fs w1) !! manifestPath workDir name
    = Some {| dependencies := Some json.1; resolutions := Some json.2 |}).
  { rewrite Hfs. simpl. by rewrite lookup_insert_eq. }
  destruct (setupPackageJson_outcome env name projectDir workDir extras w1)
    as [w2 Hrun2].
  assert (Hmodule1 :
    moduleAt (fs w1) (manifestPath workDir name)
    = Some {| dependencies := Some json.1; resolutions := Some json.2 |})
    by (by apply moduleAt_Some).
  rewrite Hcatalog, Hlist, Hmodule1 in Hrun2. simpl in Hrun2.
  rewrite bool_decide_eq_true_2 in Hrun2.
  2:{ apply installPackagesOf_all_packages. intros n Hn Hproto.
      destruct (makePackageMap allPackages !! n) as [pkg|] eqn:Hpkg.
      - apply makePackageMap_Some in Hpkg as [Hin <-].
        apply list_elem_of_fmap. by exists pkg.
      - apply Hkeys; [|done]. destruct Hn as [Hsome|Hin]; [|by right].
        destruct (Hfirst n) as [H1 _]. rewrite Hpkg in H1.
        rewrite H1 in Hsome. by left. }
  exists w2. split; [done|].
  apply setupPackageJson_returns_fs in Hrun2
    as (allPackages' & manifest' & declared' & Hlist' & _ & Hmanifest'
        & Hdeclared' & _ & Hcwd' & Hfs').
  assert (allPackages' = allPackages) as -> by congruence.
  assert (manifest' = {| dependencies := Some json.1; resolutions := Some json.2 |})
    as -> by congruence.
  simpl in Hdeclared'. injection Hdeclared' as <-.
  rewrite Hfs'. cbv zeta. simpl default. rewrite Hcwd.
  assert (∀ (d r : gmap string string),
    d = json.1 → r = json.2 →
    {| files := files (fs w1); directories := directories (fs w1);
       packageJsons :=
         <[manifestPath workDir name :=
             {| dependencies := Some d; resolutions := Some r |}]>
           (packageJsons (fs w1)) |} = fs w1) as Hid.
  { intros d r -> ->. rewrite insert_id by done. by destruct (fs w1). }
  apply Hid; apply map_eq; intros n.
  - destruct (rewritten_lookup (cwd w) projectDir allPackages json.1 json.2
                extras n) as [-> _].
    destruct (makePackageMap allPackages !! n) as [pkg|] eqn:Hpkg; [|done].
    case_bool_decide as Hn; [|done].
    apply (Hcandidate n pkg Hpkg) in Hn.
    destruct (Hfirst n) as [-> _]. rewrite Hpkg.
    by rewrite bool_decide_eq_true_2.
  - destruct (rewritten_lookup (cwd w) projectDir allPackages json.1 json.2
                extras n) as [_ ->].
    destruct (makePackageMap allPackages !! n) as [pkg|] eqn:Hpkg; [|done].
    case_bool_decide as Hn; [|done].
    apply (Hcandidate n pkg Hpkg) in Hn.
    destruct (Hfirst n) as [_ ->]. rewrite Hpkg.
    by rewrite bool_decide_eq_true_2.
Qed.

Lemma rewrite_is_idempotent_witness :
  let w := Demo.world (projectFs Demo.emptyFs) in
  let w1 := (setupPackageJson Demo.env "demo" "/work/demo" "/work"
               ["expo-camera"; "left-pad"] w).1 in
  ∃ w2,
    setupPackageJson Demo.env "demo" "/work/demo" "/work"
      ["expo-camera"; "left-pad"] w1 = (w2, Return tt)
    ∧ fs w2 = fs w1.
Proof.
  apply (rewrite_is_idempotent Demo.env "demo" "/work/demo" "/work"
           ["expo-camera"; "left-pad"] (Demo.world (projectFs Demo.emptyFs))).
  - vm_compute. reflexivity.
  - reflexivity.
Defined.

Lemma NoDup_newSet values : NoDup (newSet values).
Proof.
  unfold newSet.
  enough (H : ∀ set, NoDup set →
    NoDup (fold_left
             (fun set v => if bool_decide (v ∈ set) then set else set ++ [v])
             values set)) by (apply H; constructor).
  induction values as [|v values IH]; intros set Hset; simpl; [done|].
  apply IH. case_bool_decide as Hv; [done|].
  apply NoDup_app. split_and!; [done| |apply NoDup_singleton].
  intros x Hx Hin. apply list_elem_of_singleton in Hin. by subst.
Qed.

Lemma package_objects (targets : list Value) :
  Forall isPackageObject targets → ∃ pkgs, targets = List.map PackageObject pkgs.
Proof.
  induction 1 as [|v targets [pkg ->] _ [pkgs ->]].
  - by exists [].
  - by exists (pkg :: pkgs).
Qed.

Lemma installLine_packages pkgs :
  flat_map installLine (List.map PackageObject pkgs)
  = List.map (fun pkg => ConsoleLog ("- " ++ packageName pkg)) pkgs.
Proof. induction pkgs as [|pkg pkgs IH]; simpl; [done|]. by rewrite IH. Qed.

(** X17. A completed rewrite prints one line for every package it installs,
    and installs a package once even when its name is both in the manifest
    and in the selection, or several times in the selection: between the
    heading and the write of the manifest the trace holds one line per
    package, and no two of these packages have the same name. *)
Theorem rewrite_prints_each_package_once env name projectDir workDir extras w w' :
  setupPackageJson env name projectDir workDir extras w = (w', Return tt) →
  ∃ allPackages manifest declared pkgs,
    listOfPackages env (fs w) = Return allPackages
    ∧ packageJsons (fs w) !! manifestPath workDir name = Some manifest
    ∧ dependencies manifest = Some declared
    ∧ NoDup (List.map packageName pkgs)
    ∧ (∀ pkg, pkg ∈ pkgs
              ↔ makePackageMap allPackages !! packageName pkg = Some pkg
                ∧ (is_Some (declared !! packageName pkg)
                   ∨ packageName pkg ∈ extras))
    ∧ trace w'
      = trace w
        ++ [GetListOfPackages; Require (manifestPath workDir name);
            ConsoleLog installHeader]
        ++ List.map (fun pkg => ConsoleLog ("- " ++ packageName pkg)) pkgs
        ++ [ConsoleLog newline; WriteJson (manifestPath workDir name)].
Proof.
  rewrite setupPackageJson_run. cbv zeta.
  destruct (listOfPackages env (fs w)) as [allPackages|e0]; [|done].
  destruct (moduleAt (fs w) _) as [manifest|] eqn:Hmodule; [|done].
  apply moduleAt_Some in Hmodule as [_ Hmanifest].
  destruct (dependencies manifest) as [declared|] eqn:Hdeclared; [|done].
  destruct (forOf _ _ _ _) as [w3 [json|e3]] eqn:Hloop; [|done].
  pose proof (forOf_installPackage_trace _ _ _ _ _ _ Hloop)
    as (lines & Htrace & _ & Hlines).
  specialize (Hlines json eq_refl). subst lines.
  apply forOf_installPackage in Hloop as (_ & _ & Hall & _).
  intros [= <-]. simpl.
  destruct (package_objects _ Hall) as [pkgs Hpkgs].
  assert (Hmem : ∀ pkg, pkg ∈ pkgs
            ↔ makePackageMap allPackages !! packageName pkg = Some pkg
              ∧ (is_Some (declared !! packageName pkg) ∨ packageName pkg ∈ extras)).
  { intros pkg.
    assert (pkg ∈ pkgs
            ↔ PackageObject pkg
              ∈ installPackagesOf (makePackageMap allPackages) declared extras)
      as ->.
    { rewrite Hpkgs. split.
      - intros Hin. apply list_elem_of_fmap. by exists pkg.
      - intros Hin. by apply list_elem_of_fmap in Hin as (q & [= ->] & Hq). }
    rewrite elem_of_installPackagesOf. split.
    - intros (n & Hn & Hget & _). apply getProperty_package in Hget.
      destruct (makePackageMap_Some _ _ _ Hget) as [_ <-]. done.
    - intros [Hget Hn]. exists (packageName pkg).
      split; [done|]. split; [by apply getProperty_package | done]. }
  exists allPackages, manifest, declared, pkgs. split_and!; try done.
  - apply NoDup_fmap_2_strong.
    + intros p q Hp Hq Hname. apply Hmem in Hp as [Hp _]. apply Hmem in Hq as [Hq _].
      rewrite Hname in Hp. congruence.
    + apply (NoDup_fmap_1 PackageObject).
      change (NoDup (List.map PackageObject pkgs)).
      rewrite <- Hpkgs. apply NoDup_newSet.
  - rewrite Htrace, Hpkgs, installLine_packages. simpl.
    by rewrite <- !app_assoc.
Qed.

Lemma rewrite_prints_each_package_once_witness :
  let w := Demo.world (projectFs Demo.emptyFs) in
  let w' := (setupPackageJson Demo.env "demo" "/work/demo" "/work"
               ["expo"; "expo-camera"; "expo-camera"] w).1 in
  ∃ allPackages manifest declared pkgs,
    listOfPackages Demo.env (fs w) = Return allPackages
    ∧ packageJsons (fs w) !! manifestPath "/work" "demo" = Some manifest
    ∧ dependencies manifest = Some declared
    ∧ NoDup (List.map packageName pkgs)
    ∧ (∀ pkg, pkg ∈ pkgs
              ↔ makePackageMap allPackages !! packageName pkg = Some pkg
                ∧ (is_Some (declared !! packageName pkg)
                   ∨ packageName pkg ∈ ["expo"; "expo-camera"; "expo-camera"]))
    ∧ trace w'
      = trace w
        ++ [GetListOfPackages; Require (manifestPath "/work" "demo");
            ConsoleLog installHeader]
        ++ List.map (fun pkg => ConsoleLog ("- " ++ packageName pkg)) pkgs
        ++ [ConsoleLog newline; WriteJson (manifestPath "/work" "demo")].
Proof.
  apply (rewrite_prints_each_package_once Demo.env "demo" "/work/demo" "/work"
           ["expo"; "expo-camera"; "expo-camera"]
           (Demo.world (projectFs Demo.emptyFs))).
  vm_compute. reflexivity.
Defined.

(** X18. Every entry the rewrite changes or adds holds a relative path:
    after a completed rewrite, a value of [dependencies] or of [resolutions]
    that is not the one the manifest had under that name is not an absolute
    path. *)
Theorem rewritten_entries_are_relative env name projectDir workDir extras w w' :
  setupPackageJson env name projectDir workDir extras w = (w', Return tt) →
  ∃ manifest declared declared' overrides',
    packageJsons (fs w) !! manifestPath workDir name = Some manifest
    ∧ dependencies manifest = Some declared
    ∧ packageJsons (fs w') !! manifestPath workDir name
      = Some {| dependencies := Some declared'; resolutions := Some overrides' |}
    ∧ (∀ n v, declared' !! n = Some v → declared !! n ≠ Some v →
              Path.isAbsolute v = false)
    ∧ (∀ n v, overrides' !! n = Some v →
              default ∅ (resolutions manifest) !! n ≠ Some v →
              Path.isAbsolute v = false).
Proof.
  intros Hrun.
  apply setupPackageJson_returns_fs in Hrun
    as (allPackages & manifest & declared & Hlist & Habsolute & Hmanifest
        & Hdeclared & Hall & Hcwd & Hfs).
  cbv zeta in Hfs.
  set (json := fold_left (installed (cwd w) projectDir)
                 (installPackagesOf (makePackageMap allPackages) declared extras)
                 (declared, default ∅ (resolutions manifest))) in *.
  exists manifest, declared, json.1, json.2. subst json.
  split; [done|]. split; [done|]. split_and!.
  - rewrite Hfs. simpl. by rewrite lookup_insert_eq.
  - intros n v.
    destruct (rewritten_lookup (cwd w) projectDir allPackages declared
                (default ∅ (resolutions manifest)) extras n) as [-> _].
    destruct (makePackageMap allPackages !! n) as [pkg|]; [|done].
    case_bool_decide; [|done]. intros [= <-] _. apply relative_not_absolute.
  - intros n v.
    destruct (rewritten_lookup (cwd w) projectDir allPackages declared
                (default ∅ (resolutions manifest)) extras n) as [_ ->].
    destruct (makePackageMap allPackages !! n) as [pkg|]; [|done].
    case_bool_decide; [|done]. intros [= <-] _. apply relative_not_absolute.
Qed.

Lemma rewritten_entries_are_relative_witness :
  let w := Demo.world (projectFs Demo.emptyFs) in
  let w' := (setupPackageJson Demo.env "demo" "/work/demo" "/work"
               ["expo-camera"] w).1 in
  ∃ manifest declared declared' overrides',
    packageJsons (fs w) !! manifestPath "/work" "demo" = Some manifest
    ∧ dependencies manifest = Some declared
    ∧ packageJsons (fs w') !! manifestPath "/work" "demo"
      = Some {| dependencies := Some declared'; resolutions := Some overrides' |}
    ∧ (∀ n v, declared' !! n = Some v → declared !! n ≠ Some v →
              Path.isAbsolute v = false)
    ∧ (∀ n v, overrides' !! n = Some v →
              default ∅ (resolutions manifest) !! n ≠ Some v →
              Path.isAbsolute v = false).
Proof.
  apply (rewritten_entries_are_relative Demo.env "demo" "/work/demo" "/work"
           ["expo-camera"] (Demo.world (projectFs Demo.emptyFs))).
  vm_compute. reflexivity.
Defined.

(** ** The command, stage by stage *)

Lemma action_run env options w n :
  name options = Some n → n ≠ "" →
  action env options w
  = match getExtraPackagesAsync env options w with
    | (w1, Throw e) => (w1, Throw e)
    | (w1, Return extraPackages) =>
        match createManagedProjectAsync env n (workingDirectory options)
                (record (ConsoleLog logCreating) w1) with
        | (w2, Throw e) => (w2, Throw e)
        | (w2, Return projectDir) =>
            match prebuildProjectAsync env n projectDir (workingDirectory options)
                    extraPackages (record (ConsoleLog logPrebuilding) w2) with
            | (w3, Throw e) => (w3, Throw e)
            | (w3, Return _) =>
                match chdir projectDir w3 with
                | (w4, Throw e) => (w4, Throw e)
                | (w4, Return _) =>
                    spawnAsync env "yarn" [] None
                      (record (ConsoleLog logInstalling) w4)
                end
            end
        end
    end.
Proof.
  intros Hname Hne. unfold action. rewrite Hname.
  apply String.eqb_neq in Hne. unfold Js.truthy. rewrite Hne.
  change (negb (negb false)) with false. cbv iota.
  unfold bind at 1.
  destruct (getExtraPackagesAsync env options w) as [w1 [extraPackages|e]]; [|done].
  unfold bind at 1, consoleLog at 1. unfold bind at 1.
  fold logCreating.
  destruct (createManagedProjectAsync env n _ _) as [w2 [projectDir|e]]; [|done].
  unfold bind at 1, consoleLog at 1. unfold bind at 1.
  fold logPrebuilding.
  destruct (prebuildProjectAsync env n projectDir _ _ _) as [w3 [[]|e]]; [|done].
  unfold bind at 1.
  destruct (chdir projectDir w3) as [w4 [[]|e]]; [|done].
  unfold bind, consoleLog. by fold logInstalling.
Qed.

Lemma createManagedProjectAsync_returns env n workDir w w' projectDir :
  createManagedProjectAsync env n workDir w = (w', Return projectDir) →
  projectDir = Path.join [workDir; n] ∧ cwd w' = cwd w.
Proof.
  unfold createManagedProjectAsync, bind, runExpoCliAsync, perform, ret.
  destruct (expoCli env _ _ _ (fs w)) as [fs1 [e|]]; [done|].
  by intros [= <- <-].
Qed.

Lemma prebuildProjectAsync_keeps_cwd env n projectDir workDir extras w w' completion :
  prebuildProjectAsync env n projectDir workDir extras w = (w', completion) →
  cwd w' = cwd w.
Proof.
  rewrite prebuildProjectAsync_run, packBareTemplate_run. cbv zeta.
  destruct (mergeAppJson env _ _ (fs w)) as [fs1 [e|]]; [by intros [= <- _]|].
  destruct (spawn env _ _ _ fs1) as [fs2 [e|]]; [by intros [= <- _]|].
  destruct (List.filter _ (files fs2)) as [|tarball others];
    [by intros [= <- _]|].
  destruct (Js.truthy tarball); [|by intros [= <- _]].
  rewrite prebuildFromTarball_run. simpl.
  destruct (expoCli env _ _ _ fs2) as [fs3 failure].
  destruct (bool_decide (tarball ∈ files fs3)); [|by intros [= <- _]].
  destruct failure as [e|]; [by intros [= <- _]|].
  intros Hrun. by apply setupPackageJson_keeps_files in Hrun as [_ ->].
Qed.

(** X19. When the selection fails, the command fails with the same error
    and has created nothing: the file system and the working directory are
    as before, and the only interactions were the lookup of [expo] and
    listings of the catalog and of the changed files. *)
Theorem command_stops_at_a_failed_selection env options w w1 n e :
  name options = Some n → n ≠ "" →
  getExtraPackagesAsync env options w = (w1, Throw e) →
  action env options w = (w1, Throw e)
  ∧ fs w1 = fs w ∧ cwd w1 = cwd w
  ∧ ∃ events,
      trace w1 = trace w ++ GetPackageByName "expo" :: events
      ∧ Forall isQuery events.
Proof.
  intros Hname Hne Hselect. rewrite (action_run env options w n) by done.
  rewrite Hselect. split; [done|].
  by apply getExtraPackagesAsync_only_reads in Hselect.
Qed.

Lemma command_stops_at_a_failed_selection_witness :
  let w := Demo.world Demo.emptyFs in
  let w1 := record (GetPackageByName "expo") w in
  action envWithoutExpo (Demo.options (Some "demo") "expo-camera") w
  = (w1, Throw expoNotFound)
  ∧ fs w1 = fs w ∧ cwd w1 = cwd w
  ∧ ∃ events,
      trace w1 = trace w ++ GetPackageByName "expo" :: events
      ∧ Forall isQuery events.
Proof.
  apply (command_stops_at_a_failed_selection envWithoutExpo
           (Demo.options (Some "demo") "expo-camera") (Demo.world Demo.emptyFs)
           _ "demo").
  - reflexivity.
  - discriminate.
  - vm_compute. reflexivity.
Defined.

(** X20. When the command completes, the name was given and not empty, the
    process is in the project directory, [workingDirectory/name] resolved
    from the directory it started in, and the last interactions are the
    change of directory, the heading and [yarn]. *)
Theorem command_ends_in_the_project_directory env options w w' :
  action env options w = (w', Return tt) →
  ∃ n before,
    name options = Some n ∧ n ≠ ""
    ∧ cwd w' = Path.resolve (cwd w) (Path.join [workingDirectory options; n])
    ∧ trace w'
      = before ++ [Chdir (Path.join [workingDirectory options; n]);
                   ConsoleLog logInstalling; Spawn "yarn" [] None].
Proof.
  intros Hrun.
  destruct (name options) as [n|] eqn:Hname; [|by unfold action in Hrun; rewrite Hname in Hrun].
  destruct (decide (n = "")) as [->|Hne];
    [by unfold action in Hrun; rewrite Hname in Hrun|].
  rewrite (action_run env options w n) in Hrun by done.
  destruct (getExtraPackagesAsync env options w) as [w1 [extraPackages|e]] eqn:Hselect;
    [|done].
  apply getExtraPackagesAsync_only_reads in Hselect as (_ & Hcwd1 & _).
  destruct (createManagedProjectAsync env n _ _) as [w2 [projectDir|e]] eqn:Hcreate;
    [|done].
  apply createManagedProjectAsync_returns in Hcreate as [-> Hcwd2].
  destruct (prebuildProjectAsync env n _ _ _ _) as [w3 [[]|e]] eqn:Hprebuild; [|done].
  apply prebuildProjectAsync_keeps_cwd in Hprebuild as Hcwd3.
  unfold chdir in Hrun.
  destruct (bool_decide (_ ∈ directories (fs w3))); [|done].
  unfold spawnAsync, perform in Hrun. simpl in Hrun.
  destruct (spawn env "yarn" [] None (fs w3)) as [fs5 [e|]]; [done|].
  injection Hrun as <-. simpl.
  exists n, (trace w3). split_and!; try done.
  - rewrite Hcwd3. simpl. rewrite Hcwd2. simpl. by rewrite Hcwd1.
  - by rewrite <- !app_assoc.
Qed.

Lemma command_ends_in_the_project_directory_witness :
  let w := Demo.world Demo.emptyFs in
  let w' := (action Demo.env (Demo.options (Some "demo") "changed") w).1 in
  ∃ n before,
    Some "demo" = Some n ∧ n ≠ ""
    ∧ cwd w' = Path.resolve (cwd w) (Path.join ["/work"; n])
    ∧ trace w'
      = before ++ [Chdir (Path.join ["/work"; n]);
                   ConsoleLog logInstalling; Spawn "yarn" [] None].
Proof.
  apply (command_ends_in_the_project_directory Demo.env
           (Demo.options (Some "demo") "changed") (Demo.world Demo.emptyFs)).
  vm_compute. reflexivity.
Defined.

(** X21. When [expo prebuild] succeeds but the archive is no longer there
    afterwards, [unlink] fails and the command fails with its error: the
    manifest is not read and not rewritten. *)
Theorem prebuild_that_consumes_the_archive_fails
    env name projectDir workDir extras w w1 tarball fs2 :
  packBareTemplate env name projectDir workDir w = (w1, Return tarball) →
  expoCli env "prebuild" (prebuildArgs tarball) projectDir (fs w1) = (fs2, None) →
  tarball ∉ files fs2 →
  prebuildProjectAsync env name projectDir workDir extras w
  = ({| fs := fs2; cwd := cwd w1;
        trace := trace w1 ++ [RunExpoCli "prebuild" (prebuildArgs tarball) projectDir;
                              Unlink tarball] |},
     Throw (ENOENT tarball)).
Proof.
  intros Hpack Hcli Hgone.
  rewrite prebuildProjectAsync_run, Hpack, prebuildFromTarball_run, Hcli.
  by rewrite bool_decide_eq_false_2.
Qed.

Lemma prebuild_that_consumes_the_archive_fails_witness :
  let w1 := packedWorld envConsumingArchive Demo.emptyFs in
  prebuildProjectAsync envConsumingArchive "demo" "/work/demo" "/work"
    ["expo-camera"] (Demo.world (projectFs Demo.emptyFs))
  = ({| fs := {| files := []; directories := directories (fs w1);
                 packageJsons := packageJsons (fs w1) |};
        cwd := cwd w1;
        trace := trace w1 ++ [RunExpoCli "prebuild" (prebuildArgs demoTarball)
                                "/work/demo";
                              Unlink demoTarball] |},
     Throw (ENOENT demoTarball)).
Proof.
  apply (prebuild_that_consumes_the_archive_fails envConsumingArchive "demo"
           "/work/demo" "/work" ["expo-camera"]
           (Demo.world (projectFs Demo.emptyFs))).
  - vm_compute. reflexivity.
  - reflexivity.
  - intros Hin. by apply elem_of_nil in Hin.
Defined.
